(** * telegram-card-shop-bot: the card store, its sanitizer, the rate
    limiters and the workflow sessions, embedded from the Python sources

    Sources embedded here:
    - [app/bot/config.py]: the constants;
    - [app/bot/database.py]: sanitizer, TinyDB-backed store, backups,
      reviews, average rating;
    - [app/bot/handlers/helpers.py]: session timeout and rate limiters;
    - [app/bot/handlers/cards.py], [app/bot/handlers/reviews.py]: the
      workflow handlers that drive the store.

    Conventions.  A Python [str] is its list of Unicode code points.  Python
    [int] is [Z].  Values of [time.time()] are rationals ([Q]), and the
    rounding of the arithmetic on them is not modelled.  The float that the
    division of two integers returns is the rational it stands for, with
    the rounding and the overflow of a double.  Exceptions are values of
    [exn] carried by [result].  The behaviour of the libraries that differs
    between their releases (TinyDB on a missing [doc_id]) is a parameter. *)

From Stdlib Require Import ZArith QArith Qabs Qround List Lia Lqa.
From stdpp Require Import gmap list sorting strings.

Set Default Proof Using "Type".
Local Open Scope Z_scope.

(** ** Python text *)

Abbreviation char := N (only parsing).
Abbreviation str := (list N) (only parsing).

(** [s2l "abc"] is the Python literal ['abc']. *)
Definition s2l (s : string) : str :=
  map Ascii.N_of_ascii (String.list_ascii_of_string s).

(** The builtins of Python and of its standard library that the sources call
    on text.  They depend on the Unicode database of the interpreter, so the
    embedding takes them as an interface. *)
Class PyText := {
  (** [c.isprintable()] for a one-character string *)
  isprintable : char -> bool;
  (** the characters removed by [str.strip()] *)
  isspace : char -> bool;
  (** [c.upper()] for a one-character string (may be several characters) *)
  upper : char -> str;
  (** [s.title()] *)
  str_title : str -> str;
  (** [Path(s).suffix.lower()] *)
  path_suffix_lower : str -> str;
  (** [Path(s).suffix] *)
  path_suffix : str -> str;
  (** [int(s)]; [None] when it raises [ValueError] *)
  int_of_str : str -> option Z;
}.

(** Exceptions the embedded code raises or lets escape. *)
Inductive exn :=
| ValueError (msg : string)
| KeyError (key : string)
| AttributeError
| ZeroDivisionError
| TypeError
| OverflowError
| ValidationError.

Inductive result (A : Type) :=
| Ok (a : A)
| Raise (e : exn).
Arguments Ok {A} a.
Arguments Raise {A} e.

(** Sequencing that stops at the first exception; written [x ← m; k]. *)
#[global] Instance result_ret : MRet result := fun _ a => Ok a.
#[global] Instance result_bind : MBind result := fun _ _ k m =>
  match m with
  | Ok a => k a
  | Raise e => Raise e
  end.

(** [s[:n]] *)
Definition slice_to (n : Z) (s : str) : str :=
  if 0 <=? n then take (Z.to_nat n) s
  else take (Z.to_nat (Z.of_nat (length s) + n)) s.

(** [s.split(sep)] for a one-character separator. *)
Fixpoint split_on (sep : char) (s : str) : list str :=
  match s with
  | [] => [[]]
  | c :: s' =>
      if N.eqb c sep then [] :: split_on sep s'
      else match split_on sep s' with
           | w :: ws => (c :: w) :: ws
           | [] => [[c]]
           end
  end.

Fixpoint startswith (p s : str) : bool :=
  match p, s with
  | [], _ => true
  | a :: p', b :: s' => N.eqb a b && startswith p' s'
  | _ :: _, [] => false
  end.

Definition str_eqb (a b : str) : bool := bool_decide (a = b).

Fixpoint lstrip `{PyText} (s : str) : str :=
  match s with
  | c :: s' => if isspace c then lstrip s' else s
  | [] => []
  end.

(** [s.strip()] *)
Definition strip `{PyText} (s : str) : str :=
  rev (lstrip (rev (lstrip s))).

(** ** config.py *)

Definition MAX_TITLE_LENGTH : Z := 100.
Definition MAX_DESCRIPTION_LENGTH : Z := 500.
Definition RATE_LIMIT_WINDOW : Q := 5.
Definition FSM_TIMEOUT_SECONDS : Q := 300.
Definition MAX_VIDEO_SIZE_MB : Z := 50.
Definition MAX_BACKUPS_KEPT : nat := 5.

Definition VALID_CATEGORIES : list str :=
  [s2l "yugioh"; s2l "pokemon"; s2l "magic"; s2l "altro"].

(** [ADMIN_IDS] is read from the environment at start-up. *)
Class Config := { ADMIN_IDS : list Z }.

(** ** database.py: validation and sanitization *)

Definition validate_category (category : str) : bool :=
  bool_decide (category ∈ VALID_CATEGORIES).

(** The character class of [_MARKDOWN_SPECIAL_RE]. *)
Definition MARKDOWN_SPECIAL : str := s2l "_*[]()~`>#+=|{}.!-".

(** The characters of the literal passed to [set] in [sanitize_text]: colon,
    braces, brackets, ampersand, star, hash, bar, greater-than, the two
    quotes (34 is the double quote), percent, at and backquote. *)
Definition yaml_special_start : str :=
  s2l ":{}[]&*#|>'" ++ [34%N] ++ s2l "%%@`".

Definition in_chars (c : char) (cs : str) : bool := bool_decide (c ∈ cs).

(** [_MARKDOWN_SPECIAL_RE.sub]: every special character gets a backslash
    (92) in front. *)
Definition escape_markdown_chars (text : str) : str :=
  flat_map (fun c => if in_chars c MARKDOWN_SPECIAL then [92%N; c] else [c]) text.

Definition sanitize_text `{PyText} (text : str) (max_length : option Z)
    (escape_markdown : bool) : str :=
  match text with
  | [] => []
  | _ =>
      (* 10 is the newline, 9 the tab *)
      let text := filter (fun c => isprintable c || in_chars c [10%N; 9%N] = true) text in
      let text := strip text in
      let text :=
        match text with
        | c :: _ => if in_chars c yaml_special_start then 32%N :: text else text
        | [] => text
        end in
      let text := if escape_markdown then escape_markdown_chars text else text in
      match max_length with
      | Some n =>
          if negb (n =? 0) && (n <? Z.of_nat (length text))
          then slice_to n text else text
      | None => text
      end
  end.

Definition format_description `{PyText} (text : str) : str :=
  let text := sanitize_text text None false in
  match text with
  | c :: rest => upper c ++ rest
  | [] => text
  end.

Definition valid_extensions : list str :=
  [s2l ".mp4"; s2l ".mov"; s2l ".avi"; s2l ".mkv"; s2l ".webm"; s2l ".flv";
   s2l ".mpeg"; s2l ".mpg"].

Definition validate_video_mimetype `{PyText} (file_name : option str) : bool :=
  match file_name with
  | None | Some [] => true
  | Some name =>
      let file_ext := path_suffix_lower name in
      bool_decide (file_ext ∈ valid_extensions) || str_eqb file_ext []
  end.

(** ** database.py: backups *)

(** Python compares strings lexicographically by code point. *)
Fixpoint str_leb (a b : str) : bool :=
  match a, b with
  | [], _ => true
  | _ :: _, [] => false
  | x :: a', y :: b' =>
      if N.ltb x y then true
      else if N.eqb x y then str_leb a' b' else false
  end.

(** The order of [sorted(..., key=lambda p: p.name, reverse=True)]. *)
Definition name_ge (a b : str) : Prop := str_leb b a = true.

#[global] Instance name_ge_dec : RelDecision name_ge.
Proof. intros a b. unfold name_ge. apply _. Defined.

(** What the operating system answers to the calls of one operation: the
    clock, and whether the copy and each unlink of [backup_database]
    succeed. *)
Record world := {
  now : Q;                    (* time.time() *)
  stamp : str;                (* datetime.now(tz=UTC).strftime("%Y%m%d_%H%M%S") *)
  copy_ok : bool;             (* shutil.copy2 returns normally *)
  can_unlink : str -> bool;   (* old_backup.unlink() returns normally *)
}.

Definition backup_file_name (timestamp : str) : str :=
  s2l "cards_backup_" ++ timestamp ++ s2l ".yaml".

(** The filter of the listing in [backup_database]. *)
Definition is_backup `{PyText} (name : str) : bool :=
  startswith (s2l "cards_backup_") name && str_eqb (path_suffix name) (s2l ".yaml").

(** The listing of the backup directory after the copy, newest name first. *)
Definition sorted_backups `{PyText} (dir : gset str) : list str :=
  merge_sort name_ge (filter (fun f => is_backup f = true) (elements dir)).

(** [backup_database], on the set of file names of [data/backups].  A failed
    copy is logged and ends the function; a failed unlink is logged and the
    loop goes on. *)
Definition backup_database `{PyText} (w : world) (dir : gset str) : gset str :=
  if copy_ok w then
    let dir := {[ backup_file_name (stamp w) ]} ∪ dir in
    let backups := sorted_backups dir in
    foldl (fun dir old_backup =>
             if can_unlink w old_backup then dir ∖ {[ old_backup ]} else dir)
          dir (drop MAX_BACKUPS_KEPT backups)
  else dir.

(** ** database.py: the TinyDB table of cards *)

(** What a mapping holds under [rating]: an integer (a YAML boolean is one
    too, for Python), or a node that is no number (null, text, a sequence,
    a mapping).  A hand-edited file can also hold a float there; floats are
    outside the embedding. *)
Inductive rating_value :=
| Stars (z : Z)
| NotANumber.

(** A stored review.  [user_id] and [rating] are read with [dict.get], so a
    mapping of a hand-edited file may lack them. *)
Record review := {
  user_id : option Z;
  rating : option rating_value;
  comment : str;
  timestamp : Q;
}.

(** An element of a [reviews] list: a mapping, or any other YAML node. *)
Inductive entry :=
| Mapping (r : review)
| NotMapping.

Record card := {
  category : str;
  title : str;
  video_id : str;
  description : str;
  reviews : list entry;
}.

(** TinyDB's default table: the documents by id, and the cached [_next_id]
    of the running process ([None] until the first insertion). *)
Record table := {
  docs : gmap Z card;
  next_id : option Z;
}.

Definition max_doc_id (m : gmap Z card) : option Z :=
  map_fold (fun k _ acc =>
              match acc with
              | None => Some k
              | Some a => Some (Z.max k a)
              end) None m.

(** [Table._get_next_id] *)
Definition get_next_id (t : table) : Z * table :=
  let n :=
    match next_id t with
    | Some n => n
    | None =>
        match max_doc_id (docs t) with
        | None => 1
        | Some max_id => max_id + 1
        end
    end in
  (n, {| docs := docs t; next_id := Some (n + 1) |}).

(** [db.insert(document)] *)
Definition db_insert (document : card) (t : table) : result Z * table :=
  let '(doc_id, t) := get_next_id t in
  match docs t !! doc_id with
  | Some _ => (Raise (ValueError "Document with this ID already exists"), t)
  | None => (Ok doc_id, {| docs := <[doc_id := document]> (docs t); next_id := next_id t |})
  end.

(** [db.get(doc_id=...)] *)
Definition db_get (doc_id : Z) (t : table) : option card := docs t !! doc_id.

(** TinyDB is a dependency of the bot, not part of its sources, and its
    releases differ in what [update] and [remove] do with an entry of
    [doc_ids] that is not stored: release 4.8.2 raises [KeyError], release
    4.9.0 skips the entry and returns normally.  database.py checks nothing
    itself, so the embedding takes the behaviour of the installed release
    as a parameter. *)
Class TinyDB := {
  missing_doc_id_raises : bool;
}.

(** What [update] and [remove] do with a [doc_id] that is not stored. *)
Definition missing_doc_id {release : TinyDB} (t : table) : result table :=
  if missing_doc_id_raises then Raise (KeyError "doc_id") else Ok t.

(** [db.update(fields, doc_ids=[doc_id])] *)
Definition db_update {release : TinyDB} (fields : card -> card) (doc_id : Z) (t : table)
    : result table :=
  match docs t !! doc_id with
  | Some _ => Ok {| docs := alter fields doc_id (docs t); next_id := next_id t |}
  | None => missing_doc_id t
  end.

(** [db.remove(doc_ids=[doc_id])] *)
Definition db_remove {release : TinyDB} (doc_id : Z) (t : table) : result table :=
  match docs t !! doc_id with
  | Some _ => Ok {| docs := delete doc_id (docs t); next_id := next_id t |}
  | None => missing_doc_id t
  end.

Definition set_title (v : str) (c : card) : card :=
  {| category := category c; title := v; video_id := video_id c;
     description := description c; reviews := reviews c |}.
Definition set_video_id (v : str) (c : card) : card :=
  {| category := category c; title := title c; video_id := v;
     description := description c; reviews := reviews c |}.
Definition set_description (v : str) (c : card) : card :=
  {| category := category c; title := title c; video_id := video_id c;
     description := v; reviews := reviews c |}.
Definition set_reviews (v : list entry) (c : card) : card :=
  {| category := category c; title := title c; video_id := video_id c;
     description := description c; reviews := v |}.

(** The persisted state: the table and the names in the backup directory. *)
Record database := {
  db : table;
  backup_dir : gset str;
}.

(** ** database.py: operations *)

(** The generator of [_check]: [None == user_id] and a missing key are both
    false; an element that is not a mapping has no [get]. *)
Fixpoint any_by_user (u : Z) (rs : list entry) : result bool :=
  match rs with
  | [] => Ok false
  | Mapping r :: rs' =>
      if bool_decide (user_id r = Some u) then Ok true else any_by_user u rs'
  | NotMapping :: _ => Raise AttributeError
  end.

Definition user_has_reviewed (card_id u : Z) (d : database) : bool :=
  let _check : result bool :=
    match db_get card_id (db d) with
    | None => Ok false
    | Some card => any_by_user u (reviews card)
    end in
  match _check with
  | Ok b => b
  | Raise _ => false
  end.

Definition add_card `{PyText} (w : world) (category title video_id description : str)
    (d : database) : result Z * database :=
  let title := sanitize_text (str_title (strip title)) None false in
  let description := format_description description in
  let _insert :=
    db_insert {| category := category; title := title; video_id := video_id;
                 description := description; reviews := [] |} (db d) in
  match _insert with
  | (Ok result, t) =>
      (Ok result, {| db := t; backup_dir := backup_database w (backup_dir d) |})
  | (Raise e, t) => (Raise e, {| db := t; backup_dir := backup_dir d |})
  end.

Definition get_card (card_id : Z) (d : database) : option card :=
  db_get card_id (db d).

Definition delete_card `{PyText} {release : TinyDB}
    (w : world) (card_id : Z) (d : database)
    : result unit * database :=
  let dir := backup_database w (backup_dir d) in
  match db_remove card_id (db d) with
  | Ok t => (Ok tt, {| db := t; backup_dir := dir |})
  | Raise e => (Raise e, {| db := db d; backup_dir := dir |})
  end.

(** The common shape of the three [update_card_*] functions once the new
    value is computed: [_update], then [backup_database], under the lock. *)
Definition update_then_backup `{PyText} {release : TinyDB}
    (w : world) (fields : card -> card)
    (card_id : Z) (d : database) : result unit * database :=
  match db_update fields card_id (db d) with
  | Ok t => (Ok tt, {| db := t; backup_dir := backup_database w (backup_dir d) |})
  | Raise e => (Raise e, d)
  end.

Definition update_card_video `{PyText} {release : TinyDB}
    (w : world) (card_id : Z) (video_id : str)
    (d : database) : result unit * database :=
  update_then_backup w (set_video_id video_id) card_id d.

Definition update_card_title `{PyText} {release : TinyDB}
    (w : world) (card_id : Z) (new_title : str)
    (d : database) : result unit * database :=
  let new_title := sanitize_text (str_title (strip new_title)) None false in
  update_then_backup w (set_title new_title) card_id d.

Definition update_card_description `{PyText} {release : TinyDB}
    (w : world) (card_id : Z)
    (new_description : str) (d : database) : result unit * database :=
  let new_description := format_description new_description in
  update_then_backup w (set_description new_description) card_id d.

(** The inner [_add] of [add_review]; [comment] is already sanitized. *)
Definition _add {release : TinyDB}
    (w : world) (card_id u rating : Z) (comment : str) (t : table) : table :=
  match db_get card_id t with
  | Some card =>
      let reviews :=
        reviews card ++
        [Mapping {| user_id := Some u; rating := Some (Stars rating);
                    comment := comment; timestamp := now w |}] in
      match db_update (set_reviews reviews) card_id t with
      | Ok t' => t'
      | Raise _ => t
      end
  | None => t
  end.

Definition DuplicateReview : exn := ValueError "User has already reviewed this card".

Definition add_review `{PyText} {release : TinyDB}
    (w : world) (card_id u rating : Z) (comment : str)
    (d : database) : result unit * database :=
  if user_has_reviewed card_id u d then (Raise DuplicateReview, d)
  else
    let comment := sanitize_text comment (Some 200) false in
    (Ok tt, {| db := _add w card_id u rating comment (db d); backup_dir := backup_dir d |}).

(** ** database.py: calculations *)

(** Rounding of the quotient [n / d], for a positive [d], to the nearest
    integer, a tie going to the even one. *)
Definition round_half_even (n d : Z) : Z :=
  let q := n `div` d in
  match 2 * (n `mod` d) ?= d with
  | Lt => q
  | Gt => q + 1
  | Eq => if Z.even q then q else q + 1
  end.

(** The exponent [e] with [2^e <= a / b < 2^(e+1)], for positive [a], [b]. *)
Definition exponent_of_ratio (a b : Z) : Z :=
  let e := Z.log2 a - Z.log2 b in
  let reached := if 0 <=? e then b * 2 ^ e <=? a else b <=? a * 2 ^ (- e) in
  if reached then e else e - 1.

(** The float that is nearest to [a / b], for positive integers [a] and
    [b]: an IEEE 754 double has 53 significant bits and a last bit worth at
    least [2^-1074]; ties go to the even significand; a result of [2^1024]
    or more does not exist and raises [OverflowError]. *)
Definition nearest_double (a b : Z) : result Q :=
  let e := exponent_of_ratio a b in
  let last_bit := Z.max (e - 52) (-1074) in
  if 0 <=? last_bit then
    let m := round_half_even a (b * 2 ^ last_bit) in
    if 2 ^ 1024 <=? m * 2 ^ last_bit then Raise OverflowError
    else Ok (inject_Z (m * 2 ^ last_bit))
  else
    Ok (round_half_even (a * 2 ^ (- last_bit)) b # Z.to_pos (2 ^ (- last_bit))).

(** [a / b] for two integers: true division, which raises on a zero divisor
    and returns the correctly rounded float of the exact quotient. *)
Definition py_truediv (a b : Z) : result Q :=
  if b =? 0 then Raise ZeroDivisionError
  else if a =? 0 then Ok 0%Q
  else
    x ← nearest_double (Z.abs a) (Z.abs b);
    Ok (if xorb (a <? 0) (b <? 0) then (- x)%Q else x).

(** [isinstance(r, dict)] *)
Definition isinstance_dict (e : entry) : bool :=
  match e with
  | Mapping _ => true
  | NotMapping => false
  end.

(** [r.get("rating", 0)] on an element that passed [isinstance_dict]. *)
Definition get_rating_or_0 (e : entry) : rating_value :=
  match e with
  | Mapping r => default (Stars 0) (rating r)
  | NotMapping => Stars 0
  end.

(** [sum(ratings)]: from 0 on, integers are added exactly; adding a node
    that is no number raises [TypeError]. *)
Fixpoint sum_from (start : Z) (l : list rating_value) : result Z :=
  match l with
  | [] => Ok start
  | Stars z :: l' => sum_from (start + z) l'
  | NotANumber :: _ => Raise TypeError
  end.

Definition sum (l : list rating_value) : result Z := sum_from 0 l.

Definition calculate_review_average (reviews : list entry) : result Q :=
  match reviews with
  | [] => Ok 0%Q
  | _ =>
      let ratings :=
        map get_rating_or_0 (filter (fun r => isinstance_dict r = true) reviews) in
      match ratings with
      | [] => Ok 0%Q
      | _ =>
          total ← sum ratings;
          py_truediv total (Z.of_nat (length ratings))
      end
  end.

(** ** handlers/helpers.py: rate limiters *)

Definition Qltb (a b : Q) : bool := negb (Qle_bool b a).

(** [int(x)] for a float: truncation towards zero. *)
Definition int_of_float (x : Q) : Z := Z.quot (Qnum x) (Zpos (Qden x)).

(** [min(timestamps)]: the first smallest element; raises on an empty list. *)
Definition py_min (l : list Q) : result Q :=
  match l with
  | [] => Raise (ValueError "min() arg is an empty sequence")
  | t :: ts => Ok (foldl (fun m x => if Qltb x m then x else m) t ts)
  end.

Definition RATE_LIMIT_MAX_MESSAGES : nat := 5.
Definition REVIEW_RATE_LIMIT_MAX : nat := 3.
Definition REVIEW_RATE_LIMIT_WINDOW : Q := 3600.

(** The registries are [defaultdict(list)]: reading a missing user creates
    the empty list. *)
Definition check_rate_limit (w : world) (u : Z) (rate_limit_registry : gmap Z (list Q))
    : bool * gmap Z (list Q) :=
  let now := now w in
  let timestamps := default [] (rate_limit_registry !! u) in
  let timestamps :=
    filter (fun t => Qltb (now - t) RATE_LIMIT_WINDOW = true) timestamps in
  if (RATE_LIMIT_MAX_MESSAGES <=? length timestamps)%nat
  then (false, <[u := timestamps]> rate_limit_registry)
  else (true, <[u := timestamps ++ [now]]> rate_limit_registry).

Definition check_review_rate_limit (w : world) (u : Z)
    (review_rate_limit_registry : gmap Z (list Q))
    : result (bool * Z) * gmap Z (list Q) :=
  let now := now w in
  let timestamps := default [] (review_rate_limit_registry !! u) in
  let timestamps :=
    filter (fun t => Qltb (now - t) REVIEW_RATE_LIMIT_WINDOW = true) timestamps in
  if (REVIEW_RATE_LIMIT_MAX <=? length timestamps)%nat
  then
    (oldest ← py_min timestamps;
     let remaining := int_of_float (REVIEW_RATE_LIMIT_WINDOW - (now - oldest)) in
     Ok (false, remaining),
     <[u := timestamps]> review_rate_limit_registry)
  else (Ok (true, 0), <[u := timestamps ++ [now]]> review_rate_limit_registry).

(** ** handlers/states.py and the aiogram FSM context *)

Inductive State :=
| UploadCard_write_title
| UploadCard_send_video
| UploadCard_write_description
| LeaveReview_choose_rating
| LeaveReview_write_comment
| UpdateCardVideo_send_video
| UpdateCardTitle_write_title
| UpdateCardDescription_write_description.

#[global] Instance State_eq_dec : EqDecision State.
Proof. solve_decision. Defined.

(** The keys the handlers put into the FSM data of a user. *)
Record fsm_data := {
  data_category : option str;
  data_title : option str;
  data_video_id : option str;
  data_card_id : option str;
  data_card_title : option str;
  data_rating : option Z;
}.

Definition no_data : fsm_data :=
  {| data_category := None; data_title := None; data_video_id := None;
     data_card_id := None; data_card_title := None; data_rating := None |}.

Record session := {
  state : option State;
  data : fsm_data;
}.

(** What [FSMContext] reads for a user without a stored state, and what
    [state.clear()] leaves. *)
Definition cleared : session := {| state := None; data := no_data |}.

(** The process: the database and the in-memory registries of helpers.py. *)
Record bot := {
  store : database;
  fsm : gmap Z session;
  fsm_timestamps : gmap Z Q;
  rate_limit_registry : gmap Z (list Q);
  review_rate_limit_registry : gmap Z (list Q);
}.

Definition with_store (d : database) (b : bot) : bot :=
  {| store := d; fsm := fsm b; fsm_timestamps := fsm_timestamps b;
     rate_limit_registry := rate_limit_registry b;
     review_rate_limit_registry := review_rate_limit_registry b |}.
Definition with_fsm (f : gmap Z session) (b : bot) : bot :=
  {| store := store b; fsm := f; fsm_timestamps := fsm_timestamps b;
     rate_limit_registry := rate_limit_registry b;
     review_rate_limit_registry := review_rate_limit_registry b |}.
Definition with_fsm_timestamps (ts : gmap Z Q) (b : bot) : bot :=
  {| store := store b; fsm := fsm b; fsm_timestamps := ts;
     rate_limit_registry := rate_limit_registry b;
     review_rate_limit_registry := review_rate_limit_registry b |}.
Definition with_review_rate_limit_registry (r : gmap Z (list Q)) (b : bot) : bot :=
  {| store := store b; fsm := fsm b; fsm_timestamps := fsm_timestamps b;
     rate_limit_registry := rate_limit_registry b;
     review_rate_limit_registry := r |}.

Definition session_of (u : Z) (b : bot) : session := default cleared (fsm b !! u).

(** [await state.get_data()] *)
Definition get_data (u : Z) (b : bot) : fsm_data := data (session_of u b).

(** [await state.update_data(...)] *)
Definition update_data (u : Z) (f : fsm_data -> fsm_data) (b : bot) : bot :=
  let s := session_of u b in
  with_fsm (<[u := {| state := state s; data := f (data s) |}]> (fsm b)) b.

(** [await state.set_state(s)] *)
Definition set_state (u : Z) (s : State) (b : bot) : bot :=
  with_fsm (<[u := {| state := Some s; data := data (session_of u b) |}]> (fsm b)) b.

(** [await state.clear()] *)
Definition state_clear (u : Z) (b : bot) : bot :=
  with_fsm (delete u (fsm b)) b.

(** [fsm_timestamps.pop(user_id, None)] *)
Definition pop_timestamp (u : Z) (b : bot) : bot :=
  with_fsm_timestamps (delete u (fsm_timestamps b)) b.

(** A state filter of a router decorator. *)
Definition in_state (u : Z) (s : State) (b : bot) : bool :=
  bool_decide (state (session_of u b) = Some s).

(** ** handlers/helpers.py: session timeout *)

Definition check_fsm_timeout (w : world) (u : Z) (b : bot) : bool * bot :=
  let now := now w in
  let last_action := default 0%Q (fsm_timestamps b !! u) in
  if Qltb 0 last_action && Qltb FSM_TIMEOUT_SECONDS (now - last_action)
  then (false, pop_timestamp u (state_clear u b))
  else (true, with_fsm_timestamps (<[u := now]> (fsm_timestamps b)) b).

(** ** Telegram updates and the answers of the handlers *)

Record video := {
  file_id : str;
  file_size : option Z;
  file_name : option str;
}.

Record message := {
  from_user : Z;
  text : option str;
  msg_video : option video;
}.

Record callback := {
  cb_from_user : Z;
  cb_data : str;
}.

(** The locale string a handler answers with; [NotHandled] when the filter
    of its decorator does not match, [NoAnswer] when it returns silently,
    [Escaped e] when an exception leaves the handler, and
    [AnsweredThenEscaped sent e] when it leaves the handler after the
    answer [sent] has gone out. *)
Inductive reply :=
| NotHandled
| NoAnswer
| Escaped (e : exn)
| WARN_SESSION_EXPIRED
| WARN_TEXT_REQUIRED
| WARN_TITLE_TOO_LONG
| MSG_TITLE_OK
| WARN_VIDEO_TOO_LARGE
| WARN_INVALID_VIDEO_FORMAT
| MSG_VIDEO_OK
| WARN_VIDEO_REQUIRED
| WARN_DESCRIPTION_REQUIRED
| WARN_DESCRIPTION_TOO_LONG
| WARN_MISSING_DATA
| WARN_INVALID_CATEGORY
| MSG_CARD_PUBLISHED
| WARN_SAVE_ERROR
| WARN_ACCESS_DENIED
| MSG_WRITE_TITLE
| WARN_CARD_NOT_FOUND
| MSG_UPDATE_VIDEO
| MSG_VIDEO_UPDATED
| WARN_VIDEO_UPDATE_ERROR
| MSG_UPDATE_TITLE
| WARN_TITLE_UPDATE_TOO_LONG
| WARN_TITLE_EMPTY
| MSG_TITLE_UPDATED
| WARN_TITLE_UPDATE_ERROR
| MSG_UPDATE_DESCRIPTION
| WARN_DESCRIPTION_UPDATE_TOO_LONG
| WARN_DESCRIPTION_EMPTY
| MSG_DESCRIPTION_UPDATED
| WARN_DESCRIPTION_UPDATE_ERROR
| WARN_REVIEW_RATE_LIMIT (minutes : Z)
| WARN_ALREADY_REVIEWED
| MSG_START_REVIEW
| MSG_WRITE_COMMENT
| WARN_WRITE_COMMENT
| WARN_COMMENT_TOO_LONG
| CONFIRM_REVIEW
| ERR_SAVE_REVIEW
| MSG_REVIEW_SAVED
| AnsweredThenEscaped (sent : reply) (e : exn).

Definition len (s : str) : Z := Z.of_nat (length s).

Definition is_admin `{Config} (u : Z) : bool := bool_decide (u ∈ ADMIN_IDS).

(** [get_card] called with the text cut out of callback data: [int(card_id)]
    runs inside the worker, whose exceptions are logged and give [None]. *)
Definition get_card_by_text `{PyText} (card_id : str) (d : database) : option card :=
  match int_of_str card_id with
  | Some n => get_card n d
  | None => None
  end.

(** [message.video.file_size and message.video.file_size > MAX_VIDEO_SIZE_MB * 1024 * 1024] *)
Definition video_too_large (v : video) : bool :=
  match file_size v with
  | None => false
  | Some n => negb (n =? 0) && (MAX_VIDEO_SIZE_MB * 1024 * 1024 <? n)
  end.

Definition put_category (v : str) (d : fsm_data) : fsm_data :=
  {| data_category := Some v; data_title := data_title d;
     data_video_id := data_video_id d; data_card_id := data_card_id d;
     data_card_title := data_card_title d; data_rating := data_rating d |}.
Definition put_title (v : str) (d : fsm_data) : fsm_data :=
  {| data_category := data_category d; data_title := Some v;
     data_video_id := data_video_id d; data_card_id := data_card_id d;
     data_card_title := data_card_title d; data_rating := data_rating d |}.
Definition put_video_id (v : str) (d : fsm_data) : fsm_data :=
  {| data_category := data_category d; data_title := data_title d;
     data_video_id := Some v; data_card_id := data_card_id d;
     data_card_title := data_card_title d; data_rating := data_rating d |}.
Definition put_card_id (v : str) (d : fsm_data) : fsm_data :=
  {| data_category := data_category d; data_title := data_title d;
     data_video_id := data_video_id d; data_card_id := Some v;
     data_card_title := data_card_title d; data_rating := data_rating d |}.
Definition put_card_title (v : str) (d : fsm_data) : fsm_data :=
  {| data_category := data_category d; data_title := data_title d;
     data_video_id := data_video_id d; data_card_id := data_card_id d;
     data_card_title := Some v; data_rating := data_rating d |}.
Definition put_rating (v : Z) (d : fsm_data) : fsm_data :=
  {| data_category := data_category d; data_title := data_title d;
     data_video_id := data_video_id d; data_card_id := data_card_id d;
     data_card_title := data_card_title d; data_rating := Some v |}.

(** ** handlers/cards.py: the Upload workflow *)

Section Handlers.
Context `{PyText} `{Config} {release : TinyDB}.

(** [@router.callback_query(F.data.startswith("addnew_"))] *)
Definition start_add_card (w : world) (cb : callback) (b : bot) : reply * bot :=
  if negb (startswith (s2l "addnew_") (cb_data cb)) then (NotHandled, b) else
  let u := cb_from_user cb in
  if negb (is_admin u) then (WARN_ACCESS_DENIED, b) else
  match split_on 95%N (cb_data cb) !! 1%nat with
  | None => (NoAnswer, b)
  | Some category =>
      if negb (validate_category category) then (WARN_INVALID_CATEGORY, b) else
      let b := update_data u (put_category category) b in
      let b := with_fsm_timestamps (<[u := now w]> (fsm_timestamps b)) b in
      (MSG_WRITE_TITLE, set_state u UploadCard_write_title b)
  end.

(** [@router.message(UploadCard.write_title)] *)
Definition admin_receive_title (w : world) (m : message) (b : bot) : reply * bot :=
  let u := from_user m in
  if negb (in_state u UploadCard_write_title b) then (NotHandled, b) else
  let '(alive, b) := check_fsm_timeout w u b in
  if negb alive then (WARN_SESSION_EXPIRED, b) else
  match text m with
  | None | Some [] => (WARN_TEXT_REQUIRED, b)
  | Some t =>
      if MAX_TITLE_LENGTH <? len t then (WARN_TITLE_TOO_LONG, b) else
      let b := update_data u (put_title t) b in
      (MSG_TITLE_OK, set_state u UploadCard_send_video b)
  end.

(** [@router.message(UploadCard.send_video, F.video)] *)
Definition admin_receive_video (w : world) (m : message) (b : bot) : reply * bot :=
  let u := from_user m in
  match msg_video m with
  | None => (NotHandled, b)
  | Some v =>
      if negb (in_state u UploadCard_send_video b) then (NotHandled, b) else
      let '(alive, b) := check_fsm_timeout w u b in
      if negb alive then (WARN_SESSION_EXPIRED, b) else
      if video_too_large v then (WARN_VIDEO_TOO_LARGE, b) else
      if negb (validate_video_mimetype (file_name v)) then (WARN_INVALID_VIDEO_FORMAT, b) else
      let b := update_data u (put_video_id (file_id v)) b in
      (MSG_VIDEO_OK, set_state u UploadCard_write_description b)
  end.

(** [@router.message(UploadCard.send_video)], reached when the message
    carries no video. *)
Definition admin_video_error (m : message) (b : bot) : reply * bot :=
  if negb (in_state (from_user m) UploadCard_send_video b) then (NotHandled, b)
  else (WARN_VIDEO_REQUIRED, b).

(** [@router.message(UploadCard.write_description)] *)
Definition admin_save_card (w : world) (m : message) (b : bot) : reply * bot :=
  let u := from_user m in
  if negb (in_state u UploadCard_write_description b) then (NotHandled, b) else
  let '(alive, b) := check_fsm_timeout w u b in
  if negb alive then (WARN_SESSION_EXPIRED, b) else
  match text m with
  | None | Some [] => (WARN_DESCRIPTION_REQUIRED, b)
  | Some t =>
      if MAX_DESCRIPTION_LENGTH <? len t then (WARN_DESCRIPTION_TOO_LONG, b) else
      let data := get_data u b in
      match data_category data, data_title data, data_video_id data with
      | Some category, Some title, Some video_id =>
          if negb (validate_category category)
          then (WARN_INVALID_CATEGORY, pop_timestamp u (state_clear u b))
          else
            let '(r, d) := add_card w category title video_id t (store b) in
            let b := pop_timestamp u (state_clear u (with_store d b)) in
            match r with
            | Ok _ => (MSG_CARD_PUBLISHED, b)
            | Raise _ => (WARN_SAVE_ERROR, b)
            end
      | _, _, _ => (WARN_MISSING_DATA, pop_timestamp u (state_clear u b))
      end
  end.

(** ** handlers/cards.py: the three Update workflows *)

(** The shared body of [start_update_video], [start_update_title] and
    [start_update_description], which differ in the callback prefix, the
    state they enter and the prompt. *)
Definition start_update (prefix : string) (s : State) (prompt : reply)
    (w : world) (cb : callback) (b : bot) : reply * bot :=
  if negb (startswith (s2l prefix) (cb_data cb)) then (NotHandled, b) else
  let u := cb_from_user cb in
  if negb (is_admin u) then (WARN_ACCESS_DENIED, b) else
  match split_on 95%N (cb_data cb) !! 1%nat with
  | None => (NoAnswer, b)
  | Some card_id =>
      match get_card_by_text card_id (store b) with
      | None => (WARN_CARD_NOT_FOUND, b)
      | Some card =>
          let b := update_data u (fun d => put_category (category card) (put_card_id card_id d)) b in
          let b := set_state u s b in
          (prompt, with_fsm_timestamps (<[u := now w]> (fsm_timestamps b)) b)
      end
  end.

Definition start_update_video := start_update "updatevideo_" UpdateCardVideo_send_video MSG_UPDATE_VIDEO.
Definition start_update_title := start_update "updatetitle_" UpdateCardTitle_write_title MSG_UPDATE_TITLE.
Definition start_update_description :=
  start_update "updatedesc_" UpdateCardDescription_write_description MSG_UPDATE_DESCRIPTION.

(** The tail shared by the three [receive_updated_*] handlers: read
    [card_id] from the session, call the store inside [try], and clear the
    session only when the store call returned. *)
Definition save_update (u : Z) (b : bot)
    (update : Z -> database -> result unit * database) (done failed : reply)
    : reply * bot :=
  match data_card_id (get_data u b) with
  | None | Some [] => (WARN_MISSING_DATA, pop_timestamp u (state_clear u b))
  | Some card_id =>
      match int_of_str card_id with
      | None => (failed, b)
      | Some n =>
          let '(r, d) := update n (store b) in
          match r with
          | Ok _ => (done, pop_timestamp u (state_clear u (with_store d b)))
          | Raise _ => (failed, with_store d b)
          end
      end
  end.

(** [@router.message(UpdateCardVideo.send_video, F.video)] *)
Definition receive_updated_video (w : world) (m : message) (b : bot) : reply * bot :=
  let u := from_user m in
  match msg_video m with
  | None => (NotHandled, b)
  | Some v =>
      if negb (in_state u UpdateCardVideo_send_video b) then (NotHandled, b) else
      let '(alive, b) := check_fsm_timeout w u b in
      if negb alive then (WARN_SESSION_EXPIRED, b) else
      if video_too_large v then (WARN_VIDEO_TOO_LARGE, b) else
      if negb (validate_video_mimetype (file_name v)) then (WARN_INVALID_VIDEO_FORMAT, b) else
      save_update u b (fun n => update_card_video w n (file_id v))
        MSG_VIDEO_UPDATED WARN_VIDEO_UPDATE_ERROR
  end.

(** [@router.message(UpdateCardTitle.write_title, F.text)] *)
Definition receive_updated_title (w : world) (m : message) (b : bot) : reply * bot :=
  let u := from_user m in
  match text m with
  | None | Some [] => (NotHandled, b)
  | Some t =>
      if negb (in_state u UpdateCardTitle_write_title b) then (NotHandled, b) else
      let '(alive, b) := check_fsm_timeout w u b in
      if negb alive then (WARN_SESSION_EXPIRED, b) else
      let new_title := strip t in
      if MAX_TITLE_LENGTH <? len new_title then (WARN_TITLE_UPDATE_TOO_LONG, b) else
      if len new_title =? 0 then (WARN_TITLE_EMPTY, b) else
      save_update u b (fun n => update_card_title w n new_title)
        MSG_TITLE_UPDATED WARN_TITLE_UPDATE_ERROR
  end.

(** [@router.message(UpdateCardDescription.write_description, F.text)] *)
Definition receive_updated_description (w : world) (m : message) (b : bot) : reply * bot :=
  let u := from_user m in
  match text m with
  | None | Some [] => (NotHandled, b)
  | Some t =>
      if negb (in_state u UpdateCardDescription_write_description b) then (NotHandled, b) else
      let '(alive, b) := check_fsm_timeout w u b in
      if negb alive then (WARN_SESSION_EXPIRED, b) else
      let new_description := strip t in
      if MAX_DESCRIPTION_LENGTH <? len new_description
      then (WARN_DESCRIPTION_UPDATE_TOO_LONG, b) else
      if len new_description =? 0 then (WARN_DESCRIPTION_EMPTY, b) else
      save_update u b (fun n => update_card_description w n new_description)
        MSG_DESCRIPTION_UPDATED WARN_DESCRIPTION_UPDATE_ERROR
  end.

(** ** handlers/reviews.py: the Review workflow *)

(** [@router.callback_query(F.data.startswith("review_"))] *)
Definition start_review (w : world) (cb : callback) (b : bot) : reply * bot :=
  if negb (startswith (s2l "review_") (cb_data cb)) then (NotHandled, b) else
  match split_on 95%N (cb_data cb) !! 1%nat with
  | None => (NoAnswer, b)
  | Some card_id =>
      let u := cb_from_user cb in
      let '(limit, registry) := check_review_rate_limit w u (review_rate_limit_registry b) in
      let b := with_review_rate_limit_registry registry b in
      match limit with
      | Raise e => (Escaped e, b)
      | Ok (false, remaining_seconds) =>
          (WARN_REVIEW_RATE_LIMIT (remaining_seconds `div` 60 + 1), b)
      | Ok (true, _) =>
          match get_card_by_text card_id (store b), int_of_str card_id with
          | Some card, Some n =>
              if user_has_reviewed n u (store b) then (WARN_ALREADY_REVIEWED, b) else
              let b := update_data u (fun d => put_card_title (title card) (put_card_id card_id d)) b in
              (MSG_START_REVIEW, set_state u LeaveReview_choose_rating b)
          | _, _ => (WARN_CARD_NOT_FOUND, b)
          end
      end
  end.

(** [@router.callback_query(F.data.startswith("rate_"))] *)
Definition select_rating (cb : callback) (b : bot) : reply * bot :=
  if negb (startswith (s2l "rate_") (cb_data cb)) then (NotHandled, b) else
  match split_on 95%N (cb_data cb) !! 1%nat with
  | None => (NoAnswer, b)
  | Some part =>
      match int_of_str part with
      | None => (Escaped (ValueError "invalid literal for int()"), b)
      | Some rating =>
          let u := cb_from_user cb in
          let b := update_data u (put_rating rating) b in
          match data_card_id (get_data u b) with
          | None => (Escaped (KeyError "card_id"), b)
          | Some _ => (MSG_WRITE_COMMENT, set_state u LeaveReview_write_comment b)
          end
      end
  end.

(** The [try] block shared by [save_review_with_comment] and
    [skip_comment]: the arguments of [add_review] are evaluated inside it,
    [ValueError] is answered as a duplicate and any other exception as a
    failure to save. *)
Definition try_add_review (w : world) (u : Z) (comment : str) (saved : reply) (b : bot)
    : reply * bot :=
  let data := get_data u b in
  match data_card_id data with
  | None => (ERR_SAVE_REVIEW, b)
  | Some card_id =>
      match int_of_str card_id with
      | None => (WARN_ALREADY_REVIEWED, b)
      | Some n =>
          match data_rating data with
          | None => (ERR_SAVE_REVIEW, b)
          | Some rating =>
              let '(r, d) := add_review w n u rating comment (store b) in
              match r with
              | Ok _ => (saved, with_store d b)
              | Raise (ValueError _) => (WARN_ALREADY_REVIEWED, with_store d b)
              | Raise _ => (ERR_SAVE_REVIEW, with_store d b)
              end
          end
      end
  end.

(** [@router.message(LeaveReview.write_comment)] *)
Definition save_review_with_comment (w : world) (m : message) (b : bot) : reply * bot :=
  let u := from_user m in
  if negb (in_state u LeaveReview_write_comment b) then (NotHandled, b) else
  match text m with
  | None | Some [] => (WARN_WRITE_COMMENT, b)
  | Some t =>
      if 200 <? len t then (WARN_COMMENT_TOO_LONG, b) else
      let '(answer, b) := try_add_review w u t CONFIRM_REVIEW b in
      (answer, state_clear u b)
  end.

(** [@router.callback_query(F.data == "comment_skip")].  After the answer
    and [state.clear()] the handler prepares the redirect to [view_card]
    with [callback.data = f"view_{data['card_id']}"]: the right-hand side
    raises [KeyError] without a [card_id], and the assignment itself is
    refused by aiogram 3, whose [CallbackQuery] is a frozen pydantic model
    ([ValidationError]).  Either way the exception leaves the handler and
    [view_card] is not reached. *)
Definition skip_comment (w : world) (cb : callback) (b : bot) : reply * bot :=
  if negb (str_eqb (cb_data cb) (s2l "comment_skip")) then (NotHandled, b) else
  let u := cb_from_user cb in
  let data := get_data u b in
  let '(answer, b) := try_add_review w u [] MSG_REVIEW_SAVED b in
  let b := state_clear u b in
  match data_card_id data with
  | None => (AnsweredThenEscaped answer (KeyError "card_id"), b)
  | Some _ => (AnsweredThenEscaped answer ValidationError, b)
  end.

End Handlers.

(** The operations through which a user can add a review: the four handlers
    of the Review workflow and [add_review] itself. *)
Inductive review_op :=
| OpStartReview (w : world) (cb : callback)
| OpSelectRating (cb : callback)
| OpSaveComment (w : world) (m : message)
| OpSkipComment (w : world) (cb : callback)
| OpAddReview (w : world) (card_id u rating : Z) (comment : str).

Definition run_review_op `{PyText} {release : TinyDB}
    (op : review_op) (b : bot) : bot :=
  match op with
  | OpStartReview w cb => (start_review w cb b).2
  | OpSelectRating cb => (select_rating cb b).2
  | OpSaveComment w m => (save_review_with_comment w m b).2
  | OpSkipComment w cb => (skip_comment w cb b).2
  | OpAddReview w card_id u rating comment =>
      with_store (add_review w card_id u rating comment (store b)).2 b
  end.

Definition run_review_ops `{PyText} {release : TinyDB}
    (ops : list review_op) (b : bot) : bot :=
  foldl (fun b op => run_review_op op b) b ops.

(** ** Two [add_review] coroutines on the event loop

    [add_review] suspends at [await user_has_reviewed(...)], at
    [async with _db_lock] when the lock is taken, and at
    [await asyncio.to_thread(_add)]; the event loop may run the other
    coroutine at each of these points.  [_check] and [_add] each run as one
    step. *)

Inductive pc :=
| AtCheck                      (* before [await user_has_reviewed] *)
| AtLock                       (* the check passed; before [async with _db_lock] *)
| InLock                       (* holds [_db_lock]; before [_add] has run *)
| Returned (r : result unit).

Record task := {
  t_world : world;
  t_card_id : Z;
  t_user_id : Z;
  t_rating : Z;
  t_comment : str;
  t_pc : pc;
}.

Definition at_pc (p : pc) (t : task) : task :=
  {| t_world := t_world t; t_card_id := t_card_id t; t_user_id := t_user_id t;
     t_rating := t_rating t; t_comment := t_comment t; t_pc := p |}.

Record loop := {
  l_store : database;
  l_lock : option nat;         (* the task holding [_db_lock] *)
  l_tasks : list task;
}.

(** One resumption of task [i]; [None] when it cannot run (finished, or
    waiting for the lock). *)
Definition resume `{PyText} {release : TinyDB} (i : nat) (l : loop) : option loop :=
  t ← l_tasks l !! i;
  match t_pc t with
  | AtCheck =>
      let p := if user_has_reviewed (t_card_id t) (t_user_id t) (l_store l)
               then Returned (Raise DuplicateReview) else AtLock in
      Some {| l_store := l_store l; l_lock := l_lock l;
              l_tasks := <[i := at_pc p t]> (l_tasks l) |}
  | AtLock =>
      match l_lock l with
      | Some _ => None
      | None =>
          Some {| l_store := l_store l; l_lock := Some i;
                  l_tasks := <[i := at_pc InLock t]> (l_tasks l) |}
      end
  | InLock =>
      let comment := sanitize_text (t_comment t) (Some 200) false in
      let d := l_store l in
      Some {| l_store :=
                {| db := _add (t_world t) (t_card_id t) (t_user_id t) (t_rating t)
                           comment (db d);
                   backup_dir := backup_dir d |};
              l_lock := None;
              l_tasks := <[i := at_pc (Returned (Ok tt)) t]> (l_tasks l) |}
  | Returned _ => None
  end.

(** A schedule names the task resumed at each turn of the loop. *)
Fixpoint run_schedule `{PyText} {release : TinyDB}
    (schedule : list nat) (l : loop) : option loop :=
  match schedule with
  | [] => Some l
  | i :: rest => l' ← resume i l; run_schedule rest l'
  end.

(** The number of reviews of user [u] on a card. *)
Definition is_by (u : Z) (e : entry) : bool :=
  match e with
  | Mapping r => bool_decide (user_id r = Some u)
  | NotMapping => false
  end.

Definition reviews_by (u : Z) (rs : list entry) : nat :=
  length (filter (fun e => is_by u e = true) rs).

(** ** Auxiliary notions of the statements *)

(** The cached [_next_id] lies above every stored identifier.  It holds when
    the process starts (nothing is cached) and every operation keeps it. *)
Definition table_ok (t : table) : Prop :=
  forall n, next_id t = Some n -> forall k, is_Some (docs t !! k) -> k < n.

(** The snapshot files of a backup directory: the names its listing keeps. *)
Definition snapshots `{PyText} (dir : gset str) : gset str :=
  filter (fun f => is_backup f = true) dir.

(** The elements of a review list that are mappings. *)
Definition mappings (reviews : list entry) : list review :=
  omap (fun e => match e with
                 | Mapping r => Some r
                 | NotMapping => None
                 end) reviews.

(** The number a mapping counts for in the average: the integer it holds
    under [rating], and 0 when it has no such key; nothing when it holds
    something there that is no number. *)
Definition counted (r : review) : option Z :=
  match rating r with
  | None => Some 0
  | Some (Stars z) => Some z
  | Some NotANumber => None
  end.

(** The mutations of the store, as database.py offers them. *)
Inductive mutation :=
| MAddCard (category title video_id description : str)
| MDeleteCard (card_id : Z)
| MUpdateVideo (card_id : Z) (video_id : str)
| MUpdateTitle (card_id : Z) (new_title : str)
| MUpdateDescription (card_id : Z) (new_description : str)
| MAddReview (card_id u rating : Z) (comment : str).

Definition run_mutation `{PyText} {release : TinyDB}
    (w : world) (m : mutation) (d : database) : database :=
  match m with
  | MAddCard category title video_id description =>
      (add_card w category title video_id description d).2
  | MDeleteCard card_id => (delete_card w card_id d).2
  | MUpdateVideo card_id video_id => (update_card_video w card_id video_id d).2
  | MUpdateTitle card_id new_title => (update_card_title w card_id new_title d).2
  | MUpdateDescription card_id new_description =>
      (update_card_description w card_id new_description d).2
  | MAddReview card_id u rating comment => (add_review w card_id u rating comment d).2
  end.

(** A run: each mutation with what the operating system answered to it. *)
Definition run_mutations `{PyText} {release : TinyDB}
    (ops : list (world * mutation)) (d : database)
    : database :=
  foldl (fun d op => run_mutation op.1 op.2 d) d ops.

(** The answers of consecutive [check_rate_limit] calls of one user. *)
Fixpoint run_checks (ws : list world) (u : Z) (registry : gmap Z (list Q))
    : list bool * gmap Z (list Q) :=
  match ws with
  | [] => ([], registry)
  | w :: ws' =>
      let '(ok, registry) := check_rate_limit w u registry in
      let '(oks, registry) := run_checks ws' u registry in
      (ok :: oks, registry)
  end.

(** The handlers that call [check_fsm_timeout]. *)
Definition timeout_guarded `{PyText} {release : TinyDB}
    : list (world -> message -> bot -> reply * bot) :=
  [admin_receive_title; admin_receive_video; admin_save_card;
   receive_updated_video; receive_updated_title; receive_updated_description].

(** ** An interpretation of the text interface on ASCII

    [ascii_text] follows CPython on strings whose characters are all below
    128; it is used to run the embedding on concrete updates. *)

Definition ascii_isprintable (c : char) : bool := ((32 <=? c) && (c <? 127))%N.

Definition ascii_isspace (c : char) : bool :=
  in_chars c [9; 10; 11; 12; 13; 28; 29; 30; 31; 32]%N.

Definition is_lower (c : char) : bool := ((97 <=? c) && (c <=? 122))%N.
Definition is_upper (c : char) : bool := ((65 <=? c) && (c <=? 90))%N.
Definition to_upper (c : char) : char := if is_lower c then (c - 32)%N else c.
Definition to_lower (c : char) : char := if is_upper c then (c + 32)%N else c.

(** [str.title]: a cased character is upper-cased after an uncased one and
    lower-cased after a cased one. *)
Fixpoint ascii_title_from (previous_is_cased : bool) (s : str) : str :=
  match s with
  | [] => []
  | c :: s' =>
      (if previous_is_cased then to_lower c else to_upper c)
        :: ascii_title_from (is_lower c || is_upper c) s'
  end.

(** [PurePath.suffix] of a bare file name: from the last dot on, unless that
    dot is the first or the last character. *)
Fixpoint from_last_dot (s : str) : option str :=
  match s with
  | [] => None
  | c :: s' =>
      match from_last_dot s' with
      | Some ext => Some ext
      | None => if N.eqb c 46 then Some (c :: s') else None
      end
  end.

Definition ascii_path_suffix (name : str) : str :=
  match name with
  | [] => []
  | c :: rest =>
      match from_last_dot rest with
      | Some (dot :: (_ :: _) as ext) => dot :: ext
      | _ => []
      end
  end.

Fixpoint digits_value (acc : Z) (s : str) : option Z :=
  match s with
  | [] => Some acc
  | c :: s' =>
      if ((48 <=? c) && (c <=? 57))%N
      then digits_value (10 * acc + Z.of_N (c - 48)) s'
      else None
  end.

(** [int(s)] for an optional sign followed by decimal digits. *)
Definition ascii_int (s : str) : option Z :=
  match s with
  | [] => None
  | 45%N :: (_ :: _) as ds => Z.opp <$> digits_value 0 ds
  | 43%N :: (_ :: _) as ds => digits_value 0 ds
  | 45%N :: [] | 43%N :: [] => None
  | _ => digits_value 0 s
  end.

Definition ascii_text : PyText :=
  {| isprintable := ascii_isprintable;
     isspace := ascii_isspace;
     upper := fun c => [to_upper c];
     str_title := ascii_title_from false;
     path_suffix_lower := fun name => map to_lower (ascii_path_suffix name);
     path_suffix := ascii_path_suffix;
     int_of_str := ascii_int |}.

(** ** The two TinyDB releases *)

(** Release 4.8.2: a [doc_id] that is not stored raises [KeyError]. *)
Definition raising_release : TinyDB := {| missing_doc_id_raises := true |}.

(** Release 4.9.0: a [doc_id] that is not stored is skipped. *)
Definition skipping_release : TinyDB := {| missing_doc_id_raises := false |}.

(** ** Sample states *)

Definition w0 : world :=
  {| now := 1000; stamp := s2l "20240101_120000"; copy_ok := true;
     can_unlink := fun _ => true |}.

Definition at_time (t : Q) : world :=
  {| now := t; stamp := stamp w0; copy_ok := true; can_unlink := fun _ => true |}.

Definition card_blue : card :=
  {| category := s2l "yugioh"; title := s2l "Blue Dragon"; video_id := s2l "vid";
     description := s2l "A card"; reviews := [] |}.

(** A store holding [card_blue] under id 1 with the given reviews. *)
Definition db_one (rs : list entry) : database :=
  {| db := {| docs := {[ 1 := set_reviews rs card_blue ]}; next_id := None |};
     backup_dir := ∅ |}.

Definition db_empty : database :=
  {| db := {| docs := ∅; next_id := None |}; backup_dir := ∅ |}.

Definition review_by (u rating : Z) : entry :=
  Mapping {| user_id := Some u; rating := Some (Stars rating); comment := []; timestamp := 900 |}.

(** A mapping without a [rating] key. *)
Definition unrated_by (u : Z) : entry :=
  Mapping {| user_id := Some u; rating := None; comment := []; timestamp := 900 |}.

(** A mapping that holds text under [rating]. *)
Definition misrated_by (u : Z) : entry :=
  Mapping {| user_id := Some u; rating := Some NotANumber; comment := [];
             timestamp := 900 |}.

Definition bot_of (d : database) : bot :=
  {| store := d; fsm := ∅; fsm_timestamps := ∅; rate_limit_registry := ∅;
     review_rate_limit_registry := ∅ |}.

Definition only_admin_1 : Config := {| ADMIN_IDS := [1] |}.

Definition cb (u : Z) (payload : string) : callback :=
  {| cb_from_user := u; cb_data := s2l payload |}.

Definition txt (u : Z) (t : string) : message :=
  {| from_user := u; text := Some (s2l t); msg_video := None |}.

Definition clip (u : Z) : message :=
  {| from_user := u; text := None;
     msg_video := Some {| file_id := s2l "F1"; file_size := Some 1000;
                          file_name := Some (s2l "a.mp4") |} |}.

(** A world in which no file of the backup directory can be unlinked. *)
Definition locked (timestamp : string) : world :=
  {| now := 1000; stamp := s2l timestamp; copy_ok := true;
     can_unlink := fun _ => false |}.

Definition stamped (timestamp : string) : world :=
  {| now := 1000; stamp := s2l timestamp; copy_ok := true;
     can_unlink := fun _ => true |}.

Definition a_card : mutation :=
  MAddCard (s2l "magic") (s2l "black lotus") (s2l "vid") (s2l "rare").

Definition six_stamps : list string :=
  ["20240101_000001"; "20240101_000002"; "20240101_000003";
   "20240101_000004"; "20240101_000005"; "20240101_000006"]%string.

(** A session waiting for the description, with a category that is not in
    the whitelist. *)
Definition bot_foo : bot :=
  {| store := db_one [];
     fsm := {[ 1 := {| state := Some UploadCard_write_description;
                       data := put_video_id (s2l "F1") (put_title (s2l "ufo")
                                 (put_category (s2l "foo") no_data)) |} ]};
     fsm_timestamps := {[ 1 := 1000%Q ]};
     rate_limit_registry := ∅;
     review_rate_limit_registry := ∅ |}.

Section Samples.
#[local] Existing Instance ascii_text.
#[local] Existing Instance only_admin_1.
#[local] Existing Instance raising_release.

(** Admin 1 opens Upload at time 1000 and sends a title at 1010. *)
Definition bot_upload : bot :=
  (start_add_card (at_time 1000) (cb 1 "addnew_yugioh") (bot_of (db_one []))).2.
Definition bot_titled : bot :=
  (admin_receive_title (at_time 1010) (txt 1 "dark magician") bot_upload).2.

(** Admin 1 opens Upload at time 1000, then opens a review of card 1 at
    1001 and picks five stars. *)
Definition bot_reviewing : bot :=
  (start_review (at_time 1001) (cb 1 "review_1") bot_upload).2.
Definition bot_rated : bot :=
  (select_rating (cb 1 "rate_5") bot_reviewing).2.

(** User 7 walks through the Review workflow with the payload [rate_9]. *)
Definition nine_stars : list review_op :=
  [OpStartReview (at_time 1000) (cb 7 "review_1");
   OpSelectRating (cb 7 "rate_9");
   OpSkipComment (at_time 1002) (cb 7 "comment_skip")].

End Samples.

(** Two coroutines [add_review(1, 7, 5)] and [add_review(1, 7, 4)] started
    on a card without reviews. *)
Definition call_by_7 (rating : Z) : task :=
  {| t_world := w0; t_card_id := 1; t_user_id := 7; t_rating := rating;
     t_comment := []; t_pc := AtCheck |}.

Definition two_calls : loop :=
  {| l_store := db_one []; l_lock := None; l_tasks := [call_by_7 5; call_by_7 4] |}.

(** ** database.py: listing the cards of a category *)

Definition id_le (a b : Z * card) : Prop := a.1 <= b.1.

#[global] Instance id_le_dec : RelDecision id_le.
Proof. intros a b. unfold id_le. apply _. Defined.

(** The documents of the table in the order TinyDB iterates over them: the
    order of insertion, which is the ascending order of the identifiers,
    since every insertion takes an identifier above all stored ones. *)
Definition table_rows (t : table) : list (Z * card) :=
  merge_sort id_le (map_to_list (docs t)).

(** [get_cards]: [db.search(q.category == category)], then
    [(doc.doc_id, doc["title"])] for each document found. *)
Definition get_cards (cat : str) (d : database) : list (Z * str) :=
  (fun row => (row.1, title row.2)) <$>
    filter (fun row => category row.2 = cat) (table_rows (db d)).

(** ** Invariants of the review lists *)

(** [Q] holds of the review list of every stored card. *)
Definition reviews_invariant (Q : list entry -> Prop) (d : database) : Prop :=
  forall card_id c, get_card card_id d = Some c -> Q (reviews c).

(** Only mappings, and at most one of them per user. *)
Definition one_review_per_user (rs : list entry) : Prop :=
  Forall (fun e => isinstance_dict e = true) rs /\
  forall u, (reviews_by u rs <= 1)%nat.

(** No stored comment is longer than 200 characters. *)
Definition comments_bounded (rs : list entry) : Prop :=
  Forall (fun e => match e with
                   | Mapping r => len (comment r) <= 200
                   | NotMapping => True
                   end) rs.

(** What an update of one field does: on a stored card it returns normally
    and applies [change] to that card only, rotating the backups.  On a
    missing card no card changes; under a TinyDB release that raises the
    call raises and the backups stay as they were, under a release that
    skips the id the call returns normally and rotates the backups. *)
Definition changes_one_card `{PyText} {release : TinyDB}
    (w : world) (card_id : Z) (d : database)
    (change : card -> card) (outcome : result unit * database) : Prop :=
  match get_card card_id d with
  | Some c =>
      outcome.1 = Ok tt /\
      get_card card_id outcome.2 = Some (change c) /\
      (forall other, other <> card_id -> get_card other outcome.2 = get_card other d) /\
      backup_dir outcome.2 = backup_database w (backup_dir d)
  | None =>
      outcome =
        if missing_doc_id_raises then (Raise (KeyError "doc_id"), d)
        else (Ok tt, {| db := db d; backup_dir := backup_database w (backup_dir d) |})
  end.

(** ** keyboards.py *)

Definition BTN_WIDTH_WIDE : Z := 20.
Definition BTN_WIDTH_MEDIUM : Z := 10.
Definition BTN_WIDTH_NARROW : Z := 6.

(** The text of the button built by [make_button]; [width] is the key
    looked up in [width_map], with [BTN_WIDTH_WIDE] as the default. *)
Definition make_button (text : str) (width : string) : str :=
  let max_width :=
    if bool_decide (width = "wide") then BTN_WIDTH_WIDE
    else if bool_decide (width = "medium") then BTN_WIDTH_MEDIUM
    else if bool_decide (width = "narrow") then BTN_WIDTH_NARROW
    else BTN_WIDTH_WIDE in
  let text_len := len text in
  if max_width <=? text_len then slice_to max_width text
  else
    let total_padding := max_width - text_len in
    let left_padding := total_padding `div` 2 in
    let right_padding := total_padding - left_padding in
    replicate (Z.to_nat left_padding) 32%N ++ text ++
    replicate (Z.to_nat right_padding) 32%N.

(** ** handlers/cards.py: the category view *)

Definition CARDS_PER_PAGE : Z := 8.
Definition MAX_BUTTON_LENGTH : Z := 30.

(** [l[i:j]] for indices that are not negative. *)
Definition slice {A} (i j : Z) (l : list A) : list A :=
  take (Z.to_nat (j - i)) (drop (Z.to_nat i) l).

(** The label of a card button: the title cut at [MAX_BUTTON_LENGTH], with
    an ellipsis (code point 8230) when something was cut. *)
Definition short_title (card_title : str) : str :=
  let cut := slice_to MAX_BUTTON_LENGTH card_title in
  if MAX_BUTTON_LENGTH <? len card_title then cut ++ [8230%N] else cut.

(** The text of the button of a card:
    [make_button(f"🔹 {short_title}", f"view_{card_id}")], that is the
    marker (code point 128313), a space and the label, at the default
    width. *)
Definition card_button (card_title : str) : str :=
  make_button ([128313; 32]%N ++ short_title card_title) "wide".

(** What [show_category] puts on the screen: the page shown, the number of
    pages, the card buttons [(id, text)] of the page, and the pages the
    Previous and Next buttons lead to. *)
Inductive category_answer :=
| CategoryNotHandled
| CategoryNoAnswer
| CategoryInvalid
| CategoryPage (page total_pages : Z) (cards_page : list (Z * str))
    (previous next : option Z).

(** [@router.callback_query(F.data.startswith("cat_"))] *)
Definition show_category `{PyText} (cb : callback) (d : database) : category_answer :=
  if negb (startswith (s2l "cat_") (cb_data cb)) then CategoryNotHandled else
  let parts := split_on 95%N (cb_data cb) in
  match parts !! 1%nat with
  | None => CategoryNoAnswer
  | Some cat =>
      let page :=
        match parts !! 2%nat, parts !! 3%nat with
        | Some p, Some number =>
            if str_eqb p (s2l "p") then default 1 (int_of_str number) else 1
        | _, _ => 1
        end in
      if negb (validate_category cat) then CategoryInvalid else
      let all_cards := get_cards cat d in
      let total_cards := Z.of_nat (length all_cards) in
      let total_pages := (total_cards + CARDS_PER_PAGE - 1) `div` CARDS_PER_PAGE in
      let page := Z.max 1 (Z.min page total_pages) in
      let start_idx := (page - 1) * CARDS_PER_PAGE in
      let end_idx := start_idx + CARDS_PER_PAGE in
      let cards_page := slice start_idx end_idx all_cards in
      CategoryPage page total_pages
        ((fun row => (row.1, card_button row.2)) <$> cards_page)
        (if (1 <? total_pages) && (1 <? page) then Some (page - 1) else None)
        (if (1 <? total_pages) && (page <? total_pages) then Some (page + 1) else None)
  end.

(** ** The remaining handlers that change the state of the process *)

Section MoreHandlers.
Context `{PyText} `{Config} {release : TinyDB}.

(** [delete_card] as [confirm_delete_card] calls it, with the text cut out
    of the callback data: the backup is taken first, then [int(card_id)]
    runs inside [_remove]. *)
Definition delete_card_by_text (w : world) (card_id : str) (d : database)
    : result unit * database :=
  match int_of_str card_id with
  | Some n => delete_card w n d
  | None =>
      (Raise (ValueError "invalid literal for int()"),
       {| db := db d; backup_dir := backup_database w (backup_dir d) |})
  end.

(** [@router.callback_query(F.data.startswith("confdelete_"))]; what is
    returned is [NoAnswer] (too few parts), [WARN_ACCESS_DENIED], or the
    outcome of [delete_card], [Ok] or [Raise], which the handler answers
    with the deleted message or the delete error.  After a deletion that
    returned, the redirect to [show_category] assigns [callback.data],
    which aiogram 3 refuses as in [skip_comment]: the exception leaves the
    handler after the state has changed. *)
Definition confirm_delete_card (w : world) (cb : callback) (b : bot)
    : option (reply + result unit) * bot :=
  if negb (startswith (s2l "confdelete_") (cb_data cb)) then (None, b) else
  let parts := split_on 95%N (cb_data cb) in
  match parts !! 1%nat, parts !! 2%nat with
  | Some card_id, Some _ =>
      let u := cb_from_user cb in
      if negb (is_admin u) then (Some (inl WARN_ACCESS_DENIED), b) else
      let '(r, d) := delete_card_by_text w card_id (store b) in
      (Some (inr r), with_store d b)
  | _, _ => (Some (inl NoAnswer), b)
  end.

(** navigation.py, [menu_navigation]:
    [@router.callback_query(F.data.in_({"info", "contatti", "recensioni", "menu", "home"}))];
    whatever it then shows, it first clears the session and the timestamp. *)
Definition menu_navigation (cb : callback) (b : bot) : bot :=
  if bool_decide (cb_data cb ∈ [s2l "info"; s2l "contatti"; s2l "recensioni";
                                s2l "menu"; s2l "home"])
  then pop_timestamp (cb_from_user cb) (state_clear (cb_from_user cb) b)
  else b.

(** language.py, [show_language_menu]:
    [@router.callback_query(F.data == "language")]. *)
Definition show_language_menu (cb : callback) (b : bot) : bot :=
  if str_eqb (cb_data cb) (s2l "language")
  then pop_timestamp (cb_from_user cb) (state_clear (cb_from_user cb) b)
  else b.

(** antispam.py, [block_unsolicited_messages]: [Some true] when the warning
    is sent, [Some false] when the message is only deleted, [None] for an
    admin. *)
Definition block_unsolicited_messages (w : world) (m : message) (b : bot)
    : option bool * bot :=
  if is_admin (from_user m) then (None, b) else
  let '(ok, registry) := check_rate_limit w (from_user m) (rate_limit_registry b) in
  (Some ok,
   {| store := store b; fsm := fsm b; fsm_timestamps := fsm_timestamps b;
      rate_limit_registry := registry;
      review_rate_limit_registry := review_rate_limit_registry b |}).

(** One call of a handler by the dispatcher. *)
Inductive handler_call :=
| Call_start_add_card (w : world) (cb : callback)
| Call_admin_receive_title (w : world) (m : message)
| Call_admin_receive_video (w : world) (m : message)
| Call_admin_video_error (m : message)
| Call_admin_save_card (w : world) (m : message)
| Call_start_update_video (w : world) (cb : callback)
| Call_start_update_title (w : world) (cb : callback)
| Call_start_update_description (w : world) (cb : callback)
| Call_receive_updated_video (w : world) (m : message)
| Call_receive_updated_title (w : world) (m : message)
| Call_receive_updated_description (w : world) (m : message)
| Call_confirm_delete_card (w : world) (cb : callback)
| Call_start_review (w : world) (cb : callback)
| Call_select_rating (cb : callback)
| Call_save_review_with_comment (w : world) (m : message)
| Call_skip_comment (w : world) (cb : callback)
| Call_menu_navigation (cb : callback)
| Call_show_language_menu (cb : callback)
| Call_block_unsolicited_messages (w : world) (m : message).

(** The user an update comes from. *)
Definition call_user (c : handler_call) : Z :=
  match c with
  | Call_start_add_card _ cb | Call_start_update_video _ cb
  | Call_start_update_title _ cb | Call_start_update_description _ cb
  | Call_confirm_delete_card _ cb | Call_start_review _ cb
  | Call_select_rating cb | Call_skip_comment _ cb
  | Call_menu_navigation cb | Call_show_language_menu cb => cb_from_user cb
  | Call_admin_receive_title _ m | Call_admin_receive_video _ m
  | Call_admin_video_error m | Call_admin_save_card _ m
  | Call_receive_updated_video _ m | Call_receive_updated_title _ m
  | Call_receive_updated_description _ m | Call_save_review_with_comment _ m
  | Call_block_unsolicited_messages _ m => from_user m
  end.

Definition run_call (c : handler_call) (b : bot) : bot :=
  match c with
  | Call_start_add_card w cb => (start_add_card w cb b).2
  | Call_admin_receive_title w m => (admin_receive_title w m b).2
  | Call_admin_receive_video w m => (admin_receive_video w m b).2
  | Call_admin_video_error m => (admin_video_error m b).2
  | Call_admin_save_card w m => (admin_save_card w m b).2
  | Call_start_update_video w cb => (start_update_video w cb b).2
  | Call_start_update_title w cb => (start_update_title w cb b).2
  | Call_start_update_description w cb => (start_update_description w cb b).2
  | Call_receive_updated_video w m => (receive_updated_video w m b).2
  | Call_receive_updated_title w m => (receive_updated_title w m b).2
  | Call_receive_updated_description w m => (receive_updated_description w m b).2
  | Call_confirm_delete_card w cb => (confirm_delete_card w cb b).2
  | Call_start_review w cb => (start_review w cb b).2
  | Call_select_rating cb => (select_rating cb b).2
  | Call_save_review_with_comment w m => (save_review_with_comment w m b).2
  | Call_skip_comment w cb => (skip_comment w cb b).2
  | Call_menu_navigation cb => menu_navigation cb b
  | Call_show_language_menu cb => show_language_menu cb b
  | Call_block_unsolicited_messages w m => (block_unsolicited_messages w m b).2
  end.

Definition run_calls (calls : list handler_call) (b : bot) : bot :=
  foldl (fun b c => run_call c b) b calls.

End MoreHandlers.

(** The states of the admin workflows. *)
Definition admin_state (s : option State) : bool :=
  match s with
  | Some LeaveReview_choose_rating | Some LeaveReview_write_comment | None => false
  | Some _ => true
  end.

(** No user outside [ADMIN_IDS] is in a state of an admin workflow. *)
Definition admin_states_for_admins `{Config} (b : bot) : Prop :=
  forall u, is_admin u = false -> admin_state (state (session_of u b)) = false.

(** The catalog: the stored cards without their reviews. *)
Definition catalog (d : database) : gmap Z card := set_reviews [] <$> docs (db d).

(** Every stored card has a whitelisted category. *)
Definition categories_valid (d : database) : Prop :=
  forall card_id c, get_card card_id d = Some c -> validate_category (category c) = true.

(** The database after a handler call, seen from the database before it:
    unchanged, or only the backup directory rotated, or changed by one
    mutation of database.py, which adds a card only under a whitelisted
    category. *)
Definition at_most_one_mutation `{PyText} {release : TinyDB} (d d' : database) : Prop :=
  d' = d \/
  db d' = db d \/
  exists w m,
    d' = run_mutation w m d /\
    forall cat name media words, m = MAddCard cat name media words ->
                                 validate_category cat = true.

(** The handler calls that continue a workflow already begun, as opposed to
    those that enter one or act at once. *)
Definition continues_workflow (c : handler_call) : bool :=
  match c with
  | Call_admin_receive_title _ _ | Call_admin_receive_video _ _
  | Call_admin_video_error _ | Call_admin_save_card _ _
  | Call_receive_updated_video _ _ | Call_receive_updated_title _ _
  | Call_receive_updated_description _ _
  | Call_select_rating _ | Call_save_review_with_comment _ _
  | Call_skip_comment _ _ => true
  | _ => false
  end.

(** ** More sample states *)

Definition clip_video : video :=
  {| file_id := s2l "F1"; file_size := Some 1000; file_name := Some (s2l "a.mp4") |}.

Section MoreSamples.
#[local] Existing Instance ascii_text.
#[local] Existing Instance only_admin_1.
#[local] Existing Instance raising_release.

(** Admin 1 opens the title update of card 1 at time 1000. *)
Definition bot_retitling : bot :=
  (start_update_title (at_time 1000) (cb 1 "updatetitle_1") (bot_of (db_one []))).2.

(** The same session after the card has been deleted. *)
Definition bot_retitling_deleted : bot := with_store db_empty bot_retitling.

End MoreSamples.

(** * Properties *)

(** ** The table: identifiers *)

Lemma max_doc_id_spec (m : gmap Z card) :
  match max_doc_id m with
  | None => m = ∅
  | Some top => forall k, is_Some (m !! k) -> k <= top
  end.
Proof.
  unfold max_doc_id.
  apply (map_fold_weak_ind
           (fun r m => match r with
                       | None => m = ∅
                       | Some top => forall k, is_Some (m !! k) -> k <= top
                       end)).
  - reflexivity.
  - intros i x m' r Hi IH. destruct r as [top|].
    + intros k Hk. destruct (decide (i = k)) as [->|Hne]; [lia|].
      rewrite lookup_insert_ne in Hk by done. specialize (IH k Hk). lia.
    + subst m'. intros k Hk. destruct (decide (i = k)) as [->|Hne]; [lia|].
      rewrite lookup_insert_ne, lookup_empty in Hk by done.
      by destruct Hk.
Qed.

Lemma get_next_id_fresh (t : table) :
  table_ok t -> docs t !! (get_next_id t).1 = None.
Proof.
  intros Hok. unfold get_next_id. cbn.
  destruct (next_id t) as [n|] eqn:Hn.
  - destruct (docs t !! n) eqn:Hl; [|done].
    pose proof (Hok n Hn n (mk_is_Some _ _ Hl)). lia.
  - pose proof (max_doc_id_spec (docs t)) as Hmax.
    destruct (max_doc_id (docs t)) as [top|].
    + destruct (docs t !! (top + 1)) eqn:Hl; [|done].
      pose proof (Hmax _ (mk_is_Some _ _ Hl)). lia.
    + rewrite Hmax. apply lookup_empty.
Qed.

Lemma get_next_id_above (t : table) k :
  table_ok t -> is_Some (docs t !! k) -> k < (get_next_id t).1.
Proof.
  intros Hok Hk. unfold get_next_id. cbn.
  destruct (next_id t) as [n|] eqn:Hn; [by apply Hok|].
  pose proof (max_doc_id_spec (docs t)) as Hmax.
  destruct (max_doc_id (docs t)) as [top|].
  - specialize (Hmax k Hk). lia.
  - rewrite Hmax, lookup_empty in Hk. by destruct Hk.
Qed.

Lemma db_insert_ok (document : card) (t : table) :
  table_ok t ->
  let doc_id := (get_next_id t).1 in
  db_insert document t =
    (Ok doc_id, {| docs := <[doc_id := document]> (docs t); next_id := Some (doc_id + 1) |})
  /\ docs t !! doc_id = None.
Proof.
  intros Hok doc_id. pose proof (get_next_id_fresh t Hok) as Hfresh.
  split; [|done].
  unfold db_insert, doc_id. unfold get_next_id in *. cbn in *.
  by rewrite Hfresh.
Qed.

Lemma db_insert_table_ok document t :
  table_ok t -> table_ok (db_insert document t).2.
Proof.
  intros Hok. destruct (db_insert_ok document t Hok) as [-> _].
  pose proof (get_next_id_above t) as Habove.
  set (doc_id := (get_next_id t).1) in *. clearbody doc_id.
  intros n [= <-] k Hk. cbn in Hk.
  destruct (decide (doc_id = k)) as [<-|Hne]; [lia|].
  rewrite lookup_insert_ne in Hk by done.
  specialize (Habove k Hok Hk). lia.
Qed.

Lemma missing_doc_id_ok {release : TinyDB} t t' : missing_doc_id t = Ok t' -> t' = t.
Proof. unfold missing_doc_id. destruct missing_doc_id_raises; [done|]. by intros [= <-]. Qed.

Lemma db_update_table_ok {release : TinyDB} fields doc_id t t' :
  table_ok t -> db_update fields doc_id t = Ok t' -> table_ok t'.
Proof.
  unfold db_update. intros Hok. destruct (docs t !! doc_id) eqn:Hl;
    [|by intros ->%missing_doc_id_ok].
  intros [= <-] n Hn k Hk. cbn in *. apply (Hok n Hn).
  destruct (decide (doc_id = k)) as [<-|Hne]; [by rewrite Hl|].
  by rewrite lookup_alter_ne in Hk.
Qed.

Lemma db_remove_table_ok {release : TinyDB} doc_id t t' :
  table_ok t -> db_remove doc_id t = Ok t' -> table_ok t'.
Proof.
  unfold db_remove. intros Hok. destruct (docs t !! doc_id) eqn:Hl;
    [|by intros ->%missing_doc_id_ok].
  intros [= <-] n Hn k Hk. cbn in *. apply (Hok n Hn).
  destruct (decide (doc_id = k)) as [<-|Hne].
  - rewrite lookup_delete_eq in Hk. by destruct Hk.
  - by rewrite lookup_delete_ne in Hk.
Qed.

(** Every mutation keeps [table_ok]. *)
Lemma _add_table_ok {release : TinyDB} w card_id u rating comment t :
  table_ok t -> table_ok (_add w card_id u rating comment t).
Proof.
  intros Hok. unfold _add. destruct (db_get card_id t) as [c|]; [|done].
  destruct (db_update _ card_id t) as [t'|] eqn:Hu; [|done].
  by eapply db_update_table_ok.
Qed.

Lemma run_mutation_table_ok `{PyText} {release : TinyDB} w m d :
  table_ok (db d) -> table_ok (db (run_mutation w m d)).
Proof.
  intros Hok. destruct m as [cat name media words| | | | |]; cbn.
  - unfold add_card.
    pose proof (db_insert_table_ok
      {| category := cat;
         title := sanitize_text (str_title (strip name)) None false;
         video_id := media; description := format_description words;
         reviews := [] |} (db d) Hok) as Hins.
    by destruct (db_insert _ _) as [[?|?] ?].
  - unfold delete_card. destruct (db_remove _ _) eqn:Hr; cbn; [|done].
    by eapply db_remove_table_ok.
  - unfold update_card_video, update_then_backup.
    destruct (db_update _ _ _) eqn:Hu; cbn; [|done]. by eapply db_update_table_ok.
  - unfold update_card_title, update_then_backup.
    destruct (db_update _ _ _) eqn:Hu; cbn; [|done]. by eapply db_update_table_ok.
  - unfold update_card_description, update_then_backup.
    destruct (db_update _ _ _) eqn:Hu; cbn; [|done]. by eapply db_update_table_ok.
  - unfold add_review. destruct (user_has_reviewed _ _ _); cbn; [done|].
    by apply _add_table_ok.
Qed.

Lemma database_eta (d : database) :
  {| db := db d; backup_dir := backup_dir d |} = d.
Proof. by destruct d. Qed.

(** ** Reviews *)

Lemma reviews_by_cons u e rs :
  reviews_by u (e :: rs) = ((if is_by u e then 1 else 0) + reviews_by u rs)%nat.
Proof.
  unfold reviews_by. rewrite filter_cons.
  destruct (is_by u e); case_decide; naive_solver.
Qed.

Lemma reviews_by_app u rs1 rs2 :
  reviews_by u (rs1 ++ rs2) = (reviews_by u rs1 + reviews_by u rs2)%nat.
Proof. unfold reviews_by. by rewrite filter_app, length_app. Qed.

(** The scan of [_check] walks through mappings of other users. *)
Lemma any_by_user_skip u rs rest :
  Forall (fun e => isinstance_dict e = true) rs ->
  reviews_by u rs = 0%nat ->
  any_by_user u (rs ++ rest) = any_by_user u rest.
Proof.
  induction 1 as [|e rs He _ IH]; [done|].
  rewrite reviews_by_cons. destruct e as [r|]; [|done]. cbn.
  case_bool_decide; [lia|]. intros Hrs. by apply IH.
Qed.

Lemma user_has_reviewed_missing card_id u d :
  get_card card_id d = None -> user_has_reviewed card_id u d = false.
Proof. unfold user_has_reviewed, get_card. by intros ->. Qed.

Lemma _add_lookup {release : TinyDB} w card_id u rating comment t c :
  db_get card_id t = Some c ->
  _add w card_id u rating comment t =
    {| docs :=
         <[card_id :=
             set_reviews (reviews c ++
               [Mapping {| user_id := Some u; rating := Some (Stars rating);
                           comment := comment; timestamp := now w |}]) c]> (docs t);
       next_id := next_id t |}.
Proof.
  intros Hc. unfold _add. rewrite Hc. unfold db_update.
  unfold db_get in Hc. rewrite Hc. f_equal.
  apply map_eq. intros k. destruct (decide (card_id = k)) as [<-|Hne].
  - by rewrite lookup_alter_eq, lookup_insert_eq, Hc.
  - by rewrite lookup_alter_ne, lookup_insert_ne.
Qed.

Section Reviews.
Context `{PyText} {release : TinyDB}.

(** C10.  [add_review] on a card id that the store does not hold returns
    normally and leaves the whole store as it was: no error reaches the
    caller and no review list changes. *)
Theorem add_review_missing_card w card_id u rating comment d :
  get_card card_id d = None ->
  add_review w card_id u rating comment d = (Ok tt, d).
Proof.
  intros Hmiss. unfold add_review.
  rewrite (user_has_reviewed_missing _ _ _ Hmiss).
  unfold _add. unfold get_card in Hmiss. rewrite Hmiss.
  by rewrite database_eta.
Qed.

(** C1, amended.  When the card is in the store, its review list holds only
    mappings and none of them is by [u], two calls of [add_review] for
    [(card_id, u)] in a row behave as follows: the first returns normally
    and appends exactly one review (that of [u], with the sanitized
    comment), touching nothing else; the second raises the duplicate error
    and leaves the store exactly as the first call left it; the list then
    holds one review by [u] and is one element longer than at the start. *)
Theorem add_review_twice w1 w2 card_id u r1 c1 r2 c2 d card :
  get_card card_id d = Some card ->
  Forall (fun e => isinstance_dict e = true) (reviews card) ->
  reviews_by u (reviews card) = 0%nat ->
  let e := Mapping {| user_id := Some u; rating := Some (Stars r1);
                      comment := sanitize_text c1 (Some 200) false;
                      timestamp := now w1 |} in
  exists d1,
    add_review w1 card_id u r1 c1 d = (Ok tt, d1) /\
    get_card card_id d1 = Some (set_reviews (reviews card ++ [e]) card) /\
    (forall other, other <> card_id -> get_card other d1 = get_card other d) /\
    backup_dir d1 = backup_dir d /\
    add_review w2 card_id u r2 c2 d1 = (Raise DuplicateReview, d1) /\
    reviews_by u (reviews card ++ [e]) = 1%nat /\
    length (reviews card ++ [e]) = S (length (reviews card)).
Proof.
  intros Hcard Hmaps Hnone e. unfold get_card in Hcard.
  eexists. split; [|split; [|split; [|split; [|split; [|split]]]]].
  - unfold add_review, user_has_reviewed. rewrite Hcard.
    rewrite <- (app_nil_r (reviews card)).
    rewrite (any_by_user_skip _ _ _ Hmaps Hnone). cbn.
    rewrite (_add_lookup _ _ _ _ _ _ _ Hcard). reflexivity.
  - unfold get_card, db_get. cbn. by rewrite lookup_insert_eq.
  - intros other Hne. unfold get_card, db_get. cbn.
    by rewrite lookup_insert_ne.
  - reflexivity.
  - unfold add_review, user_has_reviewed, db_get. cbn.
    rewrite lookup_insert_eq. cbn.
    rewrite (any_by_user_skip _ _ _ Hmaps Hnone). cbn.
    by rewrite bool_decide_eq_true_2.
  - rewrite reviews_by_app, Hnone. unfold e.
    rewrite reviews_by_cons. cbn. by rewrite bool_decide_eq_true_2.
  - rewrite length_app. cbn. lia.
Qed.

End Reviews.

(** ** Adding a card *)

Lemma check_fsm_timeout_cases w u b :
  (check_fsm_timeout w u b = (false, pop_timestamp u (state_clear u b)) /\
   Qltb 0 (default 0%Q (fsm_timestamps b !! u)) = true /\
   Qltb FSM_TIMEOUT_SECONDS (now w - default 0%Q (fsm_timestamps b !! u)) = true)
  \/
  (check_fsm_timeout w u b =
     (true, with_fsm_timestamps (<[u := now w]> (fsm_timestamps b)) b) /\
   Qltb 0 (default 0%Q (fsm_timestamps b !! u)) &&
   Qltb FSM_TIMEOUT_SECONDS (now w - default 0%Q (fsm_timestamps b !! u)) = false).
Proof.
  unfold check_fsm_timeout.
  destruct (Qltb 0 _) eqn:H1; destruct (Qltb FSM_TIMEOUT_SECONDS _) eqn:H2;
    cbn; auto.
Qed.

Lemma check_fsm_timeout_store w u b :
  store (check_fsm_timeout w u b).2 = store b.
Proof. by destruct (check_fsm_timeout_cases w u b) as [[-> _]|[-> _]]. Qed.

Lemma check_fsm_timeout_alive w u b b' :
  check_fsm_timeout w u b = (true, b') ->
  store b' = store b /\ fsm b' = fsm b /\ fsm_timestamps b' !! u = Some (now w).
Proof.
  destruct (check_fsm_timeout_cases w u b) as [[-> _]|[-> _]]; [done|].
  intros [= <-]. cbn. by rewrite lookup_insert_eq.
Qed.

Section AddCard.
Context `{PyText} `{Config} {release : TinyDB}.

(** Splits off the two leading conjuncts of a gate statement and opens the
    third. *)
Local Ltac gate_case :=
  split; [done|]; split; [done|]; intros; simplify_eq.

Lemma add_card_inserts w category title video_id description d :
  table_ok (db d) ->
  let doc_id := (get_next_id (db d)).1 in
  let document :=
    {| category := category;
       title := sanitize_text (str_title (strip title)) None false;
       video_id := video_id;
       description := format_description description;
       reviews := [] |} in
  add_card w category title video_id description d =
    (Ok doc_id,
     {| db := {| docs := <[doc_id := document]> (docs (db d));
                 next_id := Some (doc_id + 1) |};
        backup_dir := backup_database w (backup_dir d) |})
  /\ get_card doc_id d = None.
Proof.
  intros Hok doc_id document.
  destruct (db_insert_ok document (db d) Hok) as [Hins Hfresh].
  split; [|exact Hfresh].
  unfold add_card. fold document. by rewrite Hins.
Qed.

(** C4, amended.  [add_card] followed by [get_card] on the returned id
    yields a card whose title is the sanitizer applied to the stripped,
    title-cased title (not to the title as given), whose description is
    [format_description] of the given description, that is its sanitized
    text with the first character upper-cased when there is one, and whose
    category and media reference are the ones given. *)
Theorem add_card_then_get w category title video_id description d :
  table_ok (db d) ->
  exists doc_id,
    (add_card w category title video_id description d).1 = Ok doc_id /\
    get_card doc_id d = None /\
    get_card doc_id (add_card w category title video_id description d).2 =
      Some {| category := category;
              title := sanitize_text (str_title (strip title)) None false;
              video_id := video_id;
              description :=
                match sanitize_text description None false with
                | c :: rest => upper c ++ rest
                | [] => []
                end;
              reviews := [] |}.
Proof.
  intros Hok.
  destruct (add_card_inserts w category title video_id description d Hok)
    as [-> Hfresh].
  eexists. split; [reflexivity|]. split; [exact Hfresh|].
  unfold get_card, db_get. cbn. rewrite lookup_insert_eq.
  unfold format_description. by destruct (sanitize_text description None false).
Qed.

(** C3, amended.  The store-level [add_card] checks no category: for every
    category string it returns a fresh id and stores the card under it.  The
    whitelist is enforced by its caller, the last step of the Upload
    workflow: when the session holds a category outside the whitelist,
    [admin_save_card] leaves the store unchanged whatever the title,
    description and media reference are, and answers with the
    invalid-category warning once its earlier guards have passed; it
    publishes a card only for a whitelisted category. *)
Theorem add_card_category_gate :
  (forall w cat name media text d,
     table_ok (db d) ->
     exists doc_id c,
       (add_card w cat name media text d).1 = Ok doc_id /\
       get_card doc_id d = None /\
       get_card doc_id (add_card w cat name media text d).2 = Some c /\
       category c = cat) /\
  (forall w m b category,
     data_category (get_data (from_user m) b) = Some category ->
     validate_category category = false ->
     store (admin_save_card w m b).2 = store b /\
     (admin_save_card w m b).1 <> MSG_CARD_PUBLISHED /\
     (forall t title video_id,
        in_state (from_user m) UploadCard_write_description b = true ->
        (check_fsm_timeout w (from_user m) b).1 = true ->
        text m = Some t -> t <> [] -> len t <= MAX_DESCRIPTION_LENGTH ->
        data_title (get_data (from_user m) b) = Some title ->
        data_video_id (get_data (from_user m) b) = Some video_id ->
        (admin_save_card w m b).1 = WARN_INVALID_CATEGORY /\
        session_of (from_user m) (admin_save_card w m b).2 = cleared)) /\
  (forall w m b,
     (admin_save_card w m b).1 = MSG_CARD_PUBLISHED ->
     exists category,
       data_category (get_data (from_user m) b) = Some category /\
       category ∈ [s2l "yugioh"; s2l "pokemon"; s2l "magic"; s2l "altro"]).
Proof.
  split; [|split].
  - intros w cat name media text d Hok.
    destruct (add_card_inserts w cat name media text d Hok) as [-> Hfresh].
    eexists _, _. split; [reflexivity|]. split; [exact Hfresh|].
    unfold get_card, db_get. cbn. by rewrite lookup_insert_eq.
  - intros w m b category Hcat Hbad.
    assert (Hgate : forall b', fsm b' = fsm b ->
              data_category (get_data (from_user m) b') = Some category).
    { intros b' Hb'. unfold get_data, session_of in *. by rewrite Hb'. }
    unfold admin_save_card.
    destruct (in_state _ _ b) eqn:Hst; cbn; [|by gate_case].
    destruct (check_fsm_timeout w (from_user m) b) as [alive b'] eqn:Hchk.
    pose proof (check_fsm_timeout_store w (from_user m) b) as Hstore.
    rewrite Hchk in Hstore. cbn in Hstore.
    destruct alive; cbn; [|by gate_case].
    destruct (check_fsm_timeout_alive _ _ _ _ Hchk) as (_ & Hfsm & _).
    rewrite (Hgate b' Hfsm).
    destruct (text m) as [[|c t0]|] eqn:Htext; cbn; [by gate_case| |by gate_case].
    destruct (MAX_DESCRIPTION_LENGTH <? len (c :: t0)) eqn:Hlen; cbn.
    { apply Z.ltb_lt in Hlen. gate_case. exfalso. lia. }
    destruct (data_title (get_data (from_user m) b')) eqn:Ht;
      destruct (data_video_id (get_data (from_user m) b')) eqn:Hv;
      rewrite ?Hbad; cbn; gate_case;
      unfold get_data, session_of in *; rewrite Hfsm in *; simplify_eq.
    split; [done|]. cbn. by rewrite lookup_delete_eq.
  - intros w m b. unfold admin_save_card.
    destruct (in_state _ _ b) eqn:Hst; cbn; [|done].
    destruct (check_fsm_timeout w (from_user m) b) as [alive b'] eqn:Hchk.
    destruct alive; cbn; [|done].
    destruct (check_fsm_timeout_alive _ _ _ _ Hchk) as (_ & Hfsm & _).
    destruct (text m) as [[|c t0]|]; cbn; [done| |done].
    destruct (MAX_DESCRIPTION_LENGTH <? len (c :: t0)); cbn; [done|].
    unfold get_data, session_of. rewrite Hfsm.
    destruct (data_category _) as [category|] eqn:Hc; [|done].
    destruct (data_title _); [|done]. destruct (data_video_id _); [|done].
    destruct (validate_category category) eqn:Hv; cbn; [|done].
    intros _. exists category. split; [done|].
    unfold validate_category in Hv. by apply bool_decide_eq_true_1 in Hv.
Qed.

End AddCard.

(** ** Backups *)

Lemma str_leb_total a b : str_leb a b = true \/ str_leb b a = true.
Proof.
  revert b. induction a as [|x a IH]; intros [|y b]; cbn; auto.
  destruct (N.ltb_spec x y), (N.ltb_spec y x), (N.eqb_spec x y), (N.eqb_spec y x);
    auto; try lia.
Qed.

Lemma str_leb_trans a b c :
  str_leb a b = true -> str_leb b c = true -> str_leb a c = true.
Proof.
  revert b c. induction a as [|x a IH]; intros [|y b] [|z c]; cbn; auto; try done.
  destruct (N.ltb_spec x y), (N.ltb_spec y z), (N.ltb_spec x z),
    (N.eqb_spec x y), (N.eqb_spec y z), (N.eqb_spec x z);
    try done; try lia; eauto.
Qed.

Lemma str_leb_antisym a b :
  str_leb a b = true -> str_leb b a = true -> a = b.
Proof.
  revert b. induction a as [|x a IH]; intros [|y b]; cbn; auto; try done.
  destruct (N.ltb_spec x y), (N.ltb_spec y x), (N.eqb_spec x y), (N.eqb_spec y x);
    try done; try lia.
  intros. subst. f_equal. auto.
Qed.

#[global] Instance name_ge_total : Total name_ge.
Proof. intros a b. unfold name_ge. destruct (str_leb_total a b); auto. Qed.

#[global] Instance name_ge_trans : Transitive name_ge.
Proof. intros a b c Hab Hbc. unfold name_ge in *. eapply str_leb_trans; eauto. Qed.

Section Backups.
Context `{PyText} {release : TinyDB}.

Lemma elem_of_sorted_backups (dir : gset str) (f : str) :
  f ∈ sorted_backups dir <-> f ∈ snapshots dir.
Proof.
  unfold sorted_backups, snapshots.
  rewrite merge_sort_Permutation, list_elem_of_filter, elem_of_elements, elem_of_filter.
  tauto.
Qed.

Lemma NoDup_sorted_backups (dir : gset str) : NoDup (sorted_backups dir).
Proof.
  unfold sorted_backups. rewrite merge_sort_Permutation.
  apply NoDup_filter, NoDup_elements.
Qed.

(** The unlink loop removes exactly the listed names that can be unlinked. *)
Lemma unlink_loop (w : world) (l : list str) (dir : gset str) (f : str) :
  f ∈ foldl (fun dir old_backup =>
               if can_unlink w old_backup then dir ∖ {[ old_backup ]} else dir) dir l
  <-> f ∈ dir /\ ~ (f ∈ l /\ can_unlink w f = true).
Proof.
  revert dir. induction l as [|x l IH]; intros dir; cbn.
  - rewrite elem_of_nil. tauto.
  - rewrite IH, elem_of_cons. destruct (can_unlink w x) eqn:Hx.
    + rewrite elem_of_difference, elem_of_singleton.
      split.
      * intros [[Hf Hne] Hl]. split; [done|]. intros [[->|Hin] Hc]; tauto.
      * intros [Hf Hn]. split; [split; [done|]|].
        -- intros ->. tauto.
        -- tauto.
    + split.
      * intros [Hf Hl]. split; [done|]. intros [[->|Hin] Hc]; [congruence|tauto].
      * intros [Hf Hn]. split; [done|]. tauto.
Qed.

Lemma backup_database_elem (w : world) (dir : gset str) (f : str) :
  copy_ok w = true ->
  let dir1 := {[ backup_file_name (stamp w) ]} ∪ dir in
  f ∈ backup_database w dir <->
  f ∈ dir1 /\ ~ (f ∈ drop MAX_BACKUPS_KEPT (sorted_backups dir1) /\ can_unlink w f = true).
Proof. intros Hcopy dir1. unfold backup_database. rewrite Hcopy. apply unlink_loop. Qed.

(** With every unlink succeeding, the snapshots left are the first
    [MAX_BACKUPS_KEPT] names of the listing. *)
Lemma snapshots_after_backup (w : world) (dir : gset str) (f : str) :
  copy_ok w = true -> (forall g, can_unlink w g = true) ->
  let dir1 := {[ backup_file_name (stamp w) ]} ∪ dir in
  f ∈ snapshots (backup_database w dir) <->
  f ∈ take MAX_BACKUPS_KEPT (sorted_backups dir1).
Proof.
  intros Hcopy Hcan dir1.
  pose proof (NoDup_sorted_backups dir1) as Hnd.
  pose proof (elem_of_sorted_backups dir1 f) as Hin.
  rewrite <- (take_drop MAX_BACKUPS_KEPT (sorted_backups dir1)) in Hnd, Hin.
  apply NoDup_app in Hnd as (_ & Hdisj & _).
  rewrite elem_of_app in Hin.
  unfold snapshots at 1. rewrite elem_of_filter, backup_database_elem by done.
  fold dir1. unfold snapshots in Hin. rewrite elem_of_filter in Hin.
  specialize (Hdisj f). specialize (Hcan f). split.
  - intros (Hb & Hd & Hn). destruct Hin as [_ Hin].
    destruct (decide (f ∈ take MAX_BACKUPS_KEPT (sorted_backups dir1))); [done|].
    exfalso. tauto.
  - intros Ht. destruct Hin as [Hin _]. specialize (Hin (or_introl Ht)).
    split; [tauto|]. split; [tauto|]. intros [Hd _]. by apply Hdisj.
Qed.

Lemma snapshots_listing (dir : gset str) :
  snapshots dir = list_to_set (sorted_backups dir).
Proof.
  apply set_eq. intros f. by rewrite elem_of_list_to_set, elem_of_sorted_backups.
Qed.

Lemma snapshots_kept (w : world) (dir : gset str) :
  copy_ok w = true -> (forall g, can_unlink w g = true) ->
  snapshots (backup_database w dir) =
    list_to_set (take MAX_BACKUPS_KEPT
                   (sorted_backups ({[ backup_file_name (stamp w) ]} ∪ dir))).
Proof.
  intros Hcopy Hcan. apply set_eq. intros f.
  by rewrite elem_of_list_to_set, snapshots_after_backup.
Qed.

Lemma backup_database_bound (w : world) (dir : gset str) :
  (forall g, can_unlink w g = true) ->
  (size (snapshots dir) <= MAX_BACKUPS_KEPT)%nat ->
  (size (snapshots (backup_database w dir)) <= MAX_BACKUPS_KEPT)%nat.
Proof.
  intros Hcan Hdir. destruct (copy_ok w) eqn:Hcopy.
  - rewrite snapshots_kept by done. rewrite size_list_to_set.
    + rewrite length_take. lia.
    + eapply sublist_NoDup; [apply NoDup_sorted_backups|apply sublist_take].
  - unfold backup_database. by rewrite Hcopy.
Qed.

Lemma run_mutation_backup_dir (w : world) (m : mutation) (d : database) :
  backup_dir (run_mutation w m d) = backup_dir d \/
  backup_dir (run_mutation w m d) = backup_database w (backup_dir d).
Proof.
  destruct m; cbn.
  - unfold add_card. destruct (db_insert _ _) as [[?|?] ?]; cbn; auto.
  - unfold delete_card. destruct (db_remove _ _); cbn; auto.
  - unfold update_card_video, update_then_backup.
    destruct (db_update _ _ _); cbn; auto.
  - unfold update_card_title, update_then_backup.
    destruct (db_update _ _ _); cbn; auto.
  - unfold update_card_description, update_then_backup.
    destruct (db_update _ _ _); cbn; auto.
  - unfold add_review. destruct (user_has_reviewed _ _ _); cbn; auto.
Qed.

(** C6, amended.  A run of [backup_database] whose copy and unlinks all
    succeed leaves at most [MAX_BACKUPS_KEPT] snapshot files: the
    [MAX_BACKUPS_KEPT] greatest names of the directory after the copy (all
    of them when there are fewer), every kept name being greater than every
    removed one; files that are not snapshots are left alone.  Hence, from
    a directory within the bound, the bound holds after any sequence of
    store mutations whose unlinks succeed.  (A snapshot whose unlink fails
    stays in the directory; [add_review] takes no backup.) *)
Theorem backup_rotation_bound :
  (forall (w : world) (dir : gset str),
     copy_ok w = true -> (forall g, can_unlink w g = true) ->
     let dir1 := {[ backup_file_name (stamp w) ]} ∪ dir in
     let dir' := backup_database w dir in
     (size (snapshots dir') <= MAX_BACKUPS_KEPT)%nat /\
     size (snapshots dir') = (MAX_BACKUPS_KEPT `min` size (snapshots dir1))%nat /\
     (forall f, f ∈ snapshots dir' -> f ∈ snapshots dir1) /\
     (forall a b, a ∈ snapshots dir' -> b ∈ snapshots dir1 -> b ∉ snapshots dir' ->
                  name_ge a b /\ a <> b) /\
     (forall f, is_backup f = false -> f ∈ dir' <-> f ∈ dir1))
  /\
  (forall (ops : list (world * mutation)) (d : database),
     Forall (fun op => forall g, can_unlink op.1 g = true) ops ->
     (size (snapshots (backup_dir d)) <= MAX_BACKUPS_KEPT)%nat ->
     (size (snapshots (backup_dir (run_mutations ops d))) <= MAX_BACKUPS_KEPT)%nat).
Proof.
  split.
  - intros w dir Hcopy Hcan dir1 dir'.
    pose proof (NoDup_sorted_backups dir1) as Hnd.
    assert (Hndk : NoDup (take MAX_BACKUPS_KEPT (sorted_backups dir1))).
    { eapply sublist_NoDup; [exact Hnd|apply sublist_take]. }
    assert (Hsize : size (snapshots dir') =
                    (MAX_BACKUPS_KEPT `min` size (snapshots dir1))%nat).
    { unfold dir'. rewrite snapshots_kept by done. fold dir1.
      rewrite size_list_to_set, length_take by done.
      by rewrite (snapshots_listing dir1), size_list_to_set. }
    split; [lia|]. split; [exact Hsize|]. split; [|split].
    + intros f Hf. apply (snapshots_after_backup w dir f Hcopy Hcan) in Hf.
      apply elem_of_sorted_backups. eapply elem_of_sublist; [exact Hf|apply sublist_take].
    + intros a b Ha Hb Hnb.
      apply (snapshots_after_backup w dir a Hcopy Hcan) in Ha. fold dir1 in Ha.
      assert (Hbd : b ∈ drop MAX_BACKUPS_KEPT (sorted_backups dir1)).
      { apply elem_of_sorted_backups in Hb.
        rewrite <- (take_drop MAX_BACKUPS_KEPT (sorted_backups dir1)) in Hb.
        apply elem_of_app in Hb as [Hb|Hb]; [|done].
        exfalso. apply Hnb. by apply (snapshots_after_backup w dir b Hcopy Hcan). }
      split.
      * pose proof (StronglySorted_merge_sort name_ge
                      (filter (fun f => is_backup f = true) (elements dir1))) as Hs.
        fold (sorted_backups dir1) in Hs.
        rewrite <- (take_drop MAX_BACKUPS_KEPT (sorted_backups dir1)) in Hs.
        eapply StronglySorted_app_1_elem_of; eauto.
      * intros ->.
        rewrite <- (take_drop MAX_BACKUPS_KEPT (sorted_backups dir1)) in Hnd.
        apply NoDup_app in Hnd as (_ & Hdisj & _). by apply (Hdisj b).
    + intros f Hf. unfold dir'. rewrite backup_database_elem by done. fold dir1.
      split; [tauto|]. intros Hin. split; [done|]. intros [Hd _].
      eapply elem_of_sublist in Hd; [|apply sublist_drop].
      apply elem_of_sorted_backups in Hd.
      unfold snapshots in Hd. apply elem_of_filter in Hd as [Hd _]. congruence.
  - intros ops. induction ops as [|[w m] ops IH]; intros d Hcan Hd; [done|].
    apply Forall_cons in Hcan as [Hw Hcan]. cbn in Hw. cbn.
    apply IH; [done|].
    destruct (run_mutation_backup_dir w m d) as [->| ->]; [done|].
    by apply backup_database_bound.
Qed.

End Backups.

(** ** Average rating *)

(** The rounded quotient is within one half of the exact one. *)
Lemma round_half_even_near (n d : Z) :
  0 < d ->
  - d <= 2 * (round_half_even n d * d - n) <= d.
Proof.
  intros Hd. unfold round_half_even.
  pose proof (Z.div_mod n d ltac:(lia)) as Hdm.
  pose proof (Z.mod_pos_bound n d Hd) as Hb.
  destruct (Z.compare_spec (2 * (n `mod` d)) d); try destruct (Z.even _); nia.
Qed.

(** Rounding does not cross an integer. *)
Lemma round_half_even_le (n d K : Z) :
  0 < d -> n <= K * d -> round_half_even n d <= K.
Proof.
  intros Hd Hn. unfold round_half_even.
  pose proof (Z.div_mod n d ltac:(lia)) as Hdm.
  pose proof (Z.mod_pos_bound n d Hd) as Hb.
  destruct (Z.compare_spec (2 * (n `mod` d)) d); try destruct (Z.even _); nia.
Qed.

Lemma round_half_even_ge (n d K : Z) :
  0 < d -> K * d <= n -> K <= round_half_even n d.
Proof.
  intros Hd Hn. unfold round_half_even.
  pose proof (Z.div_mod n d ltac:(lia)) as Hdm.
  pose proof (Z.mod_pos_bound n d Hd) as Hb.
  destruct (Z.compare_spec (2 * (n `mod` d)) d); try destruct (Z.even _); nia.
Qed.

(** The exponent is reached by the quotient, and lies at most one below the
    difference of the bit lengths. *)
Lemma exponent_of_ratio_reached (a b : Z) :
  0 < a -> 0 < b ->
  (0 <= exponent_of_ratio a b -> b * 2 ^ exponent_of_ratio a b <= a) /\
  (exponent_of_ratio a b < 0 -> b <= a * 2 ^ (- exponent_of_ratio a b)) /\
  Z.log2 a - Z.log2 b - 1 <= exponent_of_ratio a b.
Proof.
  intros Ha Hb. unfold exponent_of_ratio.
  pose proof (Z.log2_spec a Ha) as [Hla _].
  pose proof (Z.log2_spec b Hb) as [_ Hlb].
  pose proof (Z.log2_nonneg a) as Hna. pose proof (Z.log2_nonneg b) as Hnb.
  set (la := Z.log2 a) in *. set (lb := Z.log2 b) in *.
  destruct (if 0 <=? la - lb then _ else _) eqn:Htest.
  - destruct (Z.leb_spec 0 (la - lb)); [apply Z.leb_le in Htest|apply Z.leb_le in Htest];
      lia.
  - split; [|split; [|lia]].
    + intros He.
      assert (Hpow : 2 ^ Z.succ lb * 2 ^ (la - lb - 1) = 2 ^ la)
        by (rewrite <- Z.pow_add_r by lia; f_equal; lia).
      pose proof (Z.pow_pos_nonneg 2 (la - lb - 1) ltac:(lia) He). nia.
    + intros He.
      assert (Hpow : 2 ^ la * 2 ^ (- (la - lb - 1)) = 2 ^ Z.succ lb)
        by (rewrite <- Z.pow_add_r by lia; f_equal; lia).
      pose proof (Z.pow_pos_nonneg 2 (- (la - lb - 1)) ltac:(lia) ltac:(lia)). nia.
Qed.

(** A quotient between two integers below [2^53] is rounded to a float
    between them. *)
Lemma nearest_double_between (a b lo hi : Z) :
  0 < a -> 0 < b -> lo * b <= a <= hi * b -> hi < 2 ^ 53 ->
  exists q, nearest_double a b = Ok q /\ (inject_Z lo <= q <= inject_Z hi)%Q.
Proof.
  intros Ha Hb [Hlo Hhi] Hsmall. unfold nearest_double.
  destruct (exponent_of_ratio_reached a b Ha Hb) as (Hreach & _ & _).
  set (e := exponent_of_ratio a b) in *.
  assert (He : e <= 52).
  { destruct (Z.le_gt_cases e 52) as [|Hbig]; [done|].
    specialize (Hreach ltac:(lia)).
    pose proof (Z.pow_le_mono_r 2 53 e ltac:(lia) ltac:(lia)). nia. }
  destruct (Z.leb_spec 0 (Z.max (e - 52) (-1074))) as [Hbit|Hbit].
  - replace (Z.max (e - 52) (-1074)) with 0 by lia.
    rewrite Z.pow_0_r, !Z.mul_1_r.
    pose proof (round_half_even_le a b hi Hb Hhi) as Hle.
    pose proof (round_half_even_ge a b lo Hb Hlo) as Hge.
    set (m := round_half_even a b) in *.
    assert (Hover : m < 2 ^ 1024).
    { pose proof (Z.pow_lt_mono_r 2 53 1024 ltac:(lia) ltac:(lia) ltac:(lia)). lia. }
    destruct (Z.leb_spec (2 ^ 1024) m); [lia|].
    eexists. split; [reflexivity|].
    unfold Qle, inject_Z. cbn [Qnum Qden]. lia.
  - set (k := - Z.max (e - 52) (-1074)) in *.
    assert (Hk : 0 < k) by lia.
    pose proof (Z.pow_pos_nonneg 2 k ltac:(lia) ltac:(lia)) as HP.
    set (P := 2 ^ k) in *.
    pose proof (round_half_even_le (a * P) b (hi * P) Hb ltac:(nia)) as Hle.
    pose proof (round_half_even_ge (a * P) b (lo * P) Hb ltac:(nia)) as Hge.
    eexists. split; [reflexivity|].
    unfold Qle, inject_Z. cbn [Qnum Qden]. rewrite Z2Pos.id by done. lia.
Qed.

(** The distance of two fractions, from a bound on the numerators. *)
Lemma Qabs_fraction_close (M a b P E c : Z) :
  0 < b -> 0 < P -> 0 < c ->
  - E <= 2 * (M * b - a * P) <= E -> E * c <= a * P ->
  (Qabs ((M # Z.to_pos P) - (a # Z.to_pos b))
   <= (a # Z.to_pos b) * (1 # Z.to_pos (2 * c)))%Q.
Proof.
  intros Hb HP Hc HE Hrel. apply Qabs_Qle_condition.
  unfold Qle, Qminus, Qplus, Qopp, Qmult. cbn [Qnum Qden].
  rewrite !Pos2Z.inj_mul, !Z2Pos.id by lia.
  set (t := M * b - a * P) in *.
  replace (M * b + - a * P) with t by (unfold t; lia).
  assert (H1 : 2 * t * c <= E * c) by nia.
  assert (H2 : - (E * c) <= 2 * t * c) by nia.
  assert (H3 : 2 * t * c * b <= a * P * b) by nia.
  assert (H4 : - (a * P * b) <= 2 * t * c * b) by nia.
  split; lia.
Qed.

(** In the range of the normal floats the relative error of the rounding
    is at most [2^-53], and nothing overflows. *)
Lemma nearest_double_close (a b : Z) :
  0 < a -> 0 < b -> b < 2 ^ 1022 -> a < 2 ^ 1023 * b ->
  exists q, nearest_double a b = Ok q /\
            (Qabs (q - (a # Z.to_pos b)) <= (a # Z.to_pos b) * (1 # 2 ^ 53))%Q.
Proof.
  intros Ha Hb Hcount Hrange. unfold nearest_double.
  destruct (exponent_of_ratio_reached a b Ha Hb) as (Hreach & Hbelow & Hlog).
  set (e := exponent_of_ratio a b) in *.
  assert (Hlb : Z.log2 b < 1022) by (by apply Z.log2_lt_pow2).
  pose proof (Z.log2_nonneg a) as Hla.
  replace (Z.max (e - 52) (-1074)) with (e - 52) by lia.
  change (1 # 2 ^ 53)%Q with (1 # Z.to_pos (2 * 2 ^ 52))%Q.
  destruct (Z.leb_spec 0 (e - 52)) as [Hbit|Hbit].
  - specialize (Hreach ltac:(lia)).
    pose proof (Z.pow_pos_nonneg 2 (e - 52) ltac:(lia) Hbit) as HP.
    assert (Hpow : 2 ^ e = 2 ^ (e - 52) * 2 ^ 52)
      by (rewrite <- Z.pow_add_r by lia; f_equal; lia).
    set (P := 2 ^ (e - 52)) in *.
    pose proof (round_half_even_near a (b * P) ltac:(nia)) as Hnear.
    set (m := round_half_even a (b * P)) in *.
    assert (Hc : 0 < 2 ^ 52) by (by apply Z.pow_pos_nonneg).
    assert (Hover : m * P < 2 ^ 1024).
    { assert (Htwo : 2 ^ 1024 = 2 * 2 ^ 1023)
        by (change 1024 with (Z.succ 1023); by rewrite Z.pow_succ_r).
      set (T := 2 ^ 1023) in *. set (C := 2 ^ 52) in *.
      assert (2 * (m * P * b) < 3 * T * b) by nia. nia. }
    destruct (Z.leb_spec (2 ^ 1024) (m * P)); [lia|].
    eexists. split; [reflexivity|].
    change (inject_Z (m * P)) with (m * P # Z.to_pos 1)%Q.
    apply (Qabs_fraction_close (m * P) a b 1 (b * P) (2 ^ 52)); lia.
  - set (k := - (e - 52)) in *.
    pose proof (Z.pow_pos_nonneg 2 k ltac:(lia) ltac:(lia)) as HP.
    assert (Hc : 0 < 2 ^ 52) by (by apply Z.pow_pos_nonneg).
    assert (Hrel : b * 2 ^ 52 <= a * 2 ^ k).
    { destruct (Z.le_gt_cases 0 e) as [He|He].
      - specialize (Hreach He).
        assert (Hpow : 2 ^ 52 = 2 ^ e * 2 ^ k)
          by (rewrite <- Z.pow_add_r by lia; f_equal; lia).
        pose proof (Z.pow_pos_nonneg 2 e ltac:(lia) He). rewrite Hpow.
        set (Pe := 2 ^ e) in *. set (P := 2 ^ k) in *. nia.
      - specialize (Hbelow He).
        assert (Hpow : 2 ^ k = 2 ^ (- e) * 2 ^ 52)
          by (rewrite <- Z.pow_add_r by lia; f_equal; lia).
        rewrite Hpow.
        set (Pe := 2 ^ (- e)) in *. set (C := 2 ^ 52) in *. nia. }
    set (P := 2 ^ k) in *.
    pose proof (round_half_even_near (a * P) b Hb) as Hnear.
    eexists. split; [reflexivity|].
    apply (Qabs_fraction_close _ a b P b (2 ^ 52)); try lia.
Qed.

Lemma nearest_double_raises (a b : Z) (e : exn) :
  nearest_double a b = Raise e -> e = OverflowError.
Proof.
  unfold nearest_double. destruct (0 <=? _); [|done].
  destruct (2 ^ 1024 <=? _); [|done]. by intros [= <-].
Qed.

(** True division by a positive integer never reports a division by zero. *)
Lemma py_truediv_raises (a b : Z) (e : exn) :
  0 < b -> py_truediv a b = Raise e -> e = OverflowError.
Proof.
  intros Hb. unfold py_truediv.
  destruct (Z.eqb_spec b 0); [lia|]. destruct (a =? 0); [done|].
  destruct (nearest_double _ _) as [x|e'] eqn:Hx; [done|].
  cbn. intros [= <-]. by eapply nearest_double_raises.
Qed.

Lemma py_truediv_between (a b lo hi : Z) :
  0 < b -> lo * b <= a <= hi * b -> - 2 ^ 53 < lo -> hi < 2 ^ 53 ->
  exists q, py_truediv a b = Ok q /\ (inject_Z lo <= q <= inject_Z hi)%Q.
Proof.
  intros Hb [Hlo Hhi] Hl Hh. unfold py_truediv.
  destruct (Z.eqb_spec b 0); [lia|].
  replace (b <? 0) with false by (symmetry; apply Z.ltb_ge; lia).
  rewrite xorb_false_r, (Z.abs_eq b) by lia.
  destruct (Z.eqb_spec a 0) as [->|Hne].
  { eexists. split; [reflexivity|].
    unfold Qle, inject_Z. cbn [Qnum Qden]. nia. }
  destruct (Z.ltb_spec a 0) as [Hneg|Hpos].
  - rewrite (Z.abs_neq a) by lia.
    destruct (nearest_double_between (- a) b (- hi) (- lo)) as (x & -> & Hx1 & Hx2);
      try lia.
    eexists. split; [reflexivity|].
    rewrite <- (Qopp_involutive (inject_Z lo)), <- (Qopp_involutive (inject_Z hi)).
    split; apply Qopp_le_compat; by rewrite <- inject_Z_opp.
  - rewrite (Z.abs_eq a) by lia.
    destruct (nearest_double_between a b lo hi) as (x & -> & Hx); try lia.
    by eexists.
Qed.

Lemma py_truediv_close (a b : Z) :
  0 < b -> b < 2 ^ 1022 -> Z.abs a < 2 ^ 1023 * b ->
  exists q, py_truediv a b = Ok q /\
            (Qabs (q - (a # Z.to_pos b)) <= Qabs (a # Z.to_pos b) * (1 # 2 ^ 53))%Q.
Proof.
  intros Hb Hcount Hrange. unfold py_truediv.
  destruct (Z.eqb_spec b 0); [lia|].
  replace (b <? 0) with false by (symmetry; apply Z.ltb_ge; lia).
  rewrite xorb_false_r, (Z.abs_eq b) by lia.
  destruct (Z.eqb_spec a 0) as [->|Hne].
  { eexists. split; [reflexivity|]. by vm_compute. }
  destruct (Z.ltb_spec a 0) as [Hneg|Hpos].
  - rewrite (Z.abs_neq a) in * by lia.
    destruct (nearest_double_close (- a) b) as (x & -> & Hx); try lia.
    eexists. split; [reflexivity|]. cbn [mbind result_bind].
    change (Qabs (a # Z.to_pos b)) with (Z.abs a # Z.to_pos b)%Q.
    rewrite (Z.abs_neq a) by lia.
    apply Qabs_Qle_condition in Hx. apply Qabs_Qle_condition.
    change (- a # Z.to_pos b)%Q with (- (a # Z.to_pos b))%Q in *. lra.
  - rewrite (Z.abs_eq a) in * by lia.
    destruct (nearest_double_close a b) as (x & -> & Hx); try lia.
    eexists. split; [reflexivity|]. cbn [mbind result_bind].
    change (Qabs (a # Z.to_pos b)) with (Z.abs a # Z.to_pos b)%Q.
    by rewrite (Z.abs_eq a) by lia.
Qed.

(** The list the average is taken over, read off the mappings. *)
Lemma ratings_of_mappings (reviews : list entry) :
  map get_rating_or_0 (filter (fun r => isinstance_dict r = true) reviews)
  = (fun r => default (Stars 0) (rating r)) <$> mappings reviews.
Proof.
  induction reviews as [|e reviews IH]; [done|].
  rewrite filter_cons. destruct e as [r|]; cbn.
  - case_decide; [|done]. cbn. by rewrite IH.
  - case_decide; [done|]. exact IH.
Qed.

Lemma sum_from_counted (rs : list review) (stars : list Z) (start : Z) :
  Forall2 (fun r z => counted r = Some z) rs stars ->
  sum_from start ((fun r => default (Stars 0) (rating r)) <$> rs)
  = Ok (start + foldr Z.add 0 stars).
Proof.
  intros Hrs. revert start.
  induction Hrs as [|r z rs stars Hr _ IH]; intros start; cbn; [f_equal; lia|].
  unfold counted in Hr. destruct (rating r) as [[z'|]|]; simplify_eq; cbn;
    rewrite IH; f_equal; lia.
Qed.

Lemma sum_from_not_a_number (rs : list review) (start : Z) :
  Exists (fun r => rating r = Some NotANumber) rs ->
  sum_from start ((fun r => default (Stars 0) (rating r)) <$> rs) = Raise TypeError.
Proof.
  revert start. induction rs as [|r rs IH]; intros start Hex;
    [by apply Exists_nil in Hex|].
  cbn. destruct (rating r) as [[z|]|] eqn:Hr; cbn; [|done|];
    apply IH; apply Exists_cons in Hex as [Hex|Hex]; congruence.
Qed.

Lemma calculate_review_average_mappings (reviews : list entry) :
  calculate_review_average reviews =
    match mappings reviews with
    | [] => Ok 0%Q
    | _ =>
        total ← sum ((fun r => default (Stars 0) (rating r)) <$> mappings reviews);
        py_truediv total (Z.of_nat (length (mappings reviews)))
    end.
Proof.
  unfold calculate_review_average. rewrite ratings_of_mappings.
  destruct reviews as [|e reviews]; [done|].
  destruct (mappings (e :: reviews)) as [|r rs]; [done|].
  destruct (sum _) as [total|err]; cbn [mbind result_bind]; [|done]. by rewrite length_fmap.
Qed.

Lemma foldr_add_bounds (lo hi : Z) (l : list Z) :
  Forall (fun x => lo <= x <= hi) l ->
  lo * Z.of_nat (length l) <= foldr Z.add 0 l <= hi * Z.of_nat (length l).
Proof. induction 1 as [|x l Hx _ IH]; cbn [foldr length]; lia. Qed.

(** C5.  [calculate_review_average] looks at the elements that are
    mappings only, and never divides by zero.  Without a mapping (the
    empty list included) it returns 0.  A mapping that holds something
    other than a number under [rating] makes it raise [TypeError].
    Otherwise every mapping counts, one without a rating as 0: the result
    is the float nearest to the sum of the ratings divided by the number
    of mappings, which is that mean itself when the mean is an integer
    below [2^53], and within a relative error of [2^-53] of it in general
    (for fewer than [2^63] reviews, the bound of a Python list, and
    a mean below [2^1023]).  In particular the average of the empty list
    is 0 and the average of the ratings 4 and 2 is 3. *)
Theorem calculate_review_average_mean (reviews : list entry) :
  let rs := mappings reviews in
  let n := Z.of_nat (length rs) in
  calculate_review_average reviews <> Raise ZeroDivisionError /\
  (rs = [] -> calculate_review_average reviews = Ok 0%Q) /\
  (Exists (fun r => rating r = Some NotANumber) rs ->
   calculate_review_average reviews = Raise TypeError) /\
  (forall stars,
     Forall2 (fun r z => counted r = Some z) rs stars -> rs <> [] ->
     let total := foldr Z.add 0 stars in
     (forall k, total = k * n -> Z.abs k < 2 ^ 53 ->
        exists q, calculate_review_average reviews = Ok q /\ (q == inject_Z k)%Q) /\
     (n < 2 ^ 63 -> Z.abs total < 2 ^ 1023 * n ->
        exists q, calculate_review_average reviews = Ok q /\
                  (Qabs (q - (total # Z.to_pos n))
                   <= Qabs (total # Z.to_pos n) * (1 # 2 ^ 53))%Q)) /\
  calculate_review_average [] = Ok 0%Q /\
  exists q,
    calculate_review_average
      [Mapping {| user_id := Some 1; rating := Some (Stars 4); comment := [];
                  timestamp := 0 |};
       Mapping {| user_id := Some 2; rating := Some (Stars 2); comment := [];
                  timestamp := 0 |}]
    = Ok q /\ (q == 3)%Q.
Proof.
  intros rs n. rewrite calculate_review_average_mappings. fold rs. fold n.
  assert (Hn : rs <> [] -> 0 < n) by (unfold n; destruct rs; [done|cbn; lia]).
  split; [|split; [|split; [|split; [|split]]]].
  - destruct rs as [|r rs'] eqn:Hrs; [done|].
    destruct (sum _) as [total|e] eqn:Hsum; cbn.
    + intros Hz. apply py_truediv_raises in Hz; [done|]. by apply Hn.
    + intros [= ->]. unfold sum in Hsum. clear -Hsum.
      assert (Hno : forall l start, sum_from start l <> Raise ZeroDivisionError).
      { induction l as [|[z|] l IH]; intros start; cbn; [done|apply IH|done]. }
      by apply Hno in Hsum.
  - by intros ->.
  - intros Hex. destruct rs as [|r rs'] eqn:Hrs; [by apply Exists_nil in Hex|].
    unfold sum. by rewrite sum_from_not_a_number.
  - intros stars Hstars Hne total. specialize (Hn Hne).
    assert (Hsum : sum ((fun r => default (Stars 0) (rating r)) <$> rs) = Ok total).
    { unfold sum. by rewrite (sum_from_counted rs stars 0 Hstars). }
    destruct rs as [|r rs'] eqn:Hrs; [done|]. rewrite Hsum. cbn [mbind result_bind].
    split.
    + intros k -> Hk.
      destruct (py_truediv_between (k * n) n k k) as (q & Hq & Hq1 & Hq2); try lia.
      exists q. split; [done|]. by apply Qle_antisym.
    + intros Hcount Hrange. apply py_truediv_close; try done.
      pose proof (Z.pow_lt_mono_r 2 63 1022 ltac:(lia) ltac:(lia) ltac:(lia)). lia.
  - reflexivity.
  - eexists. split; [vm_compute; reflexivity|]. reflexivity.
Qed.

(** ** Rate limiters *)

Lemma Qltb_lt (a b : Q) : Qltb a b = true <-> (a < b)%Q.
Proof.
  unfold Qltb. rewrite negb_true_iff, <- not_true_iff_false, Qle_bool_iff.
  split; [apply Qnot_le_lt|apply Qlt_not_le].
Qed.

Lemma Qltb_ge (a b : Q) : Qltb a b = false <-> (b <= a)%Q.
Proof.
  unfold Qltb. rewrite negb_false_iff, Qle_bool_iff. tauto.
Qed.

Lemma elem_of_in_window (now window : Q) (l : list Q) (t : Q) :
  t ∈ filter (fun t => Qltb (now - t) window = true) l <->
  t ∈ l /\ (now - t < window)%Q.
Proof. rewrite list_elem_of_filter, Qltb_lt. tauto. Qed.

Lemma filter_all_in_window (now window : Q) (l : list Q) :
  Forall (fun t => (now - t < window)%Q) l ->
  filter (fun t => Qltb (now - t) window = true) l = l.
Proof.
  induction 1 as [|t l Ht _ IH]; [done|].
  rewrite filter_cons_True by by apply Qltb_lt. by rewrite IH.
Qed.

Lemma filter_none_in_window (now window : Q) (l : list Q) :
  Forall (fun t => (window <= now - t)%Q) l ->
  filter (fun t => Qltb (now - t) window = true) l = [].
Proof.
  induction 1 as [|t l Ht _ IH]; [done|].
  rewrite filter_cons_False; [done|].
  apply Qltb_ge in Ht. by rewrite Ht.
Qed.

(** [min] returns an element of the list that is below all the others. *)
Lemma py_min_spec (t : Q) (ts : list Q) :
  exists oldest,
    py_min (t :: ts) = Ok oldest /\ oldest ∈ t :: ts /\
    Forall (fun x => (oldest <= x)%Q) (t :: ts).
Proof.
  unfold py_min.
  enough (Hgen : forall acc,
    let m := foldl (fun m x => if Qltb x m then x else m) acc ts in
    (m = acc \/ m ∈ ts) /\ (m <= acc)%Q /\ Forall (fun x => (m <= x)%Q) ts).
  { destruct (Hgen t) as (Hin & Hle & Hall).
    eexists. split; [reflexivity|]. split.
    - rewrite elem_of_cons. tauto.
    - by constructor. }
  induction ts as [|x ts IH]; intros acc; cbn.
  - split; [auto|]. split; [apply Qle_refl|constructor].
  - destruct (Qltb x acc) eqn:Hx.
    + apply Qltb_lt in Hx. destruct (IH x) as (Hin & Hle & Hall).
      split; [|split].
      * rewrite elem_of_cons. tauto.
      * eapply Qle_trans; [exact Hle|]. by apply Qlt_le_weak.
      * by constructor.
    + apply Qltb_ge in Hx. destruct (IH acc) as (Hin & Hle & Hall).
      split; [|split].
      * rewrite elem_of_cons. tauto.
      * done.
      * constructor; [|done]. eapply Qle_trans; eauto.
Qed.

(** Truncation of a non-negative float is its integer part. *)
Lemma int_of_float_nonneg (x : Q) :
  (0 <= x)%Q ->
  0 <= int_of_float x /\
  (inject_Z (int_of_float x) <= x)%Q /\ (x < inject_Z (int_of_float x) + 1)%Q.
Proof.
  intros Hx. unfold int_of_float.
  assert (Hn : 0 <= Qnum x).
  { unfold Qle in Hx. cbn in Hx. lia. }
  rewrite Z.quot_div_nonneg by lia.
  change (Qnum x `div` Z.pos (Qden x)) with (Qfloor (Qnum x # Qden x)).
  destruct x as [n d]. cbn [Qnum Qden] in *.
  split; [|split].
  - change 0 with (Qfloor 0). by apply Qfloor_resp_le.
  - apply Qfloor_le.
  - pose proof (Qlt_floor (n # d)) as Hlt.
    rewrite inject_Z_plus in Hlt. exact Hlt.
Qed.

Lemma check_rate_limit_accept w u (registry : gmap Z (list Q)) (l : list Q) :
  default [] (registry !! u) = l ->
  Forall (fun t => (now w - t < RATE_LIMIT_WINDOW)%Q) l ->
  (length l < RATE_LIMIT_MAX_MESSAGES)%nat ->
  check_rate_limit w u registry = (true, <[u := l ++ [now w]]> registry).
Proof.
  intros Hl Hin Hlen. unfold check_rate_limit.
  rewrite Hl, filter_all_in_window by done.
  destruct (Nat.leb_spec RATE_LIMIT_MAX_MESSAGES (length l)); [lia|done].
Qed.

Lemma check_rate_limit_reject w u (registry : gmap Z (list Q)) (l : list Q) :
  default [] (registry !! u) = l ->
  Forall (fun t => (now w - t < RATE_LIMIT_WINDOW)%Q) l ->
  (RATE_LIMIT_MAX_MESSAGES <= length l)%nat ->
  check_rate_limit w u registry = (false, <[u := l]> registry).
Proof.
  intros Hl Hin Hlen. unfold check_rate_limit.
  rewrite Hl, filter_all_in_window by done.
  destruct (Nat.leb_spec RATE_LIMIT_MAX_MESSAGES (length l)); [done|lia].
Qed.

Lemma check_rate_limit_expired w u (registry : gmap Z (list Q)) (l : list Q) :
  default [] (registry !! u) = l ->
  Forall (fun t => (RATE_LIMIT_WINDOW <= now w - t)%Q) l ->
  check_rate_limit w u registry = (true, <[u := [now w]]> registry).
Proof.
  intros Hl Hout. unfold check_rate_limit.
  by rewrite Hl, filter_none_in_window.
Qed.

(** C7.  Both limiters first keep, of the timestamps of the user, exactly
    those less than a window old ([now - t < window]; a timestamp aged a
    full window or more is dropped).  With [max] or more kept they reject
    and store the kept timestamps without adding [now]; the review limiter
    then also returns the whole seconds left until the oldest kept timestamp
    leaves the window.  Otherwise they append [now] and accept.  With the
    message limiter (max 5, window 5 s): five calls inside one window are
    accepted, a sixth is rejected, and a call after the window of the five
    has passed is accepted again. *)
Theorem sliding_window_limiters :
  (forall w u (registry : gmap Z (list Q)),
     let old := default [] (registry !! u) in
     let kept := filter (fun t => Qltb (now w - t) RATE_LIMIT_WINDOW = true) old in
     (forall t, t ∈ kept <-> t ∈ old /\ (now w - t < 5)%Q) /\
     check_rate_limit w u registry =
       if decide (5 <= length kept)%nat
       then (false, <[u := kept]> registry)
       else (true, <[u := kept ++ [now w]]> registry))
  /\
  (forall w u (registry : gmap Z (list Q)),
     let old := default [] (registry !! u) in
     let kept := filter (fun t => Qltb (now w - t) REVIEW_RATE_LIMIT_WINDOW = true) old in
     (forall t, t ∈ kept <-> t ∈ old /\ (now w - t < 3600)%Q) /\
     if decide (3 <= length kept)%nat
     then exists oldest remaining,
            check_review_rate_limit w u registry =
              (Ok (false, remaining), <[u := kept]> registry) /\
            oldest ∈ kept /\ Forall (fun t => (oldest <= t)%Q) kept /\
            0 <= remaining /\
            (inject_Z remaining <= oldest + 3600 - now w)%Q /\
            (oldest + 3600 - now w < inject_Z remaining + 1)%Q
     else check_review_rate_limit w u registry =
            (Ok (true, 0), <[u := kept ++ [now w]]> registry))
  /\
  (forall u (registry : gmap Z (list Q)) w1 w2 w3 w4 w5 w6 w7,
     registry !! u = None ->
     (now w1 <= now w2)%Q -> (now w2 <= now w3)%Q -> (now w3 <= now w4)%Q ->
     (now w4 <= now w5)%Q -> (now w5 <= now w6)%Q ->
     (now w6 - now w1 < 5)%Q ->
     (5 <= now w7 - now w5)%Q ->
     (run_checks [w1; w2; w3; w4; w5; w6; w7] u registry).1 =
       [true; true; true; true; true; false; true]).
Proof.
  split; [|split].
  - intros w u registry old kept. split.
    + intros t. apply elem_of_in_window.
    + unfold check_rate_limit. fold old. fold kept.
      unfold RATE_LIMIT_MAX_MESSAGES.
      destruct (Nat.leb_spec 5 (length kept)); case_decide; done || lia.
  - intros w u registry old kept. split.
    + intros t. apply elem_of_in_window.
    + unfold check_review_rate_limit. fold old. fold kept.
      unfold REVIEW_RATE_LIMIT_MAX.
      destruct (Nat.leb_spec 3 (length kept)); case_decide; try lia; [|done].
      destruct kept as [|t ts] eqn:Hkept; [cbn in *; lia|].
      destruct (py_min_spec t ts) as (oldest & Hmin & Hin & Hall).
      rewrite Hmin. cbn.
      assert (Hwin : (now w - oldest < REVIEW_RATE_LIMIT_WINDOW)%Q).
      { rewrite <- Hkept in Hin. apply elem_of_in_window in Hin. tauto. }
      unfold REVIEW_RATE_LIMIT_WINDOW in *.
      destruct (int_of_float_nonneg (3600 - (now w - oldest))) as (Hpos & Hle & Hlt);
        [lra|].
      eexists oldest, _. split; [reflexivity|].
      repeat split; try done; lra.
  - intros u registry w1 w2 w3 w4 w5 w6 w7 Hnone H12 H23 H34 H45 H56 H61 H75.
    unfold run_checks.
    rewrite (check_rate_limit_accept w1 u _ []);
      [|by rewrite Hnone|constructor|cbn; unfold RATE_LIMIT_MAX_MESSAGES; lia].
    rewrite (check_rate_limit_accept w2 u _ [now w1]);
      [|by rewrite lookup_insert_eq
       |repeat constructor; unfold RATE_LIMIT_WINDOW; lra
       |cbn; unfold RATE_LIMIT_MAX_MESSAGES; lia].
    rewrite (check_rate_limit_accept w3 u _ [now w1; now w2]);
      [|by rewrite lookup_insert_eq
       |repeat constructor; unfold RATE_LIMIT_WINDOW; lra
       |cbn; unfold RATE_LIMIT_MAX_MESSAGES; lia].
    rewrite (check_rate_limit_accept w4 u _ [now w1; now w2; now w3]);
      [|by rewrite lookup_insert_eq
       |repeat constructor; unfold RATE_LIMIT_WINDOW; lra
       |cbn; unfold RATE_LIMIT_MAX_MESSAGES; lia].
    rewrite (check_rate_limit_accept w5 u _ [now w1; now w2; now w3; now w4]);
      [|by rewrite lookup_insert_eq
       |repeat constructor; unfold RATE_LIMIT_WINDOW; lra
       |cbn; unfold RATE_LIMIT_MAX_MESSAGES; lia].
    rewrite (check_rate_limit_reject w6 u _ [now w1; now w2; now w3; now w4; now w5]);
      [|by rewrite lookup_insert_eq
       |repeat constructor; unfold RATE_LIMIT_WINDOW; lra
       |cbn; unfold RATE_LIMIT_MAX_MESSAGES; lia].
    rewrite (check_rate_limit_expired w7 u _ [now w1; now w2; now w3; now w4; now w5]);
      [|by rewrite lookup_insert_eq
       |repeat constructor; unfold RATE_LIMIT_WINDOW; lra].
    reflexivity.
Qed.

(** ** Session timeout *)

Lemma check_fsm_timeout_expired w u b t :
  fsm_timestamps b !! u = Some t ->
  (0 < t)%Q -> (FSM_TIMEOUT_SECONDS < now w - t)%Q ->
  check_fsm_timeout w u b = (false, pop_timestamp u (state_clear u b)).
Proof.
  intros Ht Hpos Hexp. unfold check_fsm_timeout. rewrite Ht. cbn.
  apply Qltb_lt in Hpos, Hexp. by rewrite Hpos, Hexp.
Qed.

Lemma check_fsm_timeout_fresh w u b t :
  fsm_timestamps b !! u = Some t ->
  (now w - t <= FSM_TIMEOUT_SECONDS)%Q ->
  check_fsm_timeout w u b =
    (true, with_fsm_timestamps (<[u := now w]> (fsm_timestamps b)) b).
Proof.
  intros Ht Hin. unfold check_fsm_timeout. rewrite Ht. cbn.
  apply Qltb_ge in Hin. rewrite Hin. by rewrite andb_false_r.
Qed.

Section Sessions.
Context `{PyText} {release : TinyDB}.

(** C8, amended.  [check_fsm_timeout] with a recorded positive
    [last_active]: when [now - last_active] exceeds [FSM_TIMEOUT_SECONDS] it
    discards the session (state and every collected field) and the
    timestamp, and reports expiry; otherwise it sets [last_active] to [now]
    and leaves the session as it is.  The six handlers that call it
    ([timeout_guarded]: the three steps of Upload and the three
    [receive_updated_*] steps) answer an update that reaches them after the
    timeout with the session-expired warning, leaving the store unchanged;
    afterwards the user is in no state and holds no field, so the workflow
    starts again from its entry.  The other handlers of a workflow (those of
    Review, and the reminder sent when a video is missing) do not check the
    timeout. *)
Theorem session_timeout_guarded :
  (forall w u b t,
     fsm_timestamps b !! u = Some t ->
     (0 < t)%Q -> (300 < now w - t)%Q ->
     check_fsm_timeout w u b = (false, pop_timestamp u (state_clear u b))) /\
  (forall w u b t,
     fsm_timestamps b !! u = Some t ->
     (now w - t <= 300)%Q ->
     exists b',
       check_fsm_timeout w u b = (true, b') /\
       fsm_timestamps b' !! u = Some (now w) /\
       fsm b' = fsm b /\ store b' = store b) /\
  (forall h w m b t,
     h ∈ timeout_guarded ->
     fsm_timestamps b !! from_user m = Some t ->
     (0 < t)%Q -> (300 < now w - t)%Q ->
     (h w m b).1 <> NotHandled ->
     h w m b = (WARN_SESSION_EXPIRED, pop_timestamp (from_user m) (state_clear (from_user m) b))) /\
  (forall u b,
     let b' := pop_timestamp u (state_clear u b) in
     session_of u b' = cleared /\
     data_title (get_data u b') = None /\
     fsm_timestamps b' !! u = None /\
     store b' = store b /\
     forall s, in_state u s b' = false).
Proof.
  split; [|split; [|split]].
  - intros w u b t. apply check_fsm_timeout_expired.
  - intros w u b t Ht Hin.
    rewrite (check_fsm_timeout_fresh w u b t Ht Hin).
    eexists. split; [reflexivity|]. cbn. by rewrite lookup_insert_eq.
  - intros h w m b t Hh Ht Hpos Hexp.
    pose proof (check_fsm_timeout_expired w (from_user m) b t Ht Hpos Hexp) as Hchk.
    unfold timeout_guarded in Hh.
    repeat (apply elem_of_cons in Hh as [->|Hh]); [..|by apply elem_of_nil in Hh].
    + unfold admin_receive_title.
      destruct (in_state _ _ b); cbn; [|done]. by rewrite Hchk.
    + unfold admin_receive_video.
      destruct (msg_video m); [|done].
      destruct (in_state _ _ b); cbn; [|done]. by rewrite Hchk.
    + unfold admin_save_card.
      destruct (in_state _ _ b); cbn; [|done]. by rewrite Hchk.
    + unfold receive_updated_video.
      destruct (msg_video m); [|done].
      destruct (in_state _ _ b); cbn; [|done]. by rewrite Hchk.
    + unfold receive_updated_title.
      destruct (text m) as [[|c t0]|]; [done| |done].
      destruct (in_state _ _ b); cbn; [|done]. by rewrite Hchk.
    + unfold receive_updated_description.
      destruct (text m) as [[|c t0]|]; [done| |done].
      destruct (in_state _ _ b); cbn; [|done]. by rewrite Hchk.
  - intros u b b'.
    assert (Hs : session_of u b' = cleared).
    { unfold session_of, b'. cbn. by rewrite lookup_delete_eq. }
    split; [done|]. split; [unfold get_data; by rewrite Hs|].
    split; [unfold b'; cbn; by rewrite lookup_delete_eq|].
    split; [done|]. intros s. unfold in_state. by rewrite Hs.
Qed.

End Sessions.

(** * Concrete runs *)

Lemma table_ok_uncached (m : gmap Z card) : table_ok {| docs := m; next_id := None |}.
Proof. intros n Hn. discriminate Hn. Qed.

Section Runs.
#[local] Existing Instance ascii_text.
#[local] Existing Instance only_admin_1.
#[local] Existing Instance raising_release.

(** A review for card 5 on a store that only holds card 1. *)
Lemma add_review_missing_card_witness :
  get_card 5 (db_one []) = None /\
  add_review w0 5 7 4 (s2l "nice") (db_one []) = (Ok tt, db_one []).
Proof.
  split; [reflexivity|]. apply add_review_missing_card. reflexivity.
Defined.

(** User 7 reviews card 1, which user 8 has reviewed, twice. *)
Lemma add_review_twice_witness :
  get_card 1 (db_one [review_by 8 3]) = Some (set_reviews [review_by 8 3] card_blue) /\
  exists d1,
    add_review w0 1 7 5 (s2l "great") (db_one [review_by 8 3]) = (Ok tt, d1) /\
    add_review w0 1 7 2 (s2l "again") d1 = (Raise DuplicateReview, d1).
Proof.
  split; [reflexivity|].
  destruct (add_review_twice w0 w0 1 7 5 (s2l "great") 2 (s2l "again")
              (db_one [review_by 8 3]) (set_reviews [review_by 8 3] card_blue)
              eq_refl ltac:(repeat constructor) eq_refl)
    as (d1 & H1 & _ & _ & _ & H2 & _).
  exists d1. split; assumption.
Defined.

(** C1 as stated fails: when user 7 has already reviewed card 1, the first
    of the two calls raises and appends nothing; and when the list of the
    card holds an element that is not a mapping, both calls return normally
    and the card ends with two reviews by user 7. *)
Lemma add_review_twice_counterexample :
  (get_card 1 (db_one [review_by 7 4]) = Some (set_reviews [review_by 7 4] card_blue) /\
   add_review w0 1 7 5 (s2l "great") (db_one [review_by 7 4])
     = (Raise DuplicateReview, db_one [review_by 7 4]))
  /\
  (let first := add_review w0 1 7 5 [] (db_one [NotMapping]) in
   let second := add_review w0 1 7 2 [] first.2 in
   first.1 = Ok tt /\ second.1 = Ok tt /\
   reviews_by 7 <$> (reviews <$> get_card 1 second.2) = Some 2%nat).
Proof. vm_compute. repeat split; reflexivity. Qed.

(** A session that holds the category [foo]. *)
Lemma add_card_category_gate_witness :
  data_category (get_data 1 bot_foo) = Some (s2l "foo") /\
  validate_category (s2l "foo") = false /\
  store (admin_save_card (at_time 1010) (txt 1 "from outer space") bot_foo).2
    = store bot_foo /\
  (admin_save_card (at_time 1010) (txt 1 "from outer space") bot_foo).1
    <> MSG_CARD_PUBLISHED.
Proof.
  split; [reflexivity|]. split; [reflexivity|].
  destruct add_card_category_gate as (_ & Hgate & _).
  destruct (Hgate (at_time 1010) (txt 1 "from outer space") bot_foo (s2l "foo")
              eq_refl eq_refl) as (Hstore & Hreply & _).
  split; assumption.
Defined.

(** C3 as stated fails: the store-level [add_card] accepts the category
    [foo], returns the id 1 and changes the store. *)
Lemma add_card_category_gate_counterexample :
  validate_category (s2l "foo") = false /\
  (add_card w0 (s2l "foo") (s2l "ufo") (s2l "vid") (s2l "seen") db_empty).1 = Ok 1 /\
  category <$>
    get_card 1 (add_card w0 (s2l "foo") (s2l "ufo") (s2l "vid") (s2l "seen") db_empty).2
    = Some (s2l "foo") /\
  get_card 1 db_empty = None.
Proof. vm_compute. repeat split; reflexivity. Qed.

Lemma add_card_then_get_witness :
  table_ok (db db_empty) /\
  exists doc_id c,
    (add_card w0 (s2l "yugioh") (s2l "blue dragon") (s2l "vid") (s2l "a card")
       db_empty).1 = Ok doc_id /\
    get_card doc_id
      (add_card w0 (s2l "yugioh") (s2l "blue dragon") (s2l "vid") (s2l "a card")
         db_empty).2 = Some c.
Proof.
  split; [apply table_ok_uncached|].
  destruct (add_card_then_get w0 (s2l "yugioh") (s2l "blue dragon") (s2l "vid")
              (s2l "a card") db_empty (table_ok_uncached _))
    as (doc_id & Hid & _ & Hget).
  exists doc_id. eexists. split; [exact Hid|exact Hget].
Defined.

(** C4 as stated fails: the title [blue dragon] is stored as [Blue Dragon],
    while the sanitizer leaves [blue dragon] as it is. *)
Lemma add_card_then_get_counterexample :
  (add_card w0 (s2l "yugioh") (s2l "blue dragon") (s2l "vid") (s2l "a card")
     db_empty).1 = Ok 1 /\
  title <$>
    get_card 1 (add_card w0 (s2l "yugioh") (s2l "blue dragon") (s2l "vid")
                  (s2l "a card") db_empty).2
    = Some (s2l "Blue Dragon") /\
  sanitize_text (s2l "blue dragon") None false = s2l "blue dragon" /\
  s2l "Blue Dragon" <> s2l "blue dragon".
Proof. vm_compute. repeat split; try reflexivity. discriminate. Qed.

(** Seven cards added while every unlink succeeds. *)
Lemma backup_rotation_bound_witness :
  Forall (fun op : world * mutation => forall g, can_unlink op.1 g = true)
    (map (fun timestamp => (stamped timestamp, a_card))
       (six_stamps ++ ["20240101_000007"%string])) /\
  (size (snapshots (backup_dir db_empty)) <= MAX_BACKUPS_KEPT)%nat /\
  (size (snapshots (backup_dir
     (run_mutations
        (map (fun timestamp => (stamped timestamp, a_card))
           (six_stamps ++ ["20240101_000007"%string])) db_empty)))
   <= MAX_BACKUPS_KEPT)%nat.
Proof.
  assert (Hcan : Forall (fun op : world * mutation => forall g, can_unlink op.1 g = true)
                   (map (fun timestamp => (stamped timestamp, a_card))
                      (six_stamps ++ ["20240101_000007"%string]))).
  { repeat constructor. }
  assert (Hsize : (size (snapshots (backup_dir db_empty)) <= MAX_BACKUPS_KEPT)%nat).
  { vm_compute. lia. }
  split; [exact Hcan|]. split; [exact Hsize|].
  destruct backup_rotation_bound as [_ Hrun].
  exact (Hrun _ db_empty Hcan Hsize).
Defined.

(** C6 as stated fails: six cards added from an empty backup directory
    while no unlink succeeds leave six snapshots, above the bound of five. *)
Lemma backup_rotation_bound_counterexample :
  size (snapshots (backup_dir db_empty)) = 0%nat /\
  size (snapshots (backup_dir
     (run_mutations (map (fun timestamp => (locked timestamp, a_card)) six_stamps)
        db_empty))) = 6%nat /\
  (MAX_BACKUPS_KEPT < 6)%nat.
Proof.
  split; [vm_compute; reflexivity|]. split; [vm_compute; reflexivity|].
  unfold MAX_BACKUPS_KEPT. lia.
Qed.

(** The ratings 4 and 2, an element that is no mapping and a mapping
    without a rating: three mappings, the sum 6, the average 2. *)
Lemma calculate_review_average_mean_witness :
  exists q,
    calculate_review_average [review_by 7 4; NotMapping; review_by 8 2; unrated_by 9]
      = Ok q /\ (q == 2)%Q.
Proof.
  pose proof (calculate_review_average_mean
                [review_by 7 4; NotMapping; review_by 8 2; unrated_by 9]) as Hmean.
  cbv zeta in Hmean. destruct Hmean as (_ & _ & _ & Hmean & _).
  destruct (Hmean [4; 2; 0] ltac:(repeat constructor) ltac:(discriminate))
    as [Hexact _].
  apply (Hexact 2); reflexivity.
Defined.

(** C5 as stated fails: a mapping without a rating is not left out but
    counted as 0, so the rating 5 next to such a mapping (and an element
    that is no mapping) averages 2.5, while the mean of the rating fields
    of the well-formed entries is 5; and a mapping that holds text or null
    under [rating] makes the function raise [TypeError] instead of
    returning a number. *)
Lemma calculate_review_average_mean_counterexample :
  (exists q,
     calculate_review_average [review_by 7 5; NotMapping; unrated_by 3] = Ok q /\
     (q == 5 # 2)%Q /\ ~ (q == 5)%Q) /\
  calculate_review_average [review_by 7 5; misrated_by 3] = Raise TypeError.
Proof.
  split; [|reflexivity].
  eexists. split; [vm_compute; reflexivity|]. split; [reflexivity|].
  intros Hq. vm_compute in Hq. discriminate Hq.
Qed.

(** Calls at seconds 0, 1, 2, 3, 4 and 4.5, then at second 10. *)
Lemma sliding_window_limiters_witness :
  (run_checks [at_time 0; at_time 1; at_time 2; at_time 3; at_time 4;
               at_time (9 # 2); at_time 10] 42 ∅).1
  = [true; true; true; true; true; false; true].
Proof.
  destruct sliding_window_limiters as (_ & _ & Hrun).
  apply Hrun; cbn; solve [reflexivity | lra].
Defined.

(** C7 as stated fails at the edge of the window.  User 42 has five
    timestamps at second 0 and calls at second 5: none of the five is older
    than now minus the window, so by the claim five remain and the call is
    rejected; the code keeps a timestamp only while [now - t < window],
    drops all five and accepts. *)
Lemma sliding_window_limiters_counterexample :
  Forall (fun t => ~ (t < now (at_time 5) - RATE_LIMIT_WINDOW)%Q) [0; 0; 0; 0; 0]%Q /\
  (RATE_LIMIT_MAX_MESSAGES <= length [0; 0; 0; 0; 0]%Q)%nat /\
  (check_rate_limit (at_time 5) 42 {[ 42 := [0; 0; 0; 0; 0]%Q ]}).1 = true /\
  (check_rate_limit (at_time 5) 42 {[ 42 := [0; 0; 0; 0; 0]%Q ]}).2 !! 42
    = Some [5%Q].
Proof.
  split.
  { repeat (apply Forall_cons_2; [unfold RATE_LIMIT_WINDOW; cbn; lra|]).
    apply Forall_nil_2. }
  split; [unfold RATE_LIMIT_MAX_MESSAGES; cbn; lia|].
  split; reflexivity.
Qed.

(** The video that arrives 390 seconds after the title. *)
Lemma session_timeout_guarded_witness :
  fsm_timestamps bot_titled !! 1 = Some 1010%Q /\
  data_title (get_data 1 bot_titled) = Some (s2l "dark magician") /\
  admin_receive_video (at_time 1400) (clip 1) bot_titled
    = (WARN_SESSION_EXPIRED, pop_timestamp 1 (state_clear 1 bot_titled)) /\
  data_title (get_data 1 (pop_timestamp 1 (state_clear 1 bot_titled))) = None.
Proof.
  split; [reflexivity|]. split; [reflexivity|].
  destruct session_timeout_guarded as (_ & _ & Hguard & Hclear).
  split.
  - apply (Hguard admin_receive_video (at_time 1400) (clip 1) bot_titled 1010%Q).
    + unfold timeout_guarded. apply elem_of_cons. right. apply elem_of_cons. by left.
    + reflexivity.
    + cbn. lra.
    + cbn. lra.
    + vm_compute. discriminate.
  - apply (Hclear 1 bot_titled).
Defined.

(** C8 as stated fails.  Admin 1 has a session with [last_active] 1000.  The
    rating selection and the skipped comment that arrive at time 2000 are
    accepted and the review is saved (the saved message goes out before
    the handler ends in the exception of its redirect): the session was
    neither discarded nor refreshed.  Likewise a text sent where a video is
    awaited is answered
    with a reminder, whenever it arrives, and the session with its title
    stays. *)
Lemma session_timeout_guarded_counterexample :
  (fsm_timestamps bot_reviewing !! 1 = Some 1000%Q /\
   (300 < now (at_time 2000) - 1000)%Q /\
   (select_rating (cb 1 "rate_5") bot_reviewing).1 = MSG_WRITE_COMMENT /\
   state (session_of 1 bot_rated) = Some LeaveReview_write_comment /\
   data_category (get_data 1 bot_rated) = Some (s2l "yugioh") /\
   fsm_timestamps bot_rated !! 1 = Some 1000%Q /\
   (skip_comment (at_time 2000) (cb 1 "comment_skip") bot_rated).1
     = AnsweredThenEscaped MSG_REVIEW_SAVED ValidationError /\
   reviews <$>
     get_card 1 (store (skip_comment (at_time 2000) (cb 1 "comment_skip") bot_rated).2)
     = Some [Mapping {| user_id := Some 1; rating := Some (Stars 5); comment := [];
                        timestamp := 2000 |}])
  /\
  (fsm_timestamps bot_titled !! 1 = Some 1010%Q /\
   admin_video_error (txt 1 "hello") bot_titled = (WARN_VIDEO_REQUIRED, bot_titled)).
Proof.
  split.
  - repeat split; try reflexivity.
  - split; reflexivity.
Qed.

End Runs.

(** The two failing inputs run the same way under either TinyDB release. *)
Section FailingInputs.
#[local] Existing Instance ascii_text.
#[local] Existing Instance only_admin_1.
Context {release : TinyDB}.

(** C9, the code at the failing input.  The docstrings promise a rating
    from 1 to 5 ([select_rating]: Receive the rating (1-5); [add_review]:
    Rating from 1 to 5), but nothing checks it.  User 7 sends the payload
    [rate_9] through the Review workflow: the rating is accepted and card
    1 ends with a review whose rating is 9.  Called directly, [add_review]
    stores the ratings 0 and -3 as well. *)
Theorem rating_range_unchecked :
  reviews <$> get_card 1 (store (bot_of (db_one []))) = Some [] /\
  (select_rating (cb 7 "rate_9")
     (start_review (at_time 1000) (cb 7 "review_1") (bot_of (db_one []))).2).1
    = MSG_WRITE_COMMENT /\
  reviews <$> get_card 1 (store (run_review_ops nine_stars (bot_of (db_one []))))
    = Some [Mapping {| user_id := Some 7; rating := Some (Stars 9); comment := [];
                       timestamp := 1002 |}] /\
  ~ (1 <= 9 <= 5) /\
  (add_review w0 1 7 0 [] (db_one [])).1 = Ok tt /\
  reviews <$> get_card 1
    (add_review w0 1 8 (-3) [] (add_review w0 1 7 0 [] (db_one [])).2).2
    = Some [Mapping {| user_id := Some 7; rating := Some (Stars 0); comment := [];
                       timestamp := 1000 |};
            Mapping {| user_id := Some 8; rating := Some (Stars (-3)); comment := [];
                       timestamp := 1000 |}].
Proof.
  split; [reflexivity|]. split; [reflexivity|]. split; [reflexivity|].
  split; [lia|]. split; reflexivity.
Qed.

(** C2, the code at the failing input.  Two coroutines review card 1 as
    user 7.  Under the schedule check, check, lock, add, lock, add, both
    pass the duplicate check before either appends: both return normally
    and the card holds two reviews by user 7.  The check runs before
    [_db_lock] is taken. *)
Theorem add_review_race :
  exists l,
    run_schedule [0; 1; 0; 0; 1; 1]%nat two_calls = Some l /\
    t_pc <$> l_tasks l = [Returned (Ok tt); Returned (Ok tt)] /\
    l_lock l = None /\
    reviews_by 7 <$> (reviews <$> get_card 1 (l_store l)) = Some 2%nat.
Proof. eexists. split; [reflexivity|]. repeat split; reflexivity. Qed.

End FailingInputs.

(** * Further properties of the code *)

(** ** The sanitizer *)

Section Sanitizer.
Context `{PyText}.

Lemma slice_to_take (n : Z) (s : str) : exists k, slice_to n s = take k s.
Proof. unfold slice_to. destruct (0 <=? n); eauto. Qed.

Lemma elem_of_lstrip (c : N) (s : str) : c ∈ lstrip s -> c ∈ s.
Proof.
  induction s as [|x s IH]; cbn; [done|].
  destruct (isspace x); [|done]. intros Hc. apply elem_of_cons. auto.
Qed.

Lemma elem_of_strip (c : N) (s : str) : c ∈ strip s -> c ∈ s.
Proof.
  unfold strip. intros Hc.
  apply list_elem_of_In, in_rev, list_elem_of_In, elem_of_lstrip in Hc.
  apply list_elem_of_In, in_rev, list_elem_of_In in Hc.
  by apply elem_of_lstrip.
Qed.

(** The text of [sanitize_text] just before the optional truncation. *)
Lemma sanitize_text_truncates (text : str) (max_length : option Z) (esc : bool) :
  exists k,
    sanitize_text text max_length esc = take k (sanitize_text text None esc).
Proof.
  unfold sanitize_text. destruct text as [|c0 text]; [by exists 0%nat|].
  set (t := if esc then _ else _). destruct max_length as [n|].
  - destruct (negb (n =? 0) && (n <? Z.of_nat (length t))).
    + apply slice_to_take.
    + exists (length t). by rewrite take_ge.
  - exists (length t). by rewrite take_ge.
Qed.

(** X1.  Whatever the options, a sanitized text is empty or starts with a
    character that is not one of the YAML structural characters of
    [yaml_special_start]. *)
Theorem sanitize_text_yaml_safe (text : str) (max_length : option Z) (esc : bool) :
  match sanitize_text text max_length esc with
  | [] => True
  | c :: _ => in_chars c yaml_special_start = false
  end.
Proof.
  destruct (sanitize_text_truncates text max_length esc) as [k ->].
  assert (Hfull : match sanitize_text text None esc with
                  | [] => True
                  | c :: _ => in_chars c yaml_special_start = false
                  end).
  { unfold sanitize_text. destruct text as [|c0 text]; [done|].
    set (t := strip _).
    assert (Hguard : match (match t with
                            | c :: _ => if in_chars c yaml_special_start
                                        then 32%N :: t else t
                            | [] => t
                            end) with
                     | [] => True
                     | c :: _ => in_chars c yaml_special_start = false
                     end).
    { destruct t as [|c t']; [done|].
      by destruct (in_chars c yaml_special_start) eqn:Hc. }
    destruct (match t with | [] => t | _ => _ end) as [|c rest]; [by destruct esc|].
    destruct esc; [|done]. unfold escape_markdown_chars. cbn [flat_map].
    destruct (in_chars c MARKDOWN_SPECIAL); cbn [app]; [|done].
    vm_compute. reflexivity. }
  destruct (sanitize_text text None esc) as [|c rest]; [by rewrite take_nil|].
  by destruct k.
Qed.

Lemma sanitize_text_len (text : str) (n : Z) (esc : bool) :
  0 < n -> len (sanitize_text text (Some n) esc) <= n.
Proof.
  intros Hn. unfold sanitize_text, len. destruct text as [|c0 text]; [cbn; lia|].
  set (t := if esc then _ else _).
  destruct (n =? 0) eqn:H0; [lia|]. cbn [negb andb].
  destruct (Z.ltb_spec n (Z.of_nat (length t))); [|lia].
  unfold slice_to. destruct (Z.leb_spec 0 n); [|lia].
  rewrite length_take. lia.
Qed.

(** X2.  With a positive [max_length], the sanitized text has at most
    [max_length] characters, with or without Markdown escaping. *)
Theorem sanitize_text_max_length (text : str) (n : Z) (esc : bool) :
  0 < n -> len (sanitize_text text (Some n) esc) <= n.
Proof. apply sanitize_text_len. Qed.

(** X3.  Every character of a sanitized text is the inserted space, a
    backslash added by the Markdown escaping (only when it is requested),
    or a character of the input that is printable, a newline or a tab:
    control characters never get through. *)
Theorem sanitize_text_characters (text : str) (max_length : option Z) (esc : bool) (c : N) :
  c ∈ sanitize_text text max_length esc ->
  c = 32%N \/ (esc = true /\ c = 92%N) \/
  (c ∈ text /\ (isprintable c = true \/ c = 10%N \/ c = 9%N)).
Proof.
  destruct (sanitize_text_truncates text max_length esc) as [k ->].
  intros Hc. eapply elem_of_sublist in Hc; [|apply sublist_take].
  unfold sanitize_text in Hc. destruct text as [|c0 text]; [by apply elem_of_nil in Hc|].
  set (t := strip _) in Hc.
  assert (Hkept : forall x, x ∈ t ->
            x ∈ c0 :: text /\ (isprintable x = true \/ x = 10%N \/ x = 9%N)).
  { intros x Hx. apply elem_of_strip, list_elem_of_filter in Hx as [Hp Hx].
    split; [done|]. apply orb_true_iff in Hp as [Hp|Hp]; [by left|right].
    unfold in_chars in Hp. apply bool_decide_eq_true_1 in Hp.
    apply elem_of_cons in Hp as [->|Hp]; [by left|].
    apply elem_of_cons in Hp as [->|Hp]; [by right|by apply elem_of_nil in Hp]. }
  assert (Hguarded : forall x,
            x ∈ (match t with
                 | c :: _ => if in_chars c yaml_special_start then 32%N :: t else t
                 | [] => t
                 end) -> x = 32%N \/ x ∈ t).
  { intros x Hx. destruct t as [|h t']; [by right|].
    destruct (in_chars h yaml_special_start); [|by right].
    apply elem_of_cons in Hx as [->|Hx]; auto. }
  destruct esc.
  - unfold escape_markdown_chars in Hc. apply list_elem_of_In in Hc.
    apply in_flat_map in Hc as (x & Hx & Hcx). apply list_elem_of_In in Hx.
    assert (Hcx' : c = 92%N \/ c = x).
    { destruct (in_chars x MARKDOWN_SPECIAL); cbn in Hcx;
        [destruct Hcx as [<-|[<-|[]]]|destruct Hcx as [<-|[]]]; auto. }
    destruct Hcx' as [->| ->]; [by right; left|].
    destruct (Hguarded _ Hx) as [->|Ht]; [by left|]. right. right. by apply Hkept.
  - destruct (Hguarded _ Hc) as [->|Ht]; [by left|]. right. right. by apply Hkept.
Qed.

End Sanitizer.

(** ** The duplicate check *)

Lemma any_by_user_true u rs :
  any_by_user u rs = Ok true ->
  exists r, Mapping r ∈ rs /\ user_id r = Some u.
Proof.
  induction rs as [|[r|] rs IH]; cbn; [done| |done].
  case_bool_decide as Hu.
  - intros _. exists r. split; [apply elem_of_cons; by left|done].
  - intros Hrs. destruct (IH Hrs) as (r' & Hin & Hr').
    exists r'. split; [apply elem_of_cons; by right|done].
Qed.

Lemma any_by_user_mappings u rs :
  Forall (fun e => isinstance_dict e = true) rs ->
  any_by_user u rs = Ok (bool_decide (0 < reviews_by u rs)%nat).
Proof.
  induction 1 as [|e rs He _ IH]; [done|].
  rewrite reviews_by_cons. destruct e as [r|]; [|done]. cbn.
  destruct (bool_decide (user_id r = Some u)).
  - by rewrite bool_decide_eq_true_2 by lia.
  - rewrite IH. f_equal.
Qed.

(** X4.  [user_has_reviewed] answers True only when the card exists and
    its list holds a review of the user; when every element of the list is
    a mapping it answers True exactly when the user has a review there. *)
Theorem user_has_reviewed_sound card_id u d :
  (user_has_reviewed card_id u d = true ->
   exists c r, get_card card_id d = Some c /\ Mapping r ∈ reviews c /\
               user_id r = Some u) /\
  (forall c, get_card card_id d = Some c ->
     Forall (fun e => isinstance_dict e = true) (reviews c) ->
     user_has_reviewed card_id u d = bool_decide (0 < reviews_by u (reviews c))%nat).
Proof.
  unfold user_has_reviewed, get_card. split.
  - destruct (db_get card_id (db d)) as [c|]; [|done].
    destruct (any_by_user u (reviews c)) as [[|]|] eqn:Hany; try done.
    intros _. destruct (any_by_user_true _ _ Hany) as (r & Hin & Hr). eauto.
  - intros c -> Hmaps. by rewrite any_by_user_mappings.
Qed.

(** ** Invariants kept by the mutations *)

Section Mutations.
Context `{PyText} {release : TinyDB}.

Lemma db_insert_docs document t :
  docs (db_insert document t).2 = docs t \/
  exists doc_id, docs (db_insert document t).2 = <[doc_id := document]> (docs t).
Proof.
  unfold db_insert. destruct (get_next_id t) as [doc_id t'] eqn:Hg.
  unfold get_next_id in Hg. injection Hg as <- <-. cbn.
  destruct (docs t !! _); cbn; eauto.
Qed.

(** A property of review lists that holds of the empty list and survives
    the append of [add_review] is kept by every mutation. *)
Lemma run_mutation_reviews (Q : list entry -> Prop) w m d :
  Q [] ->
  (forall u rating c0 t rs,
     Q rs -> any_by_user u rs <> Ok true ->
     Q (rs ++ [Mapping {| user_id := Some u; rating := Some (Stars rating);
                          comment := sanitize_text c0 (Some 200) false;
                          timestamp := t |}])) ->
  reviews_invariant Q d -> reviews_invariant Q (run_mutation w m d).
Proof.
  intros Hnil Happ Hd k c. unfold get_card, db_get.
  assert (Hupd : forall fields card_id,
            (forall c0, reviews (fields c0) = reviews c0) ->
            db (update_then_backup w fields card_id d).2 = db d \/
            docs (db (update_then_backup w fields card_id d).2)
              = alter fields card_id (docs (db d))).
  { intros fields card_id _. unfold update_then_backup, db_update, missing_doc_id.
    destruct (docs (db d) !! card_id); [|destruct missing_doc_id_raises]; cbn; auto. }
  assert (Halter : forall fields card_id,
            (forall c0, reviews (fields c0) = reviews c0) ->
            alter fields card_id (docs (db d)) !! k = Some c -> Q (reviews c)).
  { intros fields card_id Hf Hk. destruct (decide (card_id = k)) as [->|Hne].
    - rewrite lookup_alter_eq in Hk.
      destruct (docs (db d) !! k) as [c0|] eqn:Hc0; [|done].
      injection Hk as <-. rewrite Hf. by apply (Hd k).
    - rewrite lookup_alter_ne in Hk by done. by apply (Hd k). }
  destruct m as [cat name media words|card_id|card_id media|card_id name
                |card_id words|card_id u rating c0]; cbn.
  - unfold add_card.
    set (document := {| category := cat; title := _; video_id := media;
                        description := _; reviews := [] |}).
    pose proof (db_insert_docs document (db d)) as Hins.
    destruct (db_insert document (db d)) as [[doc_id|e] t]; cbn in *.
    + destruct Hins as [->|[i ->]]; [apply (Hd k)|].
      intros Hk. destruct (decide (i = k)) as [<-|Hne].
      * rewrite lookup_insert_eq in Hk. by injection Hk as <-.
      * rewrite lookup_insert_ne in Hk by done. by apply (Hd k).
    + destruct Hins as [->|[i ->]]; [apply (Hd k)|].
      intros Hk. destruct (decide (i = k)) as [<-|Hne].
      * rewrite lookup_insert_eq in Hk. by injection Hk as <-.
      * rewrite lookup_insert_ne in Hk by done. by apply (Hd k).
  - unfold delete_card, db_remove, missing_doc_id.
    destruct (docs (db d) !! card_id); [|destruct missing_doc_id_raises];
      cbn; [|apply (Hd k)..].
    intros Hk. apply lookup_delete_Some in Hk as [_ Hk]. by apply (Hd k).
  - unfold update_card_video.
    destruct (Hupd (set_video_id media) card_id (fun _ => eq_refl)) as [->| ->];
      [apply (Hd k)|by apply Halter].
  - unfold update_card_title.
    destruct (Hupd (set_title (sanitize_text (str_title (strip name)) None false))
                card_id (fun _ => eq_refl)) as [->| ->];
      [apply (Hd k)|by apply Halter].
  - unfold update_card_description.
    destruct (Hupd (set_description (format_description words)) card_id
                (fun _ => eq_refl)) as [->| ->];
      [apply (Hd k)|by apply Halter].
  - unfold add_review, user_has_reviewed.
    destruct (db_get card_id (db d)) as [c1|] eqn:Hc1; cbn.
    + destruct (any_by_user u (reviews c1)) as [[|]|e] eqn:Hany; cbn;
        try apply (Hd k);
        rewrite (_add_lookup _ _ _ _ _ _ _ Hc1); cbn;
        (intros Hk; destruct (decide (card_id = k)) as [<-|Hne];
         [rewrite lookup_insert_eq in Hk; injection Hk as <-; cbn;
          apply Happ; [by apply (Hd card_id)|congruence]
         |rewrite lookup_insert_ne in Hk by done; by apply (Hd k)]).
    + unfold _add. rewrite Hc1. apply (Hd k).
Qed.

Lemma run_mutations_reviews (Q : list entry -> Prop) ops d :
  Q [] ->
  (forall u rating c0 t rs,
     Q rs -> any_by_user u rs <> Ok true ->
     Q (rs ++ [Mapping {| user_id := Some u; rating := Some (Stars rating);
                          comment := sanitize_text c0 (Some 200) false;
                          timestamp := t |}])) ->
  reviews_invariant Q d -> reviews_invariant Q (run_mutations ops d).
Proof.
  intros Hnil Happ. revert d. induction ops as [|[w m] ops IH]; intros d Hd; [done|].
  cbn. apply IH. by apply run_mutation_reviews.
Qed.

Lemma one_review_per_user_append u rating c0 t rs :
  one_review_per_user rs -> any_by_user u rs <> Ok true ->
  one_review_per_user
    (rs ++ [Mapping {| user_id := Some u; rating := Some (Stars rating);
                       comment := sanitize_text c0 (Some 200) false;
                       timestamp := t |}]).
Proof.
  intros [Hmaps Hone] Hany. split.
  - apply Forall_app. split; [done|]. by repeat constructor.
  - intros v. rewrite reviews_by_app, reviews_by_cons. cbn.
    rewrite (any_by_user_mappings u rs Hmaps) in Hany.
    assert (Hnone : reviews_by u rs = 0%nat).
    { destruct (reviews_by u rs); [done|].
      exfalso. apply Hany. by rewrite bool_decide_eq_true_2 by lia. }
    specialize (Hone v).
    destruct (bool_decide (Some u = Some v)) eqn:Hv; [|lia].
    apply bool_decide_eq_true_1 in Hv. injection Hv as <-. lia.
Qed.

Lemma comments_bounded_append u rating c0 t rs :
  comments_bounded rs ->
  comments_bounded
    (rs ++ [Mapping {| user_id := Some u; rating := Some (Stars rating);
                       comment := sanitize_text c0 (Some 200) false;
                       timestamp := t |}]).
Proof.
  intros Hrs. apply Forall_app. split; [done|].
  constructor; [|constructor]. cbn. by apply sanitize_text_len.
Qed.

Lemma one_review_per_user_nil : one_review_per_user [].
Proof. split; [constructor|]. intros u. cbn. lia. Qed.

(** X5.  Executed one after the other, the mutations of database.py keep
    the rule of one review per user and card: if every review list holds
    only mappings and at most one per user, the same is true after any
    sequence of [add_card], [delete_card], [update_card_*] and
    [add_review] calls. *)
Theorem one_review_per_user_kept (ops : list (world * mutation)) (d : database) :
  reviews_invariant one_review_per_user d ->
  reviews_invariant one_review_per_user (run_mutations ops d).
Proof.
  apply run_mutations_reviews.
  - apply one_review_per_user_nil.
  - intros u rating c0 t rs. apply one_review_per_user_append.
Qed.

(** X6.  No mutation stores a comment of more than 200 characters: if all
    stored comments are within 200 characters, they still are after any
    sequence of mutations, whatever comments [add_review] is given. *)
Theorem comments_bounded_kept (ops : list (world * mutation)) (d : database) :
  reviews_invariant comments_bounded d ->
  reviews_invariant comments_bounded (run_mutations ops d).
Proof.
  apply run_mutations_reviews.
  - constructor.
  - intros u rating c0 t rs Hrs _. by apply comments_bounded_append.
Qed.

End Mutations.

(** ** Deleting, updating and listing cards *)

#[global] Instance id_le_total : Total id_le.
Proof. intros a b. unfold id_le. lia. Qed.

#[global] Instance id_le_trans : Transitive id_le.
Proof. intros a b c. unfold id_le. lia. Qed.

Lemma elem_of_table_rows (t : table) (k : Z) (c : card) :
  (k, c) ∈ table_rows t <-> docs t !! k = Some c.
Proof. unfold table_rows. by rewrite merge_sort_Permutation, elem_of_map_to_list. Qed.

(** The cached [_next_id] never goes down. *)
Lemma run_mutation_next_id `{PyText} {release : TinyDB} w m d n :
  next_id (db d) = Some n ->
  exists n', next_id (db (run_mutation w m d)) = Some n' /\ n <= n'.
Proof.
  intros Hn. destruct m as [cat name media words| | | | |]; cbn.
  - unfold add_card, db_insert, get_next_id. rewrite Hn. cbn.
    destruct (docs (db d) !! n); cbn; eexists; split; try reflexivity; lia.
  - unfold delete_card, db_remove, missing_doc_id.
    destruct (docs (db d) !! card_id); [|destruct missing_doc_id_raises];
      cbn; eauto with lia.
  - unfold update_card_video, update_then_backup, db_update, missing_doc_id.
    destruct (docs (db d) !! card_id); [|destruct missing_doc_id_raises];
      cbn; eauto with lia.
  - unfold update_card_title, update_then_backup, db_update, missing_doc_id.
    destruct (docs (db d) !! card_id); [|destruct missing_doc_id_raises];
      cbn; eauto with lia.
  - unfold update_card_description, update_then_backup, db_update, missing_doc_id.
    destruct (docs (db d) !! card_id); [|destruct missing_doc_id_raises];
      cbn; eauto with lia.
  - unfold add_review. destruct (user_has_reviewed _ _ _); cbn; [eauto with lia|].
    unfold _add, db_update, db_get.
    destruct (docs (db d) !! card_id) eqn:Hc; cbn; eauto with lia.
Qed.

Lemma run_mutations_table_ok `{PyText} {release : TinyDB} ops d :
  table_ok (db d) -> table_ok (db (run_mutations ops d)).
Proof.
  revert d. induction ops as [|[w m] ops IH]; intros d Hok; [done|].
  cbn. apply IH. by apply run_mutation_table_ok.
Qed.

Lemma run_mutations_next_id `{PyText} {release : TinyDB} ops d n :
  next_id (db d) = Some n ->
  exists n', next_id (db (run_mutations ops d)) = Some n' /\ n <= n'.
Proof.
  revert d n. induction ops as [|[w m] ops IH]; intros d n Hn; [eauto with lia|].
  cbn. destruct (run_mutation_next_id w m d n Hn) as (n1 & Hn1 & Hle).
  destruct (IH _ _ Hn1) as (n2 & Hn2 & Hle2). eauto with lia.
Qed.

Section Catalog.
Context `{PyText} {release : TinyDB}.

(** X7.  [delete_card] takes its backup before it removes the card and
    checks nothing itself.  On a stored id it returns normally, the card is
    gone and every other card is as before.  On an id that is not stored
    the table is unchanged and the backup directory has been rotated all
    the same; whether the call raises [KeyError] or returns normally is
    decided by the installed TinyDB release. *)
Theorem delete_card_effect (w : world) (card_id : Z) (d : database) :
  backup_dir (delete_card w card_id d).2 = backup_database w (backup_dir d) /\
  get_card card_id (delete_card w card_id d).2 = None /\
  (forall other, other <> card_id ->
     get_card other (delete_card w card_id d).2 = get_card other d) /\
  match get_card card_id d with
  | Some _ => (delete_card w card_id d).1 = Ok tt
  | None =>
      (delete_card w card_id d).1
        = (if missing_doc_id_raises then Raise (KeyError "doc_id") else Ok tt) /\
      db (delete_card w card_id d).2 = db d
  end.
Proof.
  unfold delete_card, db_remove, missing_doc_id, get_card, db_get.
  destruct (docs (db d) !! card_id) as [c|] eqn:Hc; cbn.
  - split; [done|]. split; [apply lookup_delete_eq|]. split; [|done].
    intros other Hne. by apply lookup_delete_ne.
  - destruct missing_doc_id_raises; cbn; by rewrite Hc.
Qed.

(** X8.  Within one process the identifiers given out by [add_card] grow
    strictly, whatever happens in between: an identifier returned once is
    never returned again, even after the card was deleted. *)
Theorem add_card_ids_increase (w1 w2 : world) (ops : list (world * mutation))
    (cat1 name1 media1 words1 cat2 name2 media2 words2 : str) (d : database) :
  table_ok (db d) ->
  let first := add_card w1 cat1 name1 media1 words1 d in
  let second := add_card w2 cat2 name2 media2 words2 (run_mutations ops first.2) in
  exists id1 id2, first.1 = Ok id1 /\ second.1 = Ok id2 /\ id1 < id2.
Proof.
  intros Hok first second.
  destruct (add_card_inserts w1 cat1 name1 media1 words1 d Hok) as [Hfirst _].
  fold first in Hfirst.
  assert (Hok1 : table_ok (db first.2)).
  { apply (run_mutation_table_ok w1 (MAddCard cat1 name1 media1 words1) d Hok). }
  assert (Hn1 : next_id (db first.2) = Some ((get_next_id (db d)).1 + 1))
    by by rewrite Hfirst.
  destruct (run_mutations_next_id ops _ _ Hn1) as (n & Hn & Hle).
  pose proof (run_mutations_table_ok ops _ Hok1) as Hok2.
  destruct (add_card_inserts w2 cat2 name2 media2 words2 _ Hok2) as [Hsecond _].
  fold second in Hsecond.
  exists (get_next_id (db d)).1, n. split; [by rewrite Hfirst|].
  split; [|lia]. rewrite Hsecond. cbn. unfold get_next_id. by rewrite Hn.
Qed.

Lemma update_then_backup_effect (w : world) (card_id : Z) (d : database)
    (change : card -> card) :
  changes_one_card w card_id d change (update_then_backup w change card_id d).
Proof.
  unfold changes_one_card, update_then_backup, db_update, missing_doc_id,
    get_card, db_get.
  destruct (docs (db d) !! card_id) as [c|] eqn:Hc; cbn;
    [|by destruct missing_doc_id_raises].
  split; [done|]. split; [by rewrite lookup_alter_eq, Hc|]. split; [|done].
  intros other Hne. by apply lookup_alter_ne.
Qed.

(** X9.  The three updates change one field of one card.  On a stored id
    they return normally, replace the title by the sanitized title-cased
    text (the description by its formatted text, the media reference by the
    given one), keep the other fields and the reviews, leave every other
    card alone and rotate the backups.  On an id that is not stored no card
    changes: under a TinyDB release that raises on such an id they raise
    [KeyError] and leave the backups as they were, under a release that
    skips it they return normally and rotate the backups. *)
Theorem update_card_effect (w : world) (card_id : Z) (v : str) (d : database) :
  changes_one_card w card_id d
    (set_title (sanitize_text (str_title (strip v)) None false))
    (update_card_title w card_id v d) /\
  changes_one_card w card_id d
    (set_description (format_description v))
    (update_card_description w card_id v d) /\
  changes_one_card w card_id d (set_video_id v) (update_card_video w card_id v d) /\
  (forall t c, reviews (set_title t c) = reviews c /\
               category (set_title t c) = category c /\
               video_id (set_title t c) = video_id c /\
               description (set_title t c) = description c) /\
  (forall t c, reviews (set_description t c) = reviews c /\
               category (set_description t c) = category c /\
               video_id (set_description t c) = video_id c /\
               title (set_description t c) = title c) /\
  (forall t c, reviews (set_video_id t c) = reviews c /\
               category (set_video_id t c) = category c /\
               title (set_video_id t c) = title c /\
               description (set_video_id t c) = description c).
Proof.
  split; [apply update_then_backup_effect|].
  split; [apply update_then_backup_effect|].
  split; [apply update_then_backup_effect|].
  repeat split.
Qed.

(** X10.  [get_cards] lists exactly the stored cards of the category, each
    once, with its id and title: a card of another category never appears
    and no card of the category is left out. *)
Theorem get_cards_exact (cat : str) (d : database) :
  (forall card_id t,
     (card_id, t) ∈ get_cards cat d <->
     exists c, get_card card_id d = Some c /\ category c = cat /\ title c = t) /\
  NoDup ((get_cards cat d).*1).
Proof.
  split.
  - intros card_id t. unfold get_cards, get_card, db_get.
    rewrite list_elem_of_fmap. split.
    + intros ([k c] & [= -> ->] & Hin). apply list_elem_of_filter in Hin as [Hcat Hin].
      apply elem_of_table_rows in Hin. eauto.
    + intros (c & Hc & Hcat & Ht). exists (card_id, c). split; [by rewrite <- Ht|].
      apply list_elem_of_filter. split; [done|]. by apply elem_of_table_rows.
  - unfold get_cards. rewrite <- list_fmap_compose.
    assert (Heq : (fst ∘ (fun row : Z * card => (row.1, title row.2))) = fst) by done.
    rewrite Heq.
    assert (Hnd : NoDup ((table_rows (db d)).*1)).
    { unfold table_rows. rewrite merge_sort_Permutation. apply NoDup_fst_map_to_list. }
    eapply sublist_NoDup; [exact Hnd|]. apply fmap_sublist, sublist_filter.
Qed.

End Catalog.

(** ** Bounds of the average *)

(** X11.  The average lies between the smallest and the largest rating it
    is taken over, as long as these are below [2^53] in absolute value:
    when the list holds at least one mapping and every mapping counts for
    an integer between [lo] and [hi] (a missing rating counting for 0), so
    does the float returned.  In particular it is between 1 and 5 for
    ratings from 1 to 5.  (Beyond [2^53] the rounding of the division can
    leave the range: the single rating [2^53 + 1] has the average
    [2^53].) *)
Theorem calculate_review_average_bounds (reviews : list entry) (lo hi : Z) :
  Forall (fun r => exists z, counted r = Some z /\ lo <= z <= hi) (mappings reviews) ->
  mappings reviews <> [] ->
  - 2 ^ 53 < lo -> hi < 2 ^ 53 ->
  exists q, calculate_review_average reviews = Ok q /\
            (inject_Z lo <= q)%Q /\ (q <= inject_Z hi)%Q.
Proof.
  intros Hall Hne Hlo Hhi. rewrite calculate_review_average_mappings.
  set (rs := mappings reviews) in *.
  assert (Hstars : exists stars,
            Forall2 (fun r z => counted r = Some z) rs stars /\
            Forall (fun z => lo <= z <= hi) stars).
  { clear Hne. induction Hall as [|r rs' (z & Hz & Hb) _ (stars & H2 & Hf)].
    - exists []. by split; constructor.
    - exists (z :: stars). by split; constructor. }
  destruct Hstars as (stars & H2 & Hf).
  pose proof (foldr_add_bounds lo hi stars Hf) as Hsum.
  rewrite <- (Forall2_length _ _ _ H2) in Hsum.
  unfold sum. rewrite (sum_from_counted rs stars 0 H2).
  destruct rs as [|r rs'] eqn:Hrs; [done|]. cbn [mbind result_bind].
  rewrite Z.add_0_l.
  destruct (py_truediv_between (foldr Z.add 0 stars)
              (Z.of_nat (length (r :: rs'))) lo hi) as (q & Hq & Hq1 & Hq2);
    try done; try (cbn [length] in *; lia).
  by exists q.
Qed.

(** ** The message limiter over many calls *)

(** X12.  One call of [check_rate_limit] touches the timestamps of its user
    only; what it stores for that user is less than a window old, so old
    timestamps are forgotten; a list of at most five stays at most five; an
    accepted call records [now] last; and a call is rejected only when five
    or more recorded timestamps of the user are less than a window old. *)
Theorem check_rate_limit_registry (w : world) (u : Z) (registry : gmap Z (list Q)) :
  let old := default [] (registry !! u) in
  let answer := check_rate_limit w u registry in
  (forall v, v <> u -> answer.2 !! v = registry !! v) /\
  exists stored,
    answer.2 !! u = Some stored /\
    Forall (fun t => (now w - t < 5)%Q) stored /\
    ((length old <= 5)%nat -> (length stored <= 5)%nat) /\
    (answer.1 = true -> exists kept, stored = kept ++ [now w] /\ kept ⊆ old) /\
    (answer.1 = false -> (5 <= length stored)%nat /\ stored ⊆ old).
Proof.
  intros old answer. unfold answer, check_rate_limit. fold old.
  set (kept := filter _ old).
  assert (Hkept : Forall (fun t => (now w - t < 5)%Q) kept).
  { apply Forall_forall. intros t Ht. apply elem_of_in_window in Ht. tauto. }
  assert (Hsub : kept ⊆ old).
  { intros t Ht. apply elem_of_in_window in Ht. tauto. }
  assert (Hlen : (length kept <= length old)%nat) by apply length_filter.
  unfold RATE_LIMIT_MAX_MESSAGES.
  destruct (Nat.leb_spec 5 (length kept)); cbn.
  - split; [intros v Hv; by apply lookup_insert_ne|].
    exists kept. rewrite lookup_insert_eq. repeat split; try done. lia.
  - split; [intros v Hv; by apply lookup_insert_ne|].
    exists (kept ++ [now w]). rewrite lookup_insert_eq. repeat split; try done.
    + apply Forall_app. split; [done|]. constructor; [lra|constructor].
    + rewrite length_app. cbn. lia.
    + eauto.
Qed.

Lemma run_checks_burst (ws : list world) (u : Z) (registry : gmap Z (list Q))
    (lo : Q) (stored : list Q) :
  default [] (registry !! u) = stored ->
  Forall (fun t => (lo <= t)%Q) stored ->
  Forall (fun w => (lo <= now w)%Q /\ (now w < lo + 5)%Q) ws ->
  (run_checks ws u registry).1 =
    replicate ((5 - length stored) `min` length ws) true ++
    replicate (length ws - (5 - length stored)) false.
Proof.
  revert registry stored.
  induction ws as [|w ws IH]; intros registry stored Hst Hlo Hws.
  - cbn. by rewrite Nat.min_0_r.
  - apply Forall_cons in Hws as [[Hw1 Hw2] Hws]. cbn [run_checks].
    assert (Hin : Forall (fun t => (now w - t < RATE_LIMIT_WINDOW)%Q) stored).
    { eapply Forall_impl; [exact Hlo|]. intros t Ht. cbn in Ht.
      unfold RATE_LIMIT_WINDOW. lra. }
    destruct (Nat.lt_ge_cases (length stored) 5) as [Hfew|Hmany].
    + rewrite (check_rate_limit_accept w u registry stored Hst Hin Hfew).
      specialize (IH (<[u := stored ++ [now w]]> registry) (stored ++ [now w])).
      destruct (run_checks ws u _) as [oks registry'] eqn:Hrun. cbn in *.
      rewrite IH; [|by rewrite lookup_insert_eq
                   |apply Forall_app; split; [done|by repeat constructor]|done].
      rewrite length_app. cbn [length].
      replace ((5 - length stored) `min` S (length ws))%nat
        with (S ((5 - (length stored + 1)) `min` length ws)) by lia.
      replace (S (length ws) - (5 - length stored))%nat
        with (length ws - (5 - (length stored + 1)))%nat by lia.
      done.
    + rewrite (check_rate_limit_reject w u registry stored Hst Hin Hmany).
      specialize (IH (<[u := stored]> registry) stored).
      destruct (run_checks ws u _) as [oks registry'] eqn:Hrun. cbn in *.
      rewrite IH; [|by rewrite lookup_insert_eq|done|done].
      replace (5 - length stored)%nat with 0%nat by lia.
      by rewrite !Nat.sub_0_r.
Qed.

(** X13.  A burst: when a user without recorded timestamps sends any number
    of messages whose times all lie within one window of five seconds, the
    first five are accepted and all the others are rejected. *)
Theorem check_rate_limit_burst (ws : list world) (u : Z)
    (registry : gmap Z (list Q)) (lo : Q) :
  registry !! u = None ->
  Forall (fun w => (lo <= now w)%Q /\ (now w < lo + 5)%Q) ws ->
  (run_checks ws u registry).1 =
    replicate (5 `min` length ws) true ++ replicate (length ws - 5) false.
Proof.
  intros Hnone Hws.
  rewrite (run_checks_burst ws u registry lo []); [done|by rewrite Hnone|done|done].
Qed.

(** ** The newest backup *)

(** X14.  A backup whose name is at least as great as every snapshot name
    already in the directory (a timestamp not older than theirs) is in the
    directory when [backup_database] returns: the pruning never removes the
    snapshot just taken, whether or not the unlinks succeed. *)
Theorem backup_database_keeps_newest `{PyText} (w : world) (dir : gset str) :
  copy_ok w = true ->
  is_backup (backup_file_name (stamp w)) = true ->
  (forall f, f ∈ snapshots dir -> name_ge (backup_file_name (stamp w)) f) ->
  backup_file_name (stamp w) ∈ backup_database w dir.
Proof.
  intros Hcopy Hnew Hge. set (new := backup_file_name (stamp w)) in *.
  apply backup_database_elem; [done|]. fold new.
  set (dir1 := {[ new ]} ∪ dir).
  split; [apply elem_of_union; left; by apply elem_of_singleton|].
  intros [Hdrop _].
  pose proof (NoDup_sorted_backups dir1) as Hnd.
  pose proof (StronglySorted_merge_sort name_ge
                (filter (fun f => is_backup f = true) (elements dir1))) as Hs.
  fold (sorted_backups dir1) in Hs.
  destruct (sorted_backups dir1) as [|h rest] eqn:Hl;
    [rewrite drop_nil in Hdrop; by apply elem_of_nil in Hdrop|].
  assert (Hh : h ∈ snapshots dir1).
  { apply elem_of_sorted_backups. rewrite Hl. apply elem_of_cons. by left. }
  change (drop MAX_BACKUPS_KEPT (h :: rest)) with (drop 4 rest) in Hdrop.
  assert (Hrest : new ∈ rest).
  { eapply elem_of_sublist; [exact Hdrop|apply sublist_drop]. }
  apply NoDup_cons in Hnd as [Hnotin _].
  apply StronglySorted_inv in Hs as [_ Hall]. rewrite Forall_forall in Hall.
  specialize (Hall new Hrest).
  assert (Hback : name_ge new h).
  { unfold snapshots in Hh. apply elem_of_filter in Hh as [Hb Hh].
    apply elem_of_union in Hh as [Hh|Hh].
    - apply elem_of_singleton in Hh. by subst h.
    - apply Hge. unfold snapshots. by apply elem_of_filter. }
  assert (h = new); [|by subst h].
  unfold name_ge in *. by apply str_leb_antisym.
Qed.

(** ** Buttons and pages *)

(** X15.  A button text always has exactly the width of its class (20, 10
    or 6 characters; 20 for an unknown class): a text that is too long is
    cut to the width, a shorter one is centred between spaces, with the
    odd space on the right. *)
Theorem make_button_width (text : str) (width : string) :
  let max_width :=
    if bool_decide (width = "medium") then 10
    else if bool_decide (width = "narrow") then 6 else 20 in
  len (make_button text width) = max_width /\
  (max_width <= len text ->
   make_button text width = take (Z.to_nat max_width) text) /\
  (len text < max_width ->
   exists left right,
     make_button text width = replicate left 32%N ++ text ++ replicate right 32%N /\
     (left <= right <= left + 1)%nat).
Proof.
  intros max_width. unfold make_button, len in *.
  assert (Hw : (if bool_decide (width = "wide") then BTN_WIDTH_WIDE
                else if bool_decide (width = "medium") then BTN_WIDTH_MEDIUM
                else if bool_decide (width = "narrow") then BTN_WIDTH_NARROW
                else BTN_WIDTH_WIDE) = max_width).
  { unfold max_width. repeat case_bool_decide; subst; done. }
  rewrite Hw.
  assert (Hpos : 0 < max_width) by (unfold max_width; repeat case_bool_decide; lia).
  destruct (Z.leb_spec max_width (Z.of_nat (length text))) as [Hlong|Hshort].
  - unfold slice_to. destruct (Z.leb_spec 0 max_width); [|lia].
    split; [rewrite length_take; lia|]. split; [done|lia].
  - split; [|split; [lia|]].
    + rewrite !length_app, !length_replicate.
      pose proof (Z.div_mod (max_width - Z.of_nat (length text)) 2 ltac:(lia)).
      pose proof (Z.mod_pos_bound (max_width - Z.of_nat (length text)) 2 ltac:(lia)).
      lia.
    + intros _. eexists _, _. split; [reflexivity|].
      pose proof (Z.div_mod (max_width - Z.of_nat (length text)) 2 ltac:(lia)).
      pose proof (Z.mod_pos_bound (max_width - Z.of_nat (length text)) 2 ltac:(lia)).
      lia.
Qed.

Lemma make_button_wide (text : str) :
  len (make_button text "wide") = 20 /\
  (20 <= len text -> make_button text "wide" = take 20 text).
Proof.
  unfold make_button, len, BTN_WIDTH_WIDE.
  rewrite bool_decide_eq_true_2 by done.
  destruct (Z.leb_spec 20 (Z.of_nat (length text))) as [Hlong|Hshort].
  - unfold slice_to. cbn [Z.leb Z.compare]. split; [rewrite length_take; lia|done].
  - split; [|lia]. rewrite !length_app, !length_replicate.
    pose proof (Z.div_mod (20 - Z.of_nat (length text)) 2 ltac:(lia)).
    pose proof (Z.mod_pos_bound (20 - Z.of_nat (length text)) 2 ltac:(lia)).
    lia.
Qed.

(** Of a title of 18 characters or more the button shows the first 18. *)
Lemma card_button_cut (t : str) :
  len (card_button t) = 20 /\
  (18 <= len t -> card_button t = [128313; 32]%N ++ take 18 t).
Proof.
  unfold card_button.
  destruct (make_button_wide ([128313; 32]%N ++ short_title t)) as [Hlen Hcut].
  split; [done|]. intros Hlong. unfold len in *.
  assert (Hshort : (18 <= length (short_title t))%nat /\
                   take 18 (short_title t) = take 18 t).
  { unfold short_title, slice_to, MAX_BUTTON_LENGTH, len. cbn [Z.leb Z.compare].
    destruct (Z.ltb_spec 30 (Z.of_nat (length t))).
    - rewrite length_app, length_take. split; [cbn; lia|].
      rewrite take_app_le by (rewrite length_take; lia).
      rewrite take_take. f_equal.
    - rewrite length_take. split; [lia|]. rewrite take_take. f_equal. }
  destruct Hshort as [Hl Ht].
  rewrite Hcut by (rewrite length_app; cbn [length]; lia).
  change (take 20 ([128313; 32]%N ++ short_title t))
    with ([128313; 32]%N ++ take 18 (short_title t)).
  by rewrite Ht.
Qed.

Section Pages.
Context `{PyText}.

Lemma show_category_inv cb d page total cards previous next :
  show_category cb d = CategoryPage page total cards previous next ->
  exists cat requested,
    split_on 95%N (cb_data cb) !! 1%nat = Some cat /\
    validate_category cat = true /\
    let n := Z.of_nat (length (get_cards cat d)) in
    total = (n + 7) `div` 8 /\
    page = Z.max 1 (Z.min requested total) /\
    cards = (fun row => (row.1, card_button row.2)) <$>
              slice ((page - 1) * 8) ((page - 1) * 8 + 8) (get_cards cat d) /\
    previous = (if (1 <? total) && (1 <? page) then Some (page - 1) else None) /\
    next = (if (1 <? total) && (page <? total) then Some (page + 1) else None).
Proof.
  unfold show_category. destruct (startswith _ _); cbn; [|done].
  destruct (split_on _ _ !! 1%nat) as [cat|]; [|done].
  destruct (validate_category cat) eqn:Hv; cbn; [|done].
  intros [= <- <- <- <- <-]. eexists cat, _. repeat split; try done.
  unfold CARDS_PER_PAGE. f_equal. lia.
Qed.

(** X16.  A page of [show_category] is well formed: the page number lies
    between 1 and the number of pages (it is 1 when there is no card), the
    number of pages is the number of cards of the category divided by 8 and
    rounded up, the page shows at most 8 cards and at least one when the
    category has cards, every button shown belongs to a card of the
    category and carries the text [make_button] builds from the marker and
    the title cut at 30 characters, which is always 20 characters wide, so
    that of a title of 18 characters or more exactly the first 18 are
    shown; and Previous and Next, when present, lead to the neighbouring
    pages inside the range of pages. *)
Theorem show_category_page cb d page total cards previous next :
  show_category cb d = CategoryPage page total cards previous next ->
  exists cat,
    split_on 95%N (cb_data cb) !! 1%nat = Some cat /\
    validate_category cat = true /\
    let n := Z.of_nat (length (get_cards cat d)) in
    total = (n + 7) `div` 8 /\
    1 <= page <= Z.max 1 total /\
    (length cards <= 8)%nat /\
    (0 < n -> cards <> []) /\
    (forall row, row ∈ cards ->
       exists t, (row.1, t) ∈ get_cards cat d /\
                 row.2 = make_button ([128313; 32]%N ++ short_title t) "wide" /\
                 len row.2 = 20 /\
                 (18 <= len t -> row.2 = [128313; 32]%N ++ take 18 t)) /\
    (forall p, previous = Some p -> p = page - 1 /\ 1 <= p) /\
    (forall p, next = Some p -> p = page + 1 /\ p <= total).
Proof.
  intros Hshow.
  destruct (show_category_inv _ _ _ _ _ _ _ Hshow)
    as (cat & requested & Hcat & Hv & Htotal & Hpage & Hcards & Hprev & Hnext).
  cbn zeta in *. exists cat. split; [done|]. split; [done|].
  set (n := Z.of_nat (length (get_cards cat d))) in *.
  assert (Hn : 0 <= n) by lia.
  assert (Htot : 0 <= total /\ 8 * total - 7 <= n <= 8 * total).
  { pose proof (Z.div_mod (n + 7) 8 ltac:(lia)).
    pose proof (Z.mod_pos_bound (n + 7) 8 ltac:(lia)). lia. }
  split; [done|]. split; [lia|]. split; [|split; [|split; [|split]]].
  - rewrite Hcards, length_fmap. unfold slice. rewrite length_take. lia.
  - intros Hpos. rewrite Hcards. intros Hnil.
    apply (f_equal length) in Hnil. rewrite length_fmap in Hnil.
    unfold slice in Hnil. rewrite length_take, length_drop in Hnil.
    cbn in Hnil. fold n in Hnil. lia.
  - intros row Hrow. rewrite Hcards in Hrow.
    apply list_elem_of_fmap in Hrow as ([k t] & -> & Hin). cbn.
    exists t. split; [|split; [done|apply card_button_cut]]. unfold slice in Hin.
    eapply elem_of_sublist in Hin; [|apply sublist_take].
    eapply elem_of_sublist in Hin; [|apply sublist_drop]. done.
  - intros p Hp. rewrite Hprev in Hp.
    destruct (Z.ltb_spec 1 total), (Z.ltb_spec 1 page); cbn in Hp; try done.
    injection Hp as <-. lia.
  - intros p Hp. rewrite Hnext in Hp.
    destruct (Z.ltb_spec 1 total), (Z.ltb_spec page total); cbn in Hp; try done.
    injection Hp as <-. lia.
Qed.

(** X17.  Every card of a category is on a page: the card at position [i]
    of the listing has its button, with the text [make_button] builds from
    the marker and the title cut at 30 characters, at position [i mod 8]
    of the page shown for the callback [cat_<category>_p_<number>] whose
    number reads as [i / 8 + 1]. *)
Theorem show_category_covers cb d cat number (i : nat) row :
  startswith (s2l "cat_") (cb_data cb) = true ->
  split_on 95%N (cb_data cb) !! 1%nat = Some cat ->
  split_on 95%N (cb_data cb) !! 2%nat = Some (s2l "p") ->
  split_on 95%N (cb_data cb) !! 3%nat = Some number ->
  int_of_str number = Some (Z.of_nat i `div` 8 + 1) ->
  validate_category cat = true ->
  get_cards cat d !! i = Some row ->
  exists total cards previous next,
    show_category cb d =
      CategoryPage (Z.of_nat i `div` 8 + 1) total cards previous next /\
    cards !! (i `mod` 8)%nat
      = Some (row.1, make_button ([128313; 32]%N ++ short_title row.2) "wide").
Proof.
  intros Hstart Hcat Hp Hnumber Hint Hv Hrow.
  unfold show_category. rewrite Hstart, Hcat, Hp, Hnumber, Hv, Hint. cbn [negb].
  unfold str_eqb. rewrite bool_decide_eq_true_2 by done. cbn [default].
  set (n := Z.of_nat (length (get_cards cat d))).
  pose proof (lookup_lt_Some _ _ _ Hrow) as Hlt.
  pose proof (Z.div_mod (Z.of_nat i) 8 ltac:(lia)) as Hdm.
  pose proof (Z.mod_pos_bound (Z.of_nat i) 8 ltac:(lia)) as Hmb.
  pose proof (Z.div_mod (n + CARDS_PER_PAGE - 1) CARDS_PER_PAGE ltac:(done)) as Hdm'.
  pose proof (Z.mod_pos_bound (n + CARDS_PER_PAGE - 1) CARDS_PER_PAGE ltac:(done)) as Hmb'.
  unfold CARDS_PER_PAGE in *.
  assert (Hpage : Z.max 1 (Z.min (Z.of_nat i `div` 8 + 1) ((n + 8 - 1) `div` 8))
                  = Z.of_nat i `div` 8 + 1).
  { assert (Z.of_nat i < n) by (unfold n; lia). lia. }
  unfold id. rewrite Hpage. eexists _, _, _, _. split; [reflexivity|].
  rewrite list_lookup_fmap. unfold slice.
  assert (Hi : i = (Z.to_nat ((Z.of_nat i `div` 8 + 1 - 1) * 8) + i `mod` 8)%nat).
  { rewrite (Nat.div_mod_eq i 8) at 1.
    assert (Z.of_nat (i `div` 8) = Z.of_nat i `div` 8) by apply (Nat2Z.inj_div i 8).
    lia. }
  rewrite lookup_take_lt.
  - rewrite lookup_drop, <- Hi, Hrow. done.
  - pose proof (Nat.mod_upper_bound i 8). lia.
Qed.

End Pages.

(** ** Keeping a session alive *)

(** X18.  The timeout is an idle timeout.  When a timeout check has passed
    at time [t1], the next check of the same user passes whenever it comes
    at most [FSM_TIMEOUT_SECONDS] later, however long the session has
    lasted in total, and it leaves the collected fields alone; when it
    comes later than that and [t1] is positive, it expires the session. *)
Theorem check_fsm_timeout_idle (w1 w2 : world) (u : Z) (b b1 : bot) :
  check_fsm_timeout w1 u b = (true, b1) ->
  fsm b1 = fsm b /\
  ((now w2 - now w1 <= 300)%Q ->
   exists b2, check_fsm_timeout w2 u b1 = (true, b2) /\ fsm b2 = fsm b /\
              fsm_timestamps b2 !! u = Some (now w2)) /\
  ((0 < now w1)%Q -> (300 < now w2 - now w1)%Q ->
   check_fsm_timeout w2 u b1 = (false, pop_timestamp u (state_clear u b1))).
Proof.
  intros Hfirst.
  destruct (check_fsm_timeout_alive _ _ _ _ Hfirst) as (_ & Hfsm & Hts).
  split; [done|]. split.
  - intros Hgap. rewrite (check_fsm_timeout_fresh w2 u b1 (now w1) Hts Hgap).
    eexists. split; [reflexivity|]. cbn. by rewrite lookup_insert_eq.
  - intros Hpos Hgap. by apply (check_fsm_timeout_expired w2 u b1 (now w1)).
Qed.

(** ** What the handlers can do to the process *)

Section Calls.
Context `{PyText} `{Config} {release : TinyDB}.

(** Splits a handler body into its branches. *)
Local Ltac branches :=
  cbv beta iota zeta;
  repeat
    (match goal with
     | |- context [check_fsm_timeout ?w ?u ?b] =>
         destruct (check_fsm_timeout_cases w u b) as [[-> _]|[-> _]]
     | |- context [match ?x with _ => _ end] => destruct x eqn:?
     end; cbv beta iota zeta).

Lemma try_add_review_fsm w u comment saved b :
  fsm (try_add_review w u comment saved b).2 = fsm b.
Proof. unfold try_add_review. branches; done. Qed.

Lemma try_add_review_store w u comment saved b :
  store (try_add_review w u comment saved b).2 = store b \/
  exists n rating,
    data_rating (get_data u b) = Some rating /\
    store (try_add_review w u comment saved b).2
      = (add_review w n u rating comment (store b)).2.
Proof.
  unfold try_add_review.
  destruct (data_card_id _); [|by left].
  destruct (int_of_str _) as [n|]; [|by left].
  destruct (data_rating _) as [rating|] eqn:Hr; [|by left].
  right. exists n, rating. split; [done|].
  destruct (add_review _ _ _ _ _ _) as [[?|[]] ?]; done.
Qed.

(** A handler call touches the session of its user only. *)
Lemma run_call_other_sessions (c : handler_call) (b : bot) (v : Z) :
  v <> call_user c -> fsm (run_call c b) !! v = fsm b !! v.
Proof.
  intros Hv.
  destruct c; cbn [run_call call_user] in *;
    unfold start_add_card, admin_receive_title, admin_receive_video,
      admin_video_error, admin_save_card, start_update_video, start_update_title,
      start_update_description, start_update, receive_updated_video,
      receive_updated_title, receive_updated_description, save_update,
      confirm_delete_card, start_review, select_rating, save_review_with_comment,
      skip_comment, menu_navigation, show_language_menu, block_unsolicited_messages;
    branches; cbn;
    rewrite ?lookup_insert_ne, ?lookup_delete_ne by done; try done;
    match goal with
    | Heq : try_add_review ?w ?u ?t ?s ?b0 = (_, ?b1) |- _ =>
        pose proof (try_add_review_fsm w u t s b0) as Htry;
        rewrite Heq in Htry; cbn in Htry; by rewrite Htry
    end.
Qed.

Lemma in_state_not_admin (u : Z) (s : State) (b : bot) :
  admin_state (state (session_of u b)) = false ->
  admin_state (Some s) = true ->
  in_state u s b = false.
Proof.
  intros Hu Hs. unfold in_state. apply bool_decide_eq_false_2.
  intros Heq. rewrite Heq in Hu. congruence.
Qed.

(** A user who is not an admin and is in no admin state: the store changes
    at most by one [add_review] of that user, with a rating taken from the
    session, and the user stays out of the admin states. *)
Lemma run_call_not_admin (c : handler_call) (b : bot) :
  is_admin (call_user c) = false ->
  admin_state (state (session_of (call_user c) b)) = false ->
  admin_state (state (session_of (call_user c) (run_call c b))) = false /\
  (store (run_call c b) = store b \/
   exists w n rating comment,
     store (run_call c b) = (add_review w n (call_user c) rating comment (store b)).2).
Proof.
  intros Hadmin Hstate.
  pose proof (fun s => in_state_not_admin (call_user c) s b Hstate) as Hin.
  pose proof (Hin UploadCard_write_title eq_refl) as H1.
  pose proof (Hin UploadCard_send_video eq_refl) as H2.
  pose proof (Hin UploadCard_write_description eq_refl) as H3.
  pose proof (Hin UpdateCardVideo_send_video eq_refl) as H4.
  pose proof (Hin UpdateCardTitle_write_title eq_refl) as H5.
  pose proof (Hin UpdateCardDescription_write_description eq_refl) as H6.
  clear Hin.
  destruct c; cbn [run_call call_user] in *;
    unfold start_add_card, admin_receive_title, admin_receive_video,
      admin_video_error, admin_save_card, start_update_video, start_update_title,
      start_update_description, start_update, receive_updated_video,
      receive_updated_title, receive_updated_description,
      confirm_delete_card, start_review, select_rating, save_review_with_comment,
      skip_comment, menu_navigation, show_language_menu, block_unsolicited_messages;
    rewrite ?Hadmin, ?H1, ?H2, ?H3, ?H4, ?H5, ?H6;
    branches;
    try match goal with
    | Heq : try_add_review ?w ?u ?t ?s ?b0 = (_, ?b1) |- _ =>
        pose proof (try_add_review_store w u t s b0) as Htry;
        rewrite Heq in Htry; cbn in Htry
    end;
    (split;
     [unfold session_of; cbn;
      rewrite ?lookup_insert_eq, ?lookup_delete_eq; cbn; try done
     |cbn; try (by left);
      match goal with
      | Htry : _ \/ _ |- _ =>
          destruct Htry as [->|(? & ? & _ & ->)]; [by left|right; eauto]
      end]).
Qed.

Lemma add_review_catalog w card_id u rating comment d :
  catalog (add_review w card_id u rating comment d).2 = catalog d /\
  backup_dir (add_review w card_id u rating comment d).2 = backup_dir d.
Proof.
  unfold add_review. destruct (user_has_reviewed _ _ _); [done|]. cbn.
  split; [|done]. unfold catalog. cbn.
  destruct (db_get card_id (db d)) as [c|] eqn:Hc.
  - rewrite (_add_lookup _ _ _ _ _ _ _ Hc). cbn.
    rewrite fmap_insert. apply insert_id.
    unfold db_get in Hc. by rewrite lookup_fmap, Hc.
  - unfold _add. by rewrite Hc.
Qed.

Lemma run_call_admin_states (c : handler_call) (b : bot) :
  admin_states_for_admins b -> admin_states_for_admins (run_call c b).
Proof.
  intros Hb v Hv. destruct (decide (v = call_user c)) as [->|Hne].
  - by apply run_call_not_admin; [|apply Hb].
  - unfold session_of. rewrite run_call_other_sessions by done. by apply Hb.
Qed.

Lemma run_calls_admin_states (calls : list handler_call) (b : bot) :
  admin_states_for_admins b -> admin_states_for_admins (run_calls calls b).
Proof.
  revert b. induction calls as [|c calls IH]; intros b Hb; [done|].
  cbn. apply IH. by apply run_call_admin_states.
Qed.

(** X19.  Only admins change the catalog.  In a process in which no user
    outside [ADMIN_IDS] starts in a state of an admin workflow (a fresh
    process, for instance), after any sequence of handler calls by any
    users, a call that comes from a user outside [ADMIN_IDS] adds no card,
    deletes none, changes no category, title, media reference or
    description, and takes no backup: whatever its payload, it can at most
    append a review. *)
Theorem catalog_changed_by_admins_only (calls : list handler_call)
    (c : handler_call) (b : bot) :
  admin_states_for_admins b ->
  is_admin (call_user c) = false ->
  let before := run_calls calls b in
  catalog (store (run_call c before)) = catalog (store before) /\
  backup_dir (store (run_call c before)) = backup_dir (store before).
Proof.
  intros Hb Hc before.
  pose proof (run_calls_admin_states calls b Hb) as Hbefore. fold before in Hbefore.
  destruct (run_call_not_admin c before Hc (Hbefore _ Hc)) as [_ [->|Hrev]]; [done|].
  destruct Hrev as (w & n & rating & comment & ->). apply add_review_catalog.
Qed.

(** Every handler call changes the database by at most one mutation. *)
Lemma run_call_mutation (c : handler_call) (b : bot) :
  at_most_one_mutation (store b) (store (run_call c b)).
Proof.
  destruct c; cbn [run_call];
    unfold start_add_card, admin_receive_title, admin_receive_video,
      admin_video_error, admin_save_card, start_update_video, start_update_title,
      start_update_description, start_update, receive_updated_video,
      receive_updated_title, receive_updated_description, save_update,
      confirm_delete_card, delete_card_by_text, start_review, select_rating,
      save_review_with_comment, skip_comment, menu_navigation,
      show_language_menu, block_unsolicited_messages;
    branches; unfold at_most_one_mutation; cbn;
    first
      [ by left
      | by (right; left)
      | match goal with
        | Heq : add_card ?w ?cat ?t ?v ?x _ = (_, _),
          Hv : negb (validate_category ?cat) = false |- _ =>
            right; right; exists w, (MAddCard cat t v x);
            split; [cbn in *; by rewrite Heq|];
            intros ? ? ? ? [= <- _ _ _]; by apply negb_false_iff in Hv
        | Heq : update_card_video ?w ?n ?v _ = (_, _) |- _ =>
            right; right; exists w, (MUpdateVideo n v);
            split; [cbn in *; by rewrite Heq|done]
        | Heq : update_card_title ?w ?n ?v _ = (_, _) |- _ =>
            right; right; exists w, (MUpdateTitle n v);
            split; [cbn in *; by rewrite Heq|done]
        | Heq : update_card_description ?w ?n ?v _ = (_, _) |- _ =>
            right; right; exists w, (MUpdateDescription n v);
            split; [cbn in *; by rewrite Heq|done]
        | Heq : match int_of_str ?l with _ => _ end = (_, _) |- _ =>
            destruct (int_of_str l) as [n'|];
            [right; right; exists w, (MDeleteCard n');
             split; [cbn in *; by rewrite Heq|done]
            |injection Heq as _ <-; by (right; left)]
        | Heq : try_add_review ?w ?u ?t ?s ?b0 = (_, ?b1) |- _ =>
            pose proof (try_add_review_store w u t s b0) as Htry;
            rewrite Heq in Htry; cbn in Htry;
            destruct Htry as [->|(n' & r' & _ & ->)]; [by left|];
            right; right; exists w, (MAddReview n' u r' t); by split
        end ].
Qed.

Lemma run_mutation_cards (P : card -> Prop) w m d :
  (forall v c, P c -> P (set_title v c)) ->
  (forall v c, P c -> P (set_description v c)) ->
  (forall v c, P c -> P (set_video_id v c)) ->
  (forall v c, P c -> P (set_reviews v c)) ->
  (forall cat name media words,
     m = MAddCard cat name media words ->
     P {| category := cat;
          title := sanitize_text (str_title (strip name)) None false;
          video_id := media; description := format_description words;
          reviews := [] |}) ->
  (forall card_id c, get_card card_id d = Some c -> P c) ->
  forall card_id c, get_card card_id (run_mutation w m d) = Some c -> P c.
Proof.
  intros Ht Hd Hv Hr Hnew Hall k c. unfold get_card, db_get in *.
  assert (Halter : forall fields card_id,
            (forall c0, P c0 -> P (fields c0)) ->
            docs (db (update_then_backup w fields card_id d).2) !! k = Some c -> P c).
  { intros fields card_id Hf. unfold update_then_backup, db_update, missing_doc_id.
    destruct (docs (db d) !! card_id) eqn:Hc;
      [|destruct missing_doc_id_raises]; cbn; [|apply (Hall k)..].
    destruct (decide (card_id = k)) as [->|Hne].
    - rewrite lookup_alter_eq, Hc. cbn. intros [= <-]. apply Hf. by apply (Hall k).
    - rewrite lookup_alter_ne by done. apply (Hall k). }
  destruct m as [cat name media words|card_id|card_id media|card_id name
                |card_id words|card_id u rating c0]; cbn.
  - unfold add_card.
    set (document := {| category := cat; title := _; video_id := media;
                        description := _; reviews := [] |}).
    pose proof (db_insert_docs document (db d)) as Hins.
    assert (P document) by (by eapply Hnew).
    destruct (db_insert document (db d)) as [[doc_id|e] t]; cbn in *;
      (destruct Hins as [->|[i ->]]; [apply (Hall k)|];
       intros Hk; destruct (decide (i = k)) as [<-|Hne];
       [rewrite lookup_insert_eq in Hk; by injection Hk as <-
       |rewrite lookup_insert_ne in Hk by done; by apply (Hall k)]).
  - unfold delete_card, db_remove, missing_doc_id.
    destruct (docs (db d) !! card_id); [|destruct missing_doc_id_raises];
      cbn; [|apply (Hall k)..].
    intros Hk. apply lookup_delete_Some in Hk as [_ Hk]. by apply (Hall k).
  - apply Halter. intros. by apply Hv.
  - apply Halter. intros. by apply Ht.
  - apply Halter. intros. by apply Hd.
  - unfold add_review. destruct (user_has_reviewed _ _ _); cbn; [apply (Hall k)|].
    destruct (db_get card_id (db d)) as [c1|] eqn:Hc1.
    + rewrite (_add_lookup _ _ _ _ _ _ _ Hc1). cbn. intros Hk.
      destruct (decide (card_id = k)) as [<-|Hne].
      * rewrite lookup_insert_eq in Hk. injection Hk as <-. apply Hr.
        by apply (Hall card_id).
      * rewrite lookup_insert_ne in Hk by done. by apply (Hall k).
    + unfold _add. rewrite Hc1. apply (Hall k).
Qed.

Lemma categories_valid_step (d d' : database) :
  at_most_one_mutation d d' -> categories_valid d -> categories_valid d'.
Proof.
  intros [->|[Hdb|(w & m & -> & Hm)]] Hd; [done| |].
  - intros k c. unfold get_card. rewrite Hdb. apply (Hd k).
  - intros k c. apply (run_mutation_cards
      (fun c => validate_category (category c) = true) w m d); try done.
Qed.

Lemma reviews_invariant_step (Q : list entry -> Prop) (d d' : database) :
  Q [] ->
  (forall u rating c0 t rs,
     Q rs -> any_by_user u rs <> Ok true ->
     Q (rs ++ [Mapping {| user_id := Some u; rating := Some (Stars rating);
                          comment := sanitize_text c0 (Some 200) false;
                          timestamp := t |}])) ->
  at_most_one_mutation d d' -> reviews_invariant Q d -> reviews_invariant Q d'.
Proof.
  intros Hnil Happ [->|[Hdb|(w & m & -> & Hm)]] Hd; [done| |].
  - intros k c. unfold get_card. rewrite Hdb. apply (Hd k).
  - by apply run_mutation_reviews.
Qed.

(** X20.  Through the handlers the whitelist holds at all times: if every
    stored card has a whitelisted category, so it is after any sequence of
    handler calls, whoever sends them and whatever they carry. *)
Theorem categories_valid_kept (calls : list handler_call) (b : bot) :
  categories_valid (store b) -> categories_valid (store (run_calls calls b)).
Proof.
  revert b. induction calls as [|c calls IH]; intros b Hb; [done|].
  cbn. apply IH. eapply categories_valid_step; [apply run_call_mutation|done].
Qed.

(** X21.  Handled one after the other, the updates keep the review lists
    in order: if every review list holds only mappings, at most one per
    user, with comments of at most 200 characters, the same is true after
    any sequence of handler calls. *)
Theorem reviews_kept_by_handlers (calls : list handler_call) (b : bot) :
  reviews_invariant one_review_per_user (store b) ->
  reviews_invariant comments_bounded (store b) ->
  reviews_invariant one_review_per_user (store (run_calls calls b)) /\
  reviews_invariant comments_bounded (store (run_calls calls b)).
Proof.
  revert b. induction calls as [|c calls IH]; intros b Hone Hlen; [done|].
  cbn. apply IH.
  - eapply reviews_invariant_step;
      [apply one_review_per_user_nil
      |intros u rating c0 t rs; apply one_review_per_user_append
      |apply run_call_mutation|done].
  - eapply reviews_invariant_step;
      [constructor
      |intros u rating c0 t rs Hrs _; by apply comments_bounded_append
      |apply run_call_mutation|done].
Qed.

(** X22.  Leaving a workflow commits nothing.  After a menu or language
    callback (offered here to both handlers, of which the one whose filter
    matches acts) the user is in no state, holds no field and has no
    timestamp, the store being untouched; and from there no call that
    continues a workflow (a title, video, description or comment message, a
    rating or a skipped comment) changes the store: the abandoned workflow
    cannot be completed. *)
Theorem cancelled_workflow_commits_nothing (cb : callback) (c : handler_call) (b : bot) :
  cb_data cb ∈ [s2l "info"; s2l "contatti"; s2l "recensioni"; s2l "menu";
                s2l "home"; s2l "language"] ->
  call_user c = cb_from_user cb ->
  continues_workflow c = true ->
  let left := show_language_menu cb (menu_navigation cb b) in
  session_of (cb_from_user cb) left = cleared /\
  fsm_timestamps left !! cb_from_user cb = None /\
  store left = store b /\
  store (run_call c left) = store b.
Proof.
  intros Hnav Hu Hc left.
  assert (Hleft : left = pop_timestamp (cb_from_user cb) (state_clear (cb_from_user cb) b)
                  \/ left = pop_timestamp (cb_from_user cb) (state_clear (cb_from_user cb)
                              (pop_timestamp (cb_from_user cb)
                                 (state_clear (cb_from_user cb) b)))).
  { unfold left, show_language_menu, menu_navigation, str_eqb.
    repeat case_bool_decide; auto.
    exfalso. repeat (apply elem_of_cons in Hnav as [Hnav|Hnav]; [set_solver|]).
    by apply elem_of_nil in Hnav. }
  assert (Hs : session_of (cb_from_user cb) left = cleared).
  { unfold session_of. destruct Hleft as [-> | ->]; cbn; by rewrite lookup_delete_eq. }
  assert (Hstore : store left = store b) by (by destruct Hleft as [-> | ->]).
  split; [done|]. split; [destruct Hleft as [-> | ->]; cbn; by rewrite lookup_delete_eq|].
  split; [done|]. rewrite <- Hstore. rewrite <- Hu in Hs. clearbody left.
  assert (Hin : forall s, in_state (call_user c) s left = false).
  { intros s. unfold in_state. by rewrite Hs. }
  assert (Hdata : data_card_id (get_data (call_user c) left) = None).
  { unfold get_data. by rewrite Hs. }
  destruct c; try discriminate Hc; cbn [run_call call_user] in *;
    unfold admin_receive_title, admin_receive_video, admin_video_error,
      admin_save_card, receive_updated_video, receive_updated_title,
      receive_updated_description, select_rating, save_review_with_comment,
      skip_comment, try_add_review;
    rewrite ?Hin, ?Hdata; branches; try done.
Qed.

Lemma session_of_set_state (u : Z) (s : State) (b : bot) :
  session_of u (set_state u s b) = {| state := Some s; data := data (session_of u b) |}.
Proof. unfold session_of at 1, set_state. cbn. by rewrite lookup_insert_eq. Qed.

Lemma session_of_update_data (u : Z) (f : fsm_data -> fsm_data) (b : bot) :
  session_of u (update_data u f b)
  = {| state := state (session_of u b); data := f (data (session_of u b)) |}.
Proof. unfold session_of at 1, update_data. cbn. by rewrite lookup_insert_eq. Qed.

Lemma in_state_true (u : Z) (s : State) (b : bot) :
  state (session_of u b) = Some s -> in_state u s b = true.
Proof. intros Hs. unfold in_state. by apply bool_decide_eq_true_2. Qed.

(** X23.  The review limiter at the entry of the Review workflow.  When
    three or more recorded attempts of the user are less than an hour old,
    [start_review] answers with a waiting time of at least one minute (at
    most 61 when no recorded attempt lies in the future), records nothing
    and touches neither the session nor the store.  Otherwise the attempt
    is recorded at once: also an attempt on a card that does not exist
    uses up one of the three attempts of the hour. *)
Theorem start_review_limiter (w : world) (cb : callback) (card_text : str) (b : bot) :
  startswith (s2l "review_") (cb_data cb) = true ->
  split_on 95%N (cb_data cb) !! 1%nat = Some card_text ->
  let u := cb_from_user cb in
  let kept := filter (fun t => Qltb (now w - t) REVIEW_RATE_LIMIT_WINDOW = true)
                (default [] (review_rate_limit_registry b !! u)) in
  ((3 <= length kept)%nat ->
   exists minutes,
     (start_review w cb b).1 = WARN_REVIEW_RATE_LIMIT minutes /\
     1 <= minutes /\
     (Forall (fun t => (t <= now w)%Q) kept -> minutes <= 61) /\
     review_rate_limit_registry (start_review w cb b).2 !! u = Some kept /\
     fsm (start_review w cb b).2 = fsm b /\
     store (start_review w cb b).2 = store b) /\
  ((length kept < 3)%nat ->
   review_rate_limit_registry (start_review w cb b).2 !! u = Some (kept ++ [now w]) /\
   store (start_review w cb b).2 = store b /\
   (get_card_by_text card_text (store b) = None ->
    (start_review w cb b).1 = WARN_CARD_NOT_FOUND /\
    fsm (start_review w cb b).2 = fsm b)).
Proof.
  intros Hstart Hparts u kept. unfold start_review.
  rewrite Hstart, Hparts. cbn [negb]. unfold check_review_rate_limit.
  fold u. fold kept. unfold REVIEW_RATE_LIMIT_MAX. split.
  - intros Hmany. destruct (Nat.leb_spec 3 (length kept)); [|lia].
    destruct kept as [|t ts] eqn:Hkept; [cbn in *; lia|].
    destruct (py_min_spec t ts) as (oldest & Hmin & Hin & Hall).
    rewrite Hmin. cbn.
    assert (Hwin : (now w - oldest < REVIEW_RATE_LIMIT_WINDOW)%Q).
    { rewrite <- Hkept in Hin. apply elem_of_in_window in Hin. tauto. }
    unfold REVIEW_RATE_LIMIT_WINDOW in *.
    destruct (int_of_float_nonneg (3600 - (now w - oldest))) as (Hpos & Hle & Hlt);
      [lra|].
    set (remaining := int_of_float (3600 - (now w - oldest))) in *.
    eexists. split; [reflexivity|].
    assert (0 <= remaining `div` 60) by (apply Z.div_pos; lia).
    split; [lia|]. split; [|by rewrite lookup_insert_eq].
    intros Hpast. rewrite Forall_forall in Hpast. specialize (Hpast oldest Hin).
    assert (Hr : remaining <= 3600).
    { assert (Hq : (inject_Z remaining <= 3600)%Q) by lra.
      unfold Qle, inject_Z in Hq. cbn in Hq. lia. }
    assert (remaining `div` 60 <= 60); [|lia].
    apply Z.div_le_upper_bound; lia.
  - intros Hfew. destruct (Nat.leb_spec 3 (length kept)); [lia|]. cbn.
    assert (Hreg : forall x : reply * bot,
              review_rate_limit_registry x.2
                = <[u := kept ++ [now w]]> (review_rate_limit_registry b) ->
              review_rate_limit_registry x.2 !! u = Some (kept ++ [now w])).
    { intros x ->. by rewrite lookup_insert_eq. }
    split; [|split].
    + apply Hreg. branches; done.
    + branches; done.
    + intros Hnone. cbn. rewrite Hnone. done.
Qed.

(** *** The steps of the Upload workflow *)

Lemma start_add_card_step (w : world) (cb : callback) (cat : str) (b : bot) :
  startswith (s2l "addnew_") (cb_data cb) = true ->
  is_admin (cb_from_user cb) = true ->
  split_on 95%N (cb_data cb) !! 1%nat = Some cat ->
  validate_category cat = true ->
  exists b',
    start_add_card w cb b = (MSG_WRITE_TITLE, b') /\
    store b' = store b /\
    session_of (cb_from_user cb) b'
      = {| state := Some UploadCard_write_title;
           data := put_category cat (data (session_of (cb_from_user cb) b)) |} /\
    fsm_timestamps b' !! cb_from_user cb = Some (now w).
Proof.
  intros Hstart Hadmin Hparts Hv. unfold start_add_card.
  rewrite Hstart, Hadmin, Hparts, Hv. cbn [negb].
  eexists. split; [reflexivity|]. split; [done|]. split.
  - rewrite session_of_set_state. f_equal.
    change (session_of (cb_from_user cb) (with_fsm_timestamps ?ts ?b0))
      with (session_of (cb_from_user cb) b0).
    by rewrite session_of_update_data.
  - cbn. by rewrite lookup_insert_eq.
Qed.

Lemma admin_receive_title_step (w : world) (m : message) (b : bot)
    (t : Q) (dat : fsm_data) (name : str) :
  session_of (from_user m) b = {| state := Some UploadCard_write_title; data := dat |} ->
  fsm_timestamps b !! from_user m = Some t ->
  (now w - t <= 300)%Q ->
  text m = Some name -> name <> [] -> len name <= MAX_TITLE_LENGTH ->
  exists b',
    admin_receive_title w m b = (MSG_TITLE_OK, b') /\
    store b' = store b /\
    session_of (from_user m) b'
      = {| state := Some UploadCard_send_video; data := put_title name dat |} /\
    fsm_timestamps b' !! from_user m = Some (now w).
Proof.
  intros Hs Ht Hgap Htext Hne Hlen. unfold admin_receive_title.
  rewrite (in_state_true _ _ _ (f_equal state Hs)).
  rewrite (check_fsm_timeout_fresh w _ b t Ht Hgap). cbn [negb]. rewrite Htext.
  destruct name as [|c name]; [done|].
  destruct (Z.ltb_spec MAX_TITLE_LENGTH (len (c :: name))); [lia|].
  eexists. split; [reflexivity|]. split; [done|]. split.
  - rewrite session_of_set_state, session_of_update_data.
    change (session_of (from_user m) (with_fsm_timestamps ?ts ?b0))
      with (session_of (from_user m) b0).
    by rewrite Hs.
  - cbn. by rewrite lookup_insert_eq.
Qed.

Lemma admin_receive_video_step (w : world) (m : message) (b : bot)
    (t : Q) (dat : fsm_data) (v : video) :
  session_of (from_user m) b = {| state := Some UploadCard_send_video; data := dat |} ->
  fsm_timestamps b !! from_user m = Some t ->
  (now w - t <= 300)%Q ->
  msg_video m = Some v -> video_too_large v = false ->
  validate_video_mimetype (file_name v) = true ->
  exists b',
    admin_receive_video w m b = (MSG_VIDEO_OK, b') /\
    store b' = store b /\
    session_of (from_user m) b'
      = {| state := Some UploadCard_write_description;
           data := put_video_id (file_id v) dat |} /\
    fsm_timestamps b' !! from_user m = Some (now w).
Proof.
  intros Hs Ht Hgap Hvideo Hsize Hfmt. unfold admin_receive_video.
  rewrite Hvideo, (in_state_true _ _ _ (f_equal state Hs)).
  rewrite (check_fsm_timeout_fresh w _ b t Ht Hgap). cbn [negb].
  rewrite Hsize, Hfmt. cbn [negb].
  eexists. split; [reflexivity|]. split; [done|]. split.
  - rewrite session_of_set_state, session_of_update_data.
    change (session_of (from_user m) (with_fsm_timestamps ?ts ?b0))
      with (session_of (from_user m) b0).
    by rewrite Hs.
  - cbn. by rewrite lookup_insert_eq.
Qed.

Lemma admin_save_card_step (w : world) (m : message) (b : bot)
    (t : Q) (dat : fsm_data) (cat name media words : str) :
  session_of (from_user m) b
    = {| state := Some UploadCard_write_description; data := dat |} ->
  fsm_timestamps b !! from_user m = Some t ->
  (now w - t <= 300)%Q ->
  text m = Some words -> words <> [] -> len words <= MAX_DESCRIPTION_LENGTH ->
  data_category dat = Some cat -> data_title dat = Some name ->
  data_video_id dat = Some media ->
  validate_category cat = true ->
  table_ok (db (store b)) ->
  exists b',
    admin_save_card w m b = (MSG_CARD_PUBLISHED, b') /\
    store b' = (add_card w cat name media words (store b)).2 /\
    session_of (from_user m) b' = cleared /\
    fsm_timestamps b' !! from_user m = None.
Proof.
  intros Hs Ht Hgap Htext Hne Hlen Hcat Hname Hmedia Hv Hok. unfold admin_save_card.
  rewrite (in_state_true _ _ _ (f_equal state Hs)).
  rewrite (check_fsm_timeout_fresh w _ b t Ht Hgap). cbn [negb]. rewrite Htext.
  destruct words as [|c words]; [done|].
  destruct (Z.ltb_spec MAX_DESCRIPTION_LENGTH (len (c :: words))); [lia|].
  unfold get_data.
  change (session_of (from_user m) (with_fsm_timestamps ?ts ?b0))
    with (session_of (from_user m) b0).
  rewrite Hs. cbn [data]. rewrite Hcat, Hname, Hmedia, Hv. cbn [negb].
  change (store (with_fsm_timestamps ?ts ?b0)) with (store b0).
  destruct (add_card_inserts w cat name media (c :: words) (store b) Hok) as [Hadd _].
  rewrite Hadd. eexists. split; [reflexivity|]. split; [done|]. split.
  - unfold session_of. cbn. by rewrite lookup_delete_eq.
  - cbn. by rewrite lookup_delete_eq.
Qed.

(** X24.  The Upload workflow from entry to publication.  An admin who
    opens it for a whitelisted category and then sends a title of 1 to 100
    characters, a video that passes the size and format checks and a
    description of 1 to 500 characters, each step at most
    [FSM_TIMEOUT_SECONDS] after the one before, is answered step by step
    and gets the card published: nothing is written before the last step,
    which stores exactly what [add_card] stores for the collected
    category, title, media reference and description, under a fresh id, and
    ends the session. *)
Theorem upload_workflow (w0 w1 w2 w3 : world) (cb : callback) (cat name words : str)
    (v : video) (b : bot) :
  let u := cb_from_user cb in
  let m1 := {| from_user := u; text := Some name; msg_video := None |} in
  let m2 := {| from_user := u; text := None; msg_video := Some v |} in
  let m3 := {| from_user := u; text := Some words; msg_video := None |} in
  startswith (s2l "addnew_") (cb_data cb) = true ->
  is_admin u = true ->
  split_on 95%N (cb_data cb) !! 1%nat = Some cat ->
  validate_category cat = true ->
  name <> [] -> len name <= 100 ->
  video_too_large v = false -> validate_video_mimetype (file_name v) = true ->
  words <> [] -> len words <= 500 ->
  (now w1 - now w0 <= 300)%Q -> (now w2 - now w1 <= 300)%Q ->
  (now w3 - now w2 <= 300)%Q ->
  table_ok (db (store b)) ->
  let s1 := start_add_card w0 cb b in
  let s2 := admin_receive_title w1 m1 s1.2 in
  let s3 := admin_receive_video w2 m2 s2.2 in
  let s4 := admin_save_card w3 m3 s3.2 in
  [s1.1; s2.1; s3.1; s4.1]
    = [MSG_WRITE_TITLE; MSG_TITLE_OK; MSG_VIDEO_OK; MSG_CARD_PUBLISHED] /\
  store s1.2 = store b /\ store s2.2 = store b /\ store s3.2 = store b /\
  store s4.2 = (add_card w3 cat name (file_id v) words (store b)).2 /\
  (exists doc_id,
     get_card doc_id (store b) = None /\
     get_card doc_id (store s4.2)
       = Some {| category := cat;
                 title := sanitize_text (str_title (strip name)) None false;
                 video_id := file_id v;
                 description := format_description words;
                 reviews := [] |}) /\
  session_of u s4.2 = cleared /\
  fsm_timestamps s4.2 !! u = None.
Proof.
  intros u m1 m2 m3 Hstart Hadmin Hparts Hv Hname Hnlen Hsize Hfmt Hwords Hwlen
    Hg1 Hg2 Hg3 Hok s1 s2 s3 s4.
  destruct (start_add_card_step w0 cb cat b Hstart Hadmin Hparts Hv)
    as (b1 & E1 & St1 & Se1 & T1).
  destruct (admin_receive_title_step w1 m1 b1 (now w0) _ name Se1 T1 Hg1 eq_refl
              Hname Hnlen) as (b2 & E2 & St2 & Se2 & T2).
  destruct (admin_receive_video_step w2 m2 b2 (now w1) _ v Se2 T2 Hg2 eq_refl
              Hsize Hfmt) as (b3 & E3 & St3 & Se3 & T3).
  assert (Hstore3 : store b3 = store b) by (by rewrite St3, St2, St1).
  assert (Hok3 : table_ok (db (store b3))) by (by rewrite Hstore3).
  destruct (admin_save_card_step w3 m3 b3 (now w2) _ cat name (file_id v) words
              Se3 T3 Hg3 eq_refl Hwords Hwlen eq_refl eq_refl eq_refl Hv Hok3)
    as (b4 & E4 & St4 & Se4 & T4).
  assert (H1 : s1 = (MSG_WRITE_TITLE, b1)) by exact E1.
  assert (H2 : s2 = (MSG_TITLE_OK, b2)) by (unfold s2; rewrite H1; exact E2).
  assert (H3 : s3 = (MSG_VIDEO_OK, b3)) by (unfold s3; rewrite H2; exact E3).
  assert (H4 : s4 = (MSG_CARD_PUBLISHED, b4)) by (unfold s4; rewrite H3; exact E4).
  clearbody s1 s2 s3 s4. subst s1 s2 s3 s4. cbn [fst snd].
  split; [done|]. split; [done|]. split; [by rewrite St2|]. split; [done|].
  split; [by rewrite St4, Hstore3|]. split; [|done].
  destruct (add_card_inserts w3 cat name (file_id v) words (store b) Hok)
    as [Hadd Hfresh].
  eexists. split; [exact Hfresh|].
  rewrite St4, Hstore3, Hadd. unfold get_card, db_get. cbn.
  by rewrite lookup_insert_eq.
Qed.

(** *** The steps of the Review workflow *)

Lemma start_review_step (w : world) (cb : callback) (card_text : str) (n : Z)
    (c : card) (b : bot) :
  let u := cb_from_user cb in
  startswith (s2l "review_") (cb_data cb) = true ->
  split_on 95%N (cb_data cb) !! 1%nat = Some card_text ->
  (length (filter (fun t => Qltb (now w - t) REVIEW_RATE_LIMIT_WINDOW = true)
             (default [] (review_rate_limit_registry b !! u))) < 3)%nat ->
  int_of_str card_text = Some n ->
  get_card n (store b) = Some c ->
  user_has_reviewed n u (store b) = false ->
  exists b',
    start_review w cb b = (MSG_START_REVIEW, b') /\
    store b' = store b /\
    session_of u b'
      = {| state := Some LeaveReview_choose_rating;
           data := put_card_title (title c)
                     (put_card_id card_text (data (session_of u b))) |}.
Proof.
  intros u Hstart Hparts Hfew Hint Hcard Hnew. unfold start_review.
  rewrite Hstart, Hparts. cbn [negb]. unfold check_review_rate_limit.
  fold u. unfold REVIEW_RATE_LIMIT_MAX.
  destruct (Nat.leb_spec 3 (length (filter
    (fun t => Qltb (now w - t) REVIEW_RATE_LIMIT_WINDOW = true)
    (default [] (review_rate_limit_registry b !! u))))) as [Hle|_]; [lia|].
  unfold get_card_by_text.
  change (store (with_review_rate_limit_registry ?r ?b0)) with (store b0).
  rewrite Hint, Hcard, Hnew.
  eexists. split; [reflexivity|]. split; [done|].
  rewrite session_of_set_state, session_of_update_data. done.
Qed.

Lemma select_rating_step (cb : callback) (part card_text : str) (r : Z) (b : bot) :
  let u := cb_from_user cb in
  startswith (s2l "rate_") (cb_data cb) = true ->
  split_on 95%N (cb_data cb) !! 1%nat = Some part ->
  int_of_str part = Some r ->
  data_card_id (data (session_of u b)) = Some card_text ->
  exists b',
    select_rating cb b = (MSG_WRITE_COMMENT, b') /\
    store b' = store b /\
    session_of u b'
      = {| state := Some LeaveReview_write_comment;
           data := put_rating r (data (session_of u b)) |}.
Proof.
  intros u Hstart Hparts Hint Hid. unfold select_rating.
  rewrite Hstart, Hparts, Hint. cbn [negb]. fold u.
  unfold get_data. rewrite session_of_update_data. cbn [data put_rating data_card_id].
  rewrite Hid. eexists. split; [reflexivity|]. split; [done|].
  by rewrite session_of_set_state, session_of_update_data.
Qed.

Lemma try_add_review_step (w : world) (u n r : Z) (card_text comment : str)
    (saved : reply) (c : card) (b : bot) :
  data_card_id (get_data u b) = Some card_text ->
  int_of_str card_text = Some n ->
  data_rating (get_data u b) = Some r ->
  get_card n (store b) = Some c ->
  user_has_reviewed n u (store b) = false ->
  exists b',
    try_add_review w u comment saved b = (saved, b') /\
    fsm b' = fsm b /\
    get_card n (store b')
      = Some (set_reviews
                (reviews c ++
                 [Mapping {| user_id := Some u; rating := Some (Stars r);
                             comment := sanitize_text comment (Some 200) false;
                             timestamp := now w |}]) c) /\
    backup_dir (store b') = backup_dir (store b).
Proof.
  intros Hid Hint Hr Hcard Hnew. unfold try_add_review.
  rewrite Hid, Hint, Hr. unfold add_review. rewrite Hnew.
  eexists. split; [reflexivity|]. split; [done|]. split; [|done].
  cbn. unfold get_card in *. rewrite (_add_lookup _ _ _ _ _ _ c Hcard).
  unfold db_get. cbn. by rewrite lookup_insert_eq.
Qed.

(** X25.  The Review workflow from entry to the stored review.  A user
    below the hourly limit who opens the workflow on an existing card they
    have not reviewed, picks a rating and then either sends a comment of 1
    to 200 characters or skips it, is answered step by step; the store is
    untouched until the last step, which appends exactly one review to that
    card, carrying the user, the rating picked, the sanitized comment (the
    sanitized empty text when skipped) and the time of the last step, and
    ends the session.  On the skip path the saved message goes out and the
    handler then ends in the [ValidationError] of its redirect, the review
    being stored and the session ended all the same.  No step checks that
    the rating lies between 1 and 5. *)
Theorem review_workflow (w1 w3 : world) (cb : callback)
    (card_text part words : str) (n r : Z) (c : card) (b : bot) :
  let u := cb_from_user cb in
  let cb2 := {| cb_from_user := u; cb_data := s2l "rate_" ++ part |} in
  let m3 := {| from_user := u; text := Some words; msg_video := None |} in
  let cb3 := {| cb_from_user := u; cb_data := s2l "comment_skip" |} in
  let added (comment : str) :=
    set_reviews
      (reviews c ++
       [Mapping {| user_id := Some u; rating := Some (Stars r);
                   comment := sanitize_text comment (Some 200) false;
                   timestamp := now w3 |}]) c in
  startswith (s2l "review_") (cb_data cb) = true ->
  split_on 95%N (cb_data cb) !! 1%nat = Some card_text ->
  (length (filter (fun t => Qltb (now w1 - t) REVIEW_RATE_LIMIT_WINDOW = true)
             (default [] (review_rate_limit_registry b !! u))) < 3)%nat ->
  int_of_str card_text = Some n ->
  get_card n (store b) = Some c ->
  user_has_reviewed n u (store b) = false ->
  split_on 95%N (s2l "rate_" ++ part) !! 1%nat = Some part ->
  int_of_str part = Some r ->
  words <> [] -> len words <= 200 ->
  let s1 := start_review w1 cb b in
  let s2 := select_rating cb2 s1.2 in
  let s3 := save_review_with_comment w3 m3 s2.2 in
  let s3' := skip_comment w3 cb3 s2.2 in
  [s1.1; s2.1; s3.1; s3'.1]
    = [MSG_START_REVIEW; MSG_WRITE_COMMENT; CONFIRM_REVIEW;
       AnsweredThenEscaped MSG_REVIEW_SAVED ValidationError] /\
  store s1.2 = store b /\ store s2.2 = store b /\
  get_card n (store s3.2) = Some (added words) /\
  get_card n (store s3'.2) = Some (added []) /\
  session_of u s3.2 = cleared /\ session_of u s3'.2 = cleared.
Proof.
  intros u cb2 m3 cb3 added Hstart Hparts Hfew Hint Hcard Hnew Hparts2 Hint2
    Hwords Hlen s1 s2 s3 s3'.
  destruct (start_review_step w1 cb card_text n c b Hstart Hparts Hfew Hint Hcard Hnew)
    as (b1 & E1 & St1 & Se1).
  fold u in Se1.
  assert (Hid1 : data_card_id (data (session_of u b1)) = Some card_text)
    by (by rewrite Se1).
  destruct (select_rating_step cb2 part card_text r b1 eq_refl Hparts2 Hint2 Hid1)
    as (b2 & E2 & St2 & Se2).
  change (cb_from_user cb2) with u in Se2.
  assert (Hstore2 : store b2 = store b) by (by rewrite St2, St1).
  assert (Hid2 : data_card_id (get_data u b2) = Some card_text)
    by (unfold get_data; by rewrite Se2, Se1).
  assert (Hr2 : data_rating (get_data u b2) = Some r)
    by (unfold get_data; by rewrite Se2).
  assert (Hcard2 : get_card n (store b2) = Some c) by (by rewrite Hstore2).
  assert (Hnew2 : user_has_reviewed n u (store b2) = false) by (by rewrite Hstore2).
  destruct (try_add_review_step w3 u n r card_text words CONFIRM_REVIEW c b2
              Hid2 Hint Hr2 Hcard2 Hnew2) as (b3 & E3 & F3 & G3 & _).
  destruct (try_add_review_step w3 u n r card_text [] MSG_REVIEW_SAVED c b2
              Hid2 Hint Hr2 Hcard2 Hnew2) as (b3' & E3' & F3' & G3' & _).
  assert (H1 : s1 = (MSG_START_REVIEW, b1)) by exact E1.
  assert (H2 : s2 = (MSG_WRITE_COMMENT, b2)) by (unfold s2; rewrite H1; exact E2).
  assert (H3 : s3 = (CONFIRM_REVIEW, state_clear u b3)).
  { unfold s3. rewrite H2. cbn [snd]. unfold save_review_with_comment.
    cbn [from_user text m3].
    rewrite (in_state_true u LeaveReview_write_comment b2) by (by rewrite Se2).
    cbn [negb]. destruct words as [|ch words]; [done|].
    destruct (Z.ltb_spec 200 (len (ch :: words))); [lia|]. by rewrite E3. }
  assert (H3' : s3' = (AnsweredThenEscaped MSG_REVIEW_SAVED ValidationError,
                       state_clear u b3')).
  { unfold s3'. rewrite H2. cbn [snd]. unfold skip_comment.
    cbn [cb_from_user cb_data cb3].
    replace (str_eqb (s2l "comment_skip") (s2l "comment_skip")) with true
      by (vm_compute; reflexivity).
    cbn [negb]. by rewrite E3', Hid2. }
  clearbody s1 s2 s3 s3'. subst s1 s2 s3 s3'. cbn [fst snd].
  split; [done|]. split; [done|]. split; [done|].
  split; [exact G3|]. split; [exact G3'|].
  split; unfold session_of, state_clear; cbn; by rewrite lookup_delete_eq.
Qed.

(** X26.  The last step of the title update.  With a live session that
    names a card, a new title of 1 to 100 characters after stripping is
    written to that card (stripped, title-cased and sanitized; every other
    field of the card is kept) and the session ends.  When the card has
    been deleted since the session was opened, no card changes and the
    outcome depends on the installed TinyDB release.  Under a release that
    raises on a missing id the handler answers with the update error,
    leaves the store as it was and does not end the session: the admin
    stays in the same state, with a fresh timestamp.  Under a release that
    skips a missing id the handler reports the title as updated, rotates
    the backups and ends the session, although no card was changed. *)
Theorem receive_updated_title_outcomes (w : world) (m : message) (b : bot)
    (t0 : Q) (dat : fsm_data) (card_text words : str) (n : Z) :
  let u := from_user m in
  let after := receive_updated_title w m b in
  session_of u b = {| state := Some UpdateCardTitle_write_title; data := dat |} ->
  fsm_timestamps b !! u = Some t0 ->
  (now w - t0 <= 300)%Q ->
  text m = Some words ->
  1 <= len (strip words) <= 100 ->
  data_card_id dat = Some card_text -> card_text <> [] ->
  int_of_str card_text = Some n ->
  (forall c, get_card n (store b) = Some c ->
     after.1 = MSG_TITLE_UPDATED /\
     get_card n (store after.2)
       = Some (set_title (sanitize_text (str_title (strip (strip words))) None false) c) /\
     session_of u after.2 = cleared /\
     fsm_timestamps after.2 !! u = None) /\
  (get_card n (store b) = None ->
     if missing_doc_id_raises
     then after.1 = WARN_TITLE_UPDATE_ERROR /\
          store after.2 = store b /\
          session_of u after.2 = session_of u b /\
          fsm_timestamps after.2 !! u = Some (now w)
     else after.1 = MSG_TITLE_UPDATED /\
          db (store after.2) = db (store b) /\
          backup_dir (store after.2) = backup_database w (backup_dir (store b)) /\
          session_of u after.2 = cleared /\
          fsm_timestamps after.2 !! u = None).
Proof.
  intros u after Hs Ht Hgap Htext Hlen Hid Hne Hint.
  assert (Hrun : after =
    save_update u (with_fsm_timestamps (<[u := now w]> (fsm_timestamps b)) b)
      (fun k => update_card_title w k (strip words))
      MSG_TITLE_UPDATED WARN_TITLE_UPDATE_ERROR).
  { unfold after, receive_updated_title. fold u. rewrite Htext.
    destruct words as [|ch words];
      [change (strip []) with (@nil N) in Hlen; unfold len in Hlen; cbn in Hlen; lia|].
    rewrite (in_state_true _ _ _ (f_equal state Hs)).
    rewrite (check_fsm_timeout_fresh w _ b t0 Ht Hgap). cbn [negb].
    destruct (Z.ltb_spec MAX_TITLE_LENGTH (len (strip (ch :: words))));
      [unfold MAX_TITLE_LENGTH in *; lia|].
    destruct (Z.eqb_spec (len (strip (ch :: words))) 0); [lia|]. done. }
  clearbody after. subst after. unfold save_update, get_data.
  change (session_of u (with_fsm_timestamps ?ts ?b0)) with (session_of u b0).
  rewrite Hs. cbn [data]. rewrite Hid.
  destruct card_text as [|d0 card_text]; [done|]. rewrite Hint.
  change (store (with_fsm_timestamps ?ts ?b0)) with (store b0).
  unfold update_card_title, update_then_backup, db_update, missing_doc_id,
    get_card, db_get.
  split.
  - intros c Hc. rewrite Hc. cbn. split; [done|]. split.
    + by rewrite lookup_alter_eq, Hc.
    + split; [unfold session_of; cbn|]; by rewrite lookup_delete_eq.
  - intros Hc. rewrite Hc. destruct missing_doc_id_raises; cbn.
    + split; [done|]. split; [done|]. split; [done|]. by rewrite lookup_insert_eq.
    + split; [done|]. split; [done|]. split; [done|].
      split; [unfold session_of; cbn|]; by rewrite lookup_delete_eq.
Qed.

End Calls.

(** * Concrete runs of the further properties *)

Lemma reviews_invariant_db_one (Q : list entry -> Prop) :
  Q [] -> reviews_invariant Q (db_one []).
Proof.
  intros HQ card_id c Hc. unfold get_card, db_get, db_one in Hc. cbn in Hc.
  apply lookup_singleton_Some in Hc as [_ <-]. exact HQ.
Qed.

Lemma comments_bounded_nil : comments_bounded [].
Proof. constructor. Qed.

Lemma admin_states_for_admins_bot_of `{Config} (d : database) :
  admin_states_for_admins (bot_of d).
Proof. intros u _. unfold session_of. cbn. by rewrite lookup_empty. Qed.

Lemma categories_valid_db_one : categories_valid (db_one []).
Proof.
  intros card_id c Hc. unfold get_card, db_get, db_one in Hc. cbn in Hc.
  apply lookup_singleton_Some in Hc as [_ <-]. vm_compute. reflexivity.
Qed.

Section MoreRuns.
#[local] Existing Instance ascii_text.
#[local] Existing Instance only_admin_1.
#[local] Existing Instance raising_release.

Lemma sanitize_text_max_length_witness :
  0 < 5 /\ len (sanitize_text (s2l "hello world") (Some 5) false) <= 5.
Proof. split; [lia|]. apply sanitize_text_max_length. lia. Defined.

(** The letter h of the text [hi]. *)
Lemma sanitize_text_characters_witness :
  104%N ∈ sanitize_text (s2l "hi") None false /\
  (104%N = 32%N \/ (false = true /\ 104%N = 92%N) \/
   (104%N ∈ s2l "hi" /\ (isprintable 104%N = true \/ 104%N = 10%N \/ 104%N = 9%N))).
Proof.
  assert (Hin : 104%N ∈ sanitize_text (s2l "hi") None false).
  { vm_compute. apply list_elem_of_here. }
  split; [exact Hin|]. exact (sanitize_text_characters _ _ _ _ Hin).
Defined.

(** Card 1 with a review by user 7. *)
Lemma user_has_reviewed_sound_witness :
  user_has_reviewed 1 7 (db_one [review_by 7 4]) = true /\
  exists c r, get_card 1 (db_one [review_by 7 4]) = Some c /\
              Mapping r ∈ reviews c /\ user_id r = Some 7.
Proof.
  split; [reflexivity|].
  apply (proj1 (user_has_reviewed_sound 1 7 (db_one [review_by 7 4]))). reflexivity.
Defined.

(** User 7 reviews card 1 twice, then the card gets a new title. *)
Lemma one_review_per_user_kept_witness :
  reviews_invariant one_review_per_user (db_one []) /\
  reviews_invariant one_review_per_user
    (run_mutations [(w0, MAddReview 1 7 5 (s2l "great"));
                    (w0, MAddReview 1 7 2 (s2l "again"));
                    (w0, MUpdateTitle 1 (s2l "red dragon"))] (db_one [])).
Proof.
  split; [exact (reviews_invariant_db_one _ one_review_per_user_nil)|].
  apply one_review_per_user_kept.
  exact (reviews_invariant_db_one _ one_review_per_user_nil).
Defined.

Lemma comments_bounded_kept_witness :
  reviews_invariant comments_bounded (db_one []) /\
  reviews_invariant comments_bounded
    (run_mutations [(w0, MAddReview 1 7 5 (s2l "great"));
                    (w0, MAddReview 1 8 2 (s2l "poor"))] (db_one [])).
Proof.
  split; [exact (reviews_invariant_db_one _ comments_bounded_nil)|].
  apply comments_bounded_kept.
  exact (reviews_invariant_db_one _ comments_bounded_nil).
Defined.

(** Two cards added to an empty store, the first deleted in between. *)
Lemma add_card_ids_increase_witness :
  table_ok (db db_empty) /\
  exists id1 id2,
    (add_card w0 (s2l "magic") (s2l "black lotus") (s2l "vid") (s2l "rare") db_empty).1
      = Ok id1 /\
    (add_card w0 (s2l "yugioh") (s2l "blue dragon") (s2l "vid") (s2l "a card")
       (run_mutations [(w0, MDeleteCard 1)]
          (add_card w0 (s2l "magic") (s2l "black lotus") (s2l "vid") (s2l "rare")
             db_empty).2)).1 = Ok id2 /\
    id1 < id2.
Proof.
  split; [apply table_ok_uncached|].
  exact (add_card_ids_increase w0 w0 [(w0, MDeleteCard 1)]
           (s2l "magic") (s2l "black lotus") (s2l "vid") (s2l "rare")
           (s2l "yugioh") (s2l "blue dragon") (s2l "vid") (s2l "a card")
           db_empty (table_ok_uncached _)).
Defined.

(** Ratings 4 and 2. *)
Lemma calculate_review_average_bounds_witness :
  exists q, calculate_review_average [review_by 7 4; review_by 8 2] = Ok q /\
            (inject_Z 1 <= q)%Q /\ (q <= inject_Z 5)%Q.
Proof.
  apply calculate_review_average_bounds.
  - repeat constructor; eexists; (split; [reflexivity|lia]).
  - discriminate.
  - reflexivity.
  - reflexivity.
Defined.

(** The first message of user 42. *)
Lemma check_rate_limit_registry_witness :
  (check_rate_limit (at_time 0) 42 ∅).1 = true /\
  exists stored kept,
    (check_rate_limit (at_time 0) 42 ∅).2 !! 42 = Some stored /\
    stored = kept ++ [0%Q].
Proof.
  split; [reflexivity|].
  pose proof (check_rate_limit_registry (at_time 0) 42 ∅) as Hr. cbv zeta in Hr.
  destruct Hr as (_ & stored & Hs & _ & _ & Hacc & _).
  destruct (Hacc eq_refl) as (kept & Hk & _).
  exists stored, kept. split; [exact Hs|exact Hk].
Defined.

(** Seven messages within five seconds. *)
Lemma check_rate_limit_burst_witness :
  (run_checks [at_time 0; at_time 1; at_time 2; at_time 3; at_time 4;
               at_time (9 # 2); at_time (49 # 10)] 42 ∅).1
  = [true; true; true; true; true; false; false].
Proof.
  apply (check_rate_limit_burst
           [at_time 0; at_time 1; at_time 2; at_time 3; at_time 4;
            at_time (9 # 2); at_time (49 # 10)] 42 ∅ 0%Q).
  - apply lookup_empty.
  - repeat constructor; cbn; lra.
Defined.

(** A backup taken after one older snapshot. *)
Lemma backup_database_keeps_newest_witness :
  backup_file_name (s2l "20240101_000007")
    ∈ backup_database (stamped "20240101_000007")
        {[ backup_file_name (s2l "20240101_000001") ]}.
Proof.
  apply (backup_database_keeps_newest (stamped "20240101_000007")).
  - reflexivity.
  - vm_compute. reflexivity.
  - intros f Hf. apply elem_of_filter in Hf as [_ Hf].
    apply elem_of_singleton in Hf. subst f. vm_compute. reflexivity.
Defined.

(** A two-letter label on a narrow button. *)
Lemma make_button_width_witness :
  len (s2l "ok") < 6 /\
  exists left right,
    make_button (s2l "ok") "narrow"
      = replicate left 32%N ++ s2l "ok" ++ replicate right 32%N /\
    (left <= right <= left + 1)%nat.
Proof.
  split; [reflexivity|].
  pose proof (make_button_width (s2l "ok") "narrow") as Hw. cbv zeta in Hw.
  destruct Hw as (_ & _ & Hpad). apply Hpad. reflexivity.
Defined.

(** The first page of a category with one card. *)
Lemma show_category_page_witness :
  show_category (cb 5 "cat_yugioh") (db_one [])
    = CategoryPage 1 1 [(1, card_button (s2l "Blue Dragon"))] None None /\
  exists cat,
    split_on 95%N (cb_data (cb 5 "cat_yugioh")) !! 1%nat = Some cat /\
    validate_category cat = true.
Proof.
  assert (Hpage : show_category (cb 5 "cat_yugioh") (db_one [])
                  = CategoryPage 1 1 [(1, card_button (s2l "Blue Dragon"))] None None).
  { vm_compute. reflexivity. }
  split; [exact Hpage|].
  destruct (show_category_page _ _ _ _ _ _ _ Hpage) as (cat & Hcat & Hvalid & _).
  exists cat. split; [exact Hcat|exact Hvalid].
Defined.

(** The first card of the category, asked for on page 1. *)
Lemma show_category_covers_witness :
  get_cards (s2l "yugioh") (db_one []) !! 0%nat = Some (1, s2l "Blue Dragon") /\
  exists total cards previous next,
    show_category (cb 5 "cat_yugioh_p_1") (db_one [])
      = CategoryPage (Z.of_nat 0 `div` 8 + 1) total cards previous next /\
    cards !! (0 `mod` 8)%nat = Some (1, card_button (s2l "Blue Dragon")).
Proof.
  assert (Hrow : get_cards (s2l "yugioh") (db_one []) !! 0%nat
                 = Some (1, s2l "Blue Dragon")).
  { vm_compute. reflexivity. }
  split; [exact Hrow|].
  apply (show_category_covers (cb 5 "cat_yugioh_p_1") (db_one []) (s2l "yugioh")
           (s2l "1") 0 (1, s2l "Blue Dragon")).
  - reflexivity.
  - reflexivity.
  - reflexivity.
  - reflexivity.
  - reflexivity.
  - vm_compute. reflexivity.
  - exact Hrow.
Defined.

(** A step at time 1000 and the next one 100 seconds later. *)
Lemma check_fsm_timeout_idle_witness :
  check_fsm_timeout (at_time 1000) 1 (bot_of (db_one []))
    = (true, (check_fsm_timeout (at_time 1000) 1 (bot_of (db_one []))).2) /\
  (now (at_time 1100) - now (at_time 1000) <= 300)%Q /\
  exists b2,
    check_fsm_timeout (at_time 1100) 1
      (check_fsm_timeout (at_time 1000) 1 (bot_of (db_one []))).2 = (true, b2) /\
    fsm b2 = fsm (bot_of (db_one [])).
Proof.
  assert (Hgap : (now (at_time 1100) - now (at_time 1000) <= 300)%Q) by (cbn; lra).
  split; [reflexivity|]. split; [exact Hgap|].
  destruct (check_fsm_timeout_idle (at_time 1000) (at_time 1100) 1 (bot_of (db_one []))
              _ eq_refl) as (_ & Hnext & _).
  destruct (Hnext Hgap) as (b2 & Hb2 & Hfsm & _).
  exists b2. split; [exact Hb2|exact Hfsm].
Defined.

(** User 7, who is no admin, asks for the deletion of card 1. *)
Lemma catalog_changed_by_admins_only_witness :
  is_admin 7 = false /\
  catalog (store (run_call (Call_confirm_delete_card w0 (cb 7 "confdelete_1_yugioh"))
                    (run_calls [Call_start_review (at_time 1000) (cb 7 "review_1")]
                       (bot_of (db_one [])))))
  = catalog (store (run_calls [Call_start_review (at_time 1000) (cb 7 "review_1")]
                      (bot_of (db_one [])))).
Proof.
  split; [reflexivity|].
  pose proof (catalog_changed_by_admins_only
                [Call_start_review (at_time 1000) (cb 7 "review_1")]
                (Call_confirm_delete_card w0 (cb 7 "confdelete_1_yugioh"))
                (bot_of (db_one [])) (admin_states_for_admins_bot_of _) eq_refl) as Hc.
  cbv zeta in Hc. exact (proj1 Hc).
Defined.

(** Admin 1 opens Upload for a category outside the whitelist and goes on. *)
Lemma categories_valid_kept_witness :
  categories_valid (store (bot_of (db_one []))) /\
  categories_valid
    (store (run_calls [Call_start_add_card (at_time 1000) (cb 1 "addnew_foo");
                       Call_admin_receive_title (at_time 1010) (txt 1 "ufo");
                       Call_admin_receive_video (at_time 1020) (clip 1);
                       Call_admin_save_card (at_time 1030) (txt 1 "seen")]
              (bot_of (db_one [])))).
Proof.
  split; [exact categories_valid_db_one|].
  apply categories_valid_kept. exact categories_valid_db_one.
Defined.

(** User 7 walks through the Review workflow twice. *)
Lemma reviews_kept_by_handlers_witness :
  reviews_invariant one_review_per_user
    (store (run_calls [Call_start_review (at_time 1000) (cb 7 "review_1");
                       Call_select_rating (cb 7 "rate_5");
                       Call_skip_comment (at_time 1002) (cb 7 "comment_skip");
                       Call_start_review (at_time 1003) (cb 7 "review_1");
                       Call_select_rating (cb 7 "rate_1");
                       Call_skip_comment (at_time 1005) (cb 7 "comment_skip")]
              (bot_of (db_one [])))).
Proof.
  apply reviews_kept_by_handlers.
  - exact (reviews_invariant_db_one _ one_review_per_user_nil).
  - exact (reviews_invariant_db_one _ comments_bounded_nil).
Defined.

(** Admin 1 leaves the Upload workflow through the menu before the
    description, then sends the description. *)
Lemma cancelled_workflow_commits_nothing_witness :
  data_title (get_data 1 bot_titled) = Some (s2l "dark magician") /\
  store (run_call (Call_admin_save_card (at_time 1020) (txt 1 "a spellcaster"))
           (show_language_menu (cb 1 "menu") (menu_navigation (cb 1 "menu") bot_titled)))
  = store bot_titled.
Proof.
  split; [reflexivity|].
  pose proof (cancelled_workflow_commits_nothing (cb 1 "menu")
                (Call_admin_save_card (at_time 1020) (txt 1 "a spellcaster"))
                bot_titled) as Hc.
  cbv zeta in Hc. apply Hc.
  - do 3 apply list_elem_of_further. apply list_elem_of_here.
  - reflexivity.
  - reflexivity.
Defined.

(** User 7 asks to review card 9, which does not exist. *)
Lemma start_review_limiter_witness :
  get_card_by_text (s2l "9") (store (bot_of (db_one []))) = None /\
  (start_review (at_time 1000) (cb 7 "review_9") (bot_of (db_one []))).1
    = WARN_CARD_NOT_FOUND /\
  review_rate_limit_registry
    (start_review (at_time 1000) (cb 7 "review_9") (bot_of (db_one []))).2 !! 7
    = Some [1000%Q].
Proof.
  split; [reflexivity|].
  pose proof (start_review_limiter (at_time 1000) (cb 7 "review_9") (s2l "9")
                (bot_of (db_one [])) eq_refl eq_refl) as Hl.
  cbv zeta in Hl. destruct Hl as [_ Hfew].
  destruct Hfew as (Hreg & _ & Hmiss); [vm_compute; lia|].
  split; [exact (proj1 (Hmiss eq_refl))|exact Hreg].
Defined.

(** Admin 1 publishes a card in four steps, ten seconds apart. *)
Lemma upload_workflow_witness :
  is_admin 1 = true /\
  validate_category (s2l "yugioh") = true /\
  let s1 := start_add_card (at_time 1000) (cb 1 "addnew_yugioh") (bot_of (db_one [])) in
  let s2 := admin_receive_title (at_time 1010) (txt 1 "dark magician") s1.2 in
  let s3 := admin_receive_video (at_time 1020) (clip 1) s2.2 in
  let s4 := admin_save_card (at_time 1030) (txt 1 "a spellcaster") s3.2 in
  [s1.1; s2.1; s3.1; s4.1]
    = [MSG_WRITE_TITLE; MSG_TITLE_OK; MSG_VIDEO_OK; MSG_CARD_PUBLISHED] /\
  store s4.2
    = (add_card (at_time 1030) (s2l "yugioh") (s2l "dark magician") (s2l "F1")
         (s2l "a spellcaster") (db_one [])).2 /\
  session_of 1 s4.2 = cleared.
Proof.
  split; [reflexivity|]. split; [reflexivity|].
  pose proof (upload_workflow (at_time 1000) (at_time 1010) (at_time 1020)
                (at_time 1030) (cb 1 "addnew_yugioh") (s2l "yugioh")
                (s2l "dark magician") (s2l "a spellcaster") clip_video
                (bot_of (db_one []))
                eq_refl eq_refl eq_refl eq_refl
                ltac:(discriminate) ltac:(vm_compute; discriminate)
                eq_refl eq_refl
                ltac:(discriminate) ltac:(vm_compute; discriminate)
                ltac:(cbn; lra) ltac:(cbn; lra) ltac:(cbn; lra)
                (table_ok_uncached _)) as Hrun.
  cbv zeta in Hrun.
  destruct Hrun as (Hreplies & _ & _ & _ & Hstore & _ & Hsession & _).
  split; [exact Hreplies|]. split; [exact Hstore|exact Hsession].
Defined.

(** User 7 reviews card 1 with five stars and the comment [nice]. *)
Lemma review_workflow_witness :
  get_card 1 (db_one []) = Some (set_reviews [] card_blue) /\
  user_has_reviewed 1 7 (db_one []) = false /\
  let s1 := start_review (at_time 1000) (cb 7 "review_1") (bot_of (db_one [])) in
  let s2 := select_rating (cb 7 "rate_5") s1.2 in
  let s3 := save_review_with_comment (at_time 1002) (txt 7 "nice") s2.2 in
  reviews <$> get_card 1 (store s3.2)
    = Some [Mapping {| user_id := Some 7; rating := Some (Stars 5);
                       comment := sanitize_text (s2l "nice") (Some 200) false;
                       timestamp := 1002 |}] /\
  session_of 7 s3.2 = cleared.
Proof.
  split; [reflexivity|]. split; [reflexivity|].
  pose proof (review_workflow (at_time 1000) (at_time 1002) (cb 7 "review_1")
                (s2l "1") (s2l "5") (s2l "nice") 1 5 (set_reviews [] card_blue)
                (bot_of (db_one []))
                eq_refl eq_refl ltac:(vm_compute; lia) eq_refl eq_refl eq_refl
                eq_refl eq_refl ltac:(discriminate) ltac:(vm_compute; discriminate))
    as Hrun.
  cbv zeta in Hrun.
  destruct Hrun as (_ & _ & _ & Hcard & _ & Hsession & _).
  split; [|exact Hsession].
  exact (eq_trans (f_equal (fmap reviews) Hcard) eq_refl).
Defined.

(** Admin 1 sends the new title of card 1 after the card was deleted:
    first under the release that raises, then under the release that
    skips a missing id. *)
Lemma receive_updated_title_outcomes_witness :
  state (session_of 1 bot_retitling_deleted) = Some UpdateCardTitle_write_title /\
  get_card 1 (store bot_retitling_deleted) = None /\
  ((receive_updated_title (release := raising_release) (at_time 1010)
      (txt 1 "red dragon") bot_retitling_deleted).1 = WARN_TITLE_UPDATE_ERROR /\
   session_of 1
     (receive_updated_title (release := raising_release) (at_time 1010)
        (txt 1 "red dragon") bot_retitling_deleted).2
     = session_of 1 bot_retitling_deleted) /\
  ((receive_updated_title (release := skipping_release) (at_time 1010)
      (txt 1 "red dragon") bot_retitling_deleted).1 = MSG_TITLE_UPDATED /\
   session_of 1
     (receive_updated_title (release := skipping_release) (at_time 1010)
        (txt 1 "red dragon") bot_retitling_deleted).2
     = cleared).
Proof.
  split; [reflexivity|]. split; [reflexivity|]. split.
  - pose proof (receive_updated_title_outcomes (release := raising_release)
                  (at_time 1010) (txt 1 "red dragon")
                  bot_retitling_deleted 1000%Q
                  (data (session_of 1 bot_retitling_deleted))
                  (s2l "1") (s2l "red dragon") 1
                  eq_refl eq_refl ltac:(cbn; lra) eq_refl
                  ltac:(vm_compute; split; discriminate) eq_refl
                  ltac:(discriminate) eq_refl) as Hrun.
    cbv zeta in Hrun. destruct Hrun as [_ Hgone].
    destruct (Hgone eq_refl) as (Hreply & _ & Hsession & _).
    split; [exact Hreply|exact Hsession].
  - pose proof (receive_updated_title_outcomes (release := skipping_release)
                  (at_time 1010) (txt 1 "red dragon")
                  bot_retitling_deleted 1000%Q
                  (data (session_of 1 bot_retitling_deleted))
                  (s2l "1") (s2l "red dragon") 1
                  eq_refl eq_refl ltac:(cbn; lra) eq_refl
                  ltac:(vm_compute; split; discriminate) eq_refl
                  ltac:(discriminate) eq_refl) as Hrun.
    cbv zeta in Hrun. destruct Hrun as [_ Hgone].
    destruct (Hgone eq_refl) as (Hreply & _ & _ & Hsession & _).
    split; [exact Hreply|exact Hsession].
Defined.

(** Card 9 is not stored: its deletion and the update of its title rotate
    the backups or not, and raise or not, as the release decides. *)
Lemma delete_card_effect_witness :
  get_card 9 (db_one []) = None /\
  (delete_card (release := raising_release) w0 9 (db_one [])).1
    = Raise (KeyError "doc_id") /\
  (delete_card (release := skipping_release) w0 9 (db_one [])).1 = Ok tt /\
  db (delete_card (release := skipping_release) w0 9 (db_one [])).2 = db (db_one []).
Proof.
  split; [reflexivity|].
  pose proof (delete_card_effect (release := raising_release) w0 9 (db_one []))
    as (_ & _ & _ & Hraise & _).
  pose proof (delete_card_effect (release := skipping_release) w0 9 (db_one []))
    as (_ & _ & _ & Hskip & Hdb).
  split; [exact Hraise|]. split; [exact Hskip|exact Hdb].
Defined.

Lemma update_card_effect_witness :
  get_card 9 (db_one []) = None /\
  update_card_title (release := raising_release) w0 9 (s2l "red dragon") (db_one [])
    = (Raise (KeyError "doc_id"), db_one []) /\
  update_card_title (release := skipping_release) w0 9 (s2l "red dragon") (db_one [])
    = (Ok tt, {| db := db (db_one []);
                 backup_dir := backup_database w0 (backup_dir (db_one [])) |}).
Proof.
  split; [reflexivity|].
  pose proof (update_card_effect (release := raising_release) w0 9 (s2l "red dragon")
                (db_one [])) as (Hraise & _).
  pose proof (update_card_effect (release := skipping_release) w0 9 (s2l "red dragon")
                (db_one [])) as (Hskip & _).
  split; [exact Hraise|exact Hskip].
Defined.

End MoreRuns.
